(** * X-finetune-scraper: collection pipeline, analytics and merge ranking

    A shallow embedding of [TwitterPipeline.js], [index.js],
    [DataOrganizer.js] and the merge script, with the properties of the
    natural-language specification stated against it.

    Conventions.
    - A JavaScript count (likes, retweets, a number of milliseconds) is an
      integer [Z].  A field that the code only reads through [x || d],
      [!x] or a truthiness test is an [option], [None] standing for
      [undefined], [null] and [NaN], which behave alike there.
    - The [timestamp] of a stored post is read through [!== null], which
      tells [null] from [undefined]: it is a [JsTimestamp], a number,
      [null], or [undefined] for a post that has no such key.
    - An identifier, a name or a URL is a [string]; the text of a post,
      which the regular expressions of the fine-tuning export scan, is
      the list of its UTF-16 code units ([JsText]).
    - A function that may throw returns a [result]. *)

From Stdlib Require Import ZArith NArith List Bool String Ascii Lia.
From Stdlib Require Import DecimalString.
From Stdlib Require Import Sorting.Sorted Sorting.Permutation.
Import ListNotations.
Local Open Scope string_scope.
Local Open Scope list_scope.
Local Open Scope Z_scope.

Set Implicit Arguments.

(* ================================================================== *)
(** ** JavaScript values *)

Inductive JsError : Type :=
| RangeError (message : string)
| TypeError (message : string)
| FsError (message : string)
| FeedError (message : string).

Inductive result (A : Type) : Type :=
| Ok (a : A)
| Throw (e : JsError).

Arguments Ok {A} a.
Arguments Throw {A} e.

Definition bind {A B : Type} (r : result A) (k : A -> result B) : result B :=
  match r with
  | Ok a => k a
  | Throw e => Throw e
  end.

Notation "x <- r ;; k" := (bind r (fun x => k))
  (at level 61, r at next level, right associativity).

(** A number that may be [NaN]: the time value of a [Date], or the
    timestamp field of a raw record. *)
Inductive JsNumber : Type :=
| Num (z : Z)
| NaN.

(** [x || 0] on a count. *)
Definition orZero (x : option Z) : Z :=
  match x with
  | Some z => z
  | None => 0
  end.

(** [x || d] on a list-valued field: an array is always truthy. *)
Definition orList {A : Type} (x : option (list A)) : list A :=
  match x with
  | Some l => l
  | None => []
  end.

(** [l.length === 0] *)
Definition isEmpty {A : Type} (l : list A) : bool :=
  match l with
  | [] => true
  | _ :: _ => false
  end.

(** Truthiness of a string-valued field. *)
Definition truthyString (x : option string) : bool :=
  match x with
  | Some s => negb (String.eqb s "")
  | None => false
  end.

(** Truthiness of a number-valued field. *)
Definition truthyNumber (x : option JsNumber) : bool :=
  match x with
  | Some (Num z) => negb (z =? 0)
  | Some NaN => false
  | None => false
  end.

(** [Boolean(x)] on a field that holds a boolean when present. *)
Definition toBoolean (x : option bool) : bool :=
  match x with
  | Some b => b
  | None => false
  end.

(* ================================================================== *)
(** ** [Array.prototype.sort]

    The engine's sort is stable.  With a comparator [cmp] it places [a]
    before [b] when [cmp a b < 0] and keeps the input order of elements
    that compare equal.  Insertion from the right is such a sort. *)

Section JsSort.
Variable A : Type.
Variable cmp : A -> A -> Z.

Fixpoint insertSorted (x : A) (l : list A) : list A :=
  match l with
  | [] => [x]
  | y :: l' => if cmp x y <=? 0 then x :: y :: l' else y :: insertSorted x l'
  end.

Fixpoint jsSort (l : list A) : list A :=
  match l with
  | [] => []
  | x :: l' => insertSorted x (jsSort l')
  end.
End JsSort.

(** The elements of an array that are not [undefined], written [None]. *)
Definition defined {A : Type} (l : list (option A)) : list A :=
  flat_map (fun x => match x with Some a => [a] | None => [] end) l.

Definition isUndefined {A : Type} (x : option A) : bool :=
  match x with
  | Some _ => false
  | None => true
  end.

(** [array.sort(cmp)] on an array that holds [undefined] elements: the
    sort moves them to the end and never hands them to the comparator. *)
Definition jsSortDefined {A : Type} (cmp : A -> A -> Z) (l : list (option A))
  : list (option A) :=
  map Some (jsSort cmp (defined l)) ++ filter isUndefined l.

(** [Array.prototype.slice(0, end)] for an integer [end]: a negative
    [end] counts from the end of the array. *)
Definition sliceFromZero {A : Type} (l : list A) (e : Z) : list A :=
  if e <? 0
  then firstn (Z.to_nat (Z.max (Z.of_nat (List.length l) + e) 0)) l
  else firstn (Z.to_nat e) l.

(* ================================================================== *)
(** ** Dates *)

(** [new Date(t)]: the time value is clipped to the representable range. *)
Definition maxTimeValue : Z := 8640000000000000.

Definition newDate (t : JsNumber) : JsNumber :=
  match t with
  | Num z => if Z.abs z <=? maxTimeValue then Num z else NaN
  | NaN => NaN
  end.

(** [new Date(x)] where [x] may be [undefined]. *)
Definition newDateOpt (t : option Z) : JsNumber :=
  match t with
  | Some z => newDate (Num z)
  | None => NaN
  end.

(** [a < b] on two dates: false as soon as one is invalid. *)
Definition dateLt (a b : JsNumber) : bool :=
  match a, b with
  | Num x, Num y => x <? y
  | _, _ => false
  end.

Local Infix "+++" := String.append (right associativity, at level 60).

Definition digit (n : Z) : ascii := ascii_of_N (48 + Z.to_N (n mod 10)).

(** The last [w] decimal digits of [n], zero-padded. *)
Fixpoint padded (w : nat) (n : Z) : string :=
  match w with
  | O => EmptyString
  | S w' => padded w' (n / 10) +++ String (digit n) EmptyString
  end.

Definition decimal (n : Z) : string :=
  NilZero.string_of_uint (N.to_uint (Z.to_N n)).

(** Year, month and day of a count of days since 1970-01-01, in the
    proleptic Gregorian calendar. *)
Definition civilFromDays (days : Z) : Z * Z * Z :=
  let z := days + 719468 in
  let era := z / 146097 in
  let doe := z mod 146097 in
  let yoe := (doe - doe / 1460 + doe / 36524 - doe / 146096) / 365 in
  let y := yoe + era * 400 in
  let doy := doe - (365 * yoe + yoe / 4 - yoe / 100) in
  let mp := (5 * doy + 2) / 153 in
  let d := doy - (153 * mp + 2) / 5 + 1 in
  let m := if mp <? 10 then mp + 3 else mp - 9 in
  (if m <=? 2 then y + 1 else y, m, d).

Definition msPerDay : Z := 86400000.

(** [Date.prototype.toISOString] on a valid time value. *)
Definition isoString (ms : Z) : string :=
  let '(y, m, d) := civilFromDays (ms / msPerDay) in
  let r := ms mod msPerDay in
  let year :=
    if (0 <=? y) && (y <=? 9999) then padded 4 y
    else (if y <? 0 then "-" else "+") +++ padded 6 (Z.abs y) in
  year +++ "-" +++ padded 2 m +++ "-" +++ padded 2 d +++ "T"
  +++ padded 2 (r / 3600000) +++ ":" +++ padded 2 (r / 60000 mod 60) +++ ":"
  +++ padded 2 (r / 1000 mod 60) +++ "." +++ padded 3 (r mod 1000) +++ "Z".

Definition toISOString (d : JsNumber) : result string :=
  match d with
  | Num ms => Ok (isoString ms)
  | NaN => Throw (RangeError "Invalid time value")
  end.

(** What the run-time environment contributes to the formatted output:
    - [formatDay ms] is date-fns [format(d, 'yyyy-MM-dd')] on the valid
      date of time value [ms], in the time zone of the process;
    - [toFixed2 a b] is [(a / b).toFixed(2)] for [b <> 0], the division
      being the one of IEEE doubles. *)
Record JsHost : Type := mkHost {
  formatDay : Z -> string;
  toFixed2 : Z -> Z -> string
}.

(** date-fns [format(d, 'yyyy-MM-dd')]: an invalid date is refused. *)
Definition format (host : JsHost) (d : JsNumber) : result string :=
  match d with
  | Num ms => Ok (formatDay host ms)
  | NaN => Throw (RangeError "Invalid time value")
  end.

(** [(a / b).toFixed(2)], with the quotients by zero spelled out. *)
Definition divToFixed2 (host : JsHost) (a b : Z) : string :=
  if b =? 0
  then (if a =? 0 then "NaN" else if 0 <? a then "Infinity" else "-Infinity")
  else toFixed2 host a b.

(** A host whose time zone is UTC. *)
Definition utcDay (ms : Z) : string :=
  let '(y, m, d) := civilFromDays (ms / msPerDay) in
  let year := if 0 <? y then y else 1 - y in
  (if year <? 10000 then padded 4 year else decimal year)
  +++ "-" +++ padded 2 m +++ "-" +++ padded 2 d.

(** The double nearest to the quotient of two positive integers, ties
    going to the even significand: the pair [(m, e)] stands for
    [m * 2^e], with [2^52 <= m <= 2^53]. *)
Definition nearestDouble (a b : Z) : Z * Z :=
  let k := Z.log2 a - Z.log2 b in
  let floorLog :=
    if (if 0 <=? k then b * 2 ^ k <=? a else b <=? a * 2 ^ (- k))
    then k else k - 1 in
  let e := floorLog - 52 in
  let n := if e <? 0 then a * 2 ^ (- e) else a in
  let d := if e <? 0 then b else b * 2 ^ e in
  let m := n / d in
  let r := n mod d in
  (if 2 * r <? d then m
   else if d <? 2 * r then m + 1
   else if Z.even m then m else m + 1, e).

(** [(a / b).toFixed(2)] for integers that doubles hold exactly and a
    quotient below 10^21: the quotient is rounded to a double, and of
    the double the nearest multiple of 1/100 is written, the larger one
    at a tie. *)
Definition doubleFixed2 (a b : Z) : string :=
  if a =? 0 then "0.00" else
  let '(m, e) := nearestDouble (Z.abs a) (Z.abs b) in
  let n := if e <? 0 then (200 * m + 2 ^ (- e)) / (2 * 2 ^ (- e))
           else 100 * m * 2 ^ e in
  (if (a <? 0) && (0 <? b) || (0 <? a) && (b <? 0) then "-" else "")
  +++ decimal (n / 100) +++ "." +++ padded 2 (n mod 100).

Definition utcHost : JsHost := mkHost utcDay doubleFixed2.

(* ================================================================== *)
(** ** Data model *)

Definition CodeUnit : Type := N.
Definition JsText : Type := list CodeUnit.

(** The code units of an ASCII literal. *)
Fixpoint utf16 (s : string) : JsText :=
  match s with
  | EmptyString => []
  | String c s' => N_of_ascii c :: utf16 s'
  end.

(** Truthiness of a text-valued field. *)
Definition truthyText (x : option JsText) : bool :=
  match x with
  | Some (_ :: _) => true
  | _ => false
  end.

(** The [timestamp] of a stored post. *)
Inductive JsTimestamp : Type :=
| Millis (ms : Z)
| Null
| Undefined.

(** [x !== null] *)
Definition notNull (x : JsTimestamp) : bool :=
  match x with
  | Null => false
  | _ => true
  end.

(** The timestamp as an array element: a number or [undefined]. *)
Definition millisOf (x : JsTimestamp) : option Z :=
  match x with
  | Millis ms => Some ms
  | _ => None
  end.

(** The record produced by [processTweetData] and stored in
    [raw/tweets.json]. *)
Record Post : Type := mkPost {
  id : string;
  text : option JsText;
  username : string;
  timestamp : JsTimestamp;
  createdAt : string;
  isReply : bool;
  isRetweet : bool;
  likes : option Z;
  retweetCount : option Z;
  replies : option Z;
  photos : list string;
  videos : list string;
  urls : list string;
  permanentUrl : option string;
  quotedStatusId : option string;
  inReplyToStatusId : option string;
  hashtags : list string
}.

(** The raw record yielded by the scraper library. *)
Record RawTweet : Type := mkRaw {
  raw_id : option string;
  raw_text : option JsText;
  raw_username : option string;
  raw_timestamp : option JsNumber;
  raw_timeParsed : option JsNumber;   (* time value of the Date, if any *)
  raw_isReply : option bool;
  raw_isRetweet : option bool;
  raw_likes : option Z;
  raw_retweets : option Z;
  raw_replies : option Z;
  raw_photos : option (list string);
  raw_videos : option (list string);
  raw_urls : option (list string);
  raw_permanentUrl : option string;
  raw_quotedStatusId : option string;
  raw_inReplyToStatusId : option string;
  raw_hashtags : option (list string)
}.

(* ================================================================== *)
(** ** DataOrganizer: merge ranking *)

Module Merge.

(** The options object built by the merge script from the prompt
    answers.  [rankingMethod] holds the chosen label. *)
Record MergeOptions : Type := mkOptions {
  tweetsPerAccount : option Z;
  excludeRetweets : bool;
  rankingMethod : string
}.

Definition TotalEngagement : string := "Total engagement (likes + retweets)".
Definition LikesOnly : string := "Likes only".
Definition RetweetsOnly : string := "Retweets only".

(** The pipeline directory: an account maps to its dated folders, each
    holding the parsed [raw/tweets.json] or nothing readable.  An
    account without a directory makes [readdir] throw. *)
Definition Store : Type := string -> option (list (option (list Post))).

Definition getTweetsForAccount (fs : Store) (accountName : string)
  : result (list Post) :=
  match fs accountName with
  | None => Throw (FsError "ENOENT")
  | Some dateFolders =>
      Ok (fold_left
            (fun allTweets folder =>
               match folder with
               | Some data => allTweets ++ data
               | None => allTweets
               end)
            dateFolders [])
  end.

Fixpoint loadAccounts (fs : Store) (sourceAccounts : list string)
  (allTweets : list Post) : result (list Post) :=
  match sourceAccounts with
  | [] => Ok allTweets
  | account :: rest =>
      tweets <- getTweetsForAccount fs account ;;
      loadAccounts fs rest (allTweets ++ tweets)
  end.

(** The engagement computed inside the comparator. *)
Definition engagement (t : Post) : Z :=
  orZero (likes t) + orZero (retweetCount t).

Definition rankCompare (a b : Post) : Z := engagement b - engagement a.

(** [options.tweetsPerAccount || 50] *)
Definition effectiveCap (o : MergeOptions) : Z :=
  match tweetsPerAccount o with
  | Some n => if n =? 0 then 50 else n
  | None => 50
  end.

(** The list after the optional retweet filter and the ranking sort. *)
Definition rankedTweets (o : MergeOptions) (allTweets : list Post) : list Post :=
  jsSort rankCompare
    (if excludeRetweets o
     then filter (fun tweet => negb (isRetweet tweet)) allTweets
     else allTweets).

(** The list [topTweets] that [createMergedCharacter] builds, or the
    error of an account whose directory cannot be listed.  The last
    statement of the function hands the list to [saveTweets]: the whole
    function is [MergeScript.createMergedCharacter]. *)
Definition topTweets (fs : Store) (sourceAccounts : list string)
  (o : MergeOptions) : result (list Post) :=
  allTweets <- loadAccounts fs sourceAccounts [] ;;
  Ok (sliceFromZero (rankedTweets o allTweets) (effectiveCap o)).

End Merge.

(* ================================================================== *)
(** ** TwitterPipeline *)

Module Pipeline.

(** The integer read from an environment variable by [parseInt], [None]
    when the variable is unset or not a number. *)
Record Env : Type := mkEnv {
  MAX_TWEETS : option Z;
  MAX_RETRIES : option Z;
  RETRY_DELAY : option Z;
  MIN_DELAY : option Z;
  MAX_DELAY : option Z
}.

(** [parseInt(v) || d] *)
Definition orDefault (v : option Z) (d : Z) : Z :=
  match v with
  | Some z => if z =? 0 then d else z
  | None => d
  end.

Record TwitterConfig : Type := mkTwitterConfig {
  maxTweets : Z;
  maxRetries : Z;
  retryDelay : Z;
  minDelayBetweenRequests : Z;
  maxDelayBetweenRequests : Z;
  rateLimitThreshold : Z
}.

Record FallbackConfig : Type := mkFallbackConfig {
  enabled : bool;
  sessionDuration : Z
}.

Record Config : Type := mkConfig {
  twitter : TwitterConfig;
  fallback : FallbackConfig
}.

Definition makeConfig (env : Env) : Config :=
  mkConfig
    (mkTwitterConfig
       (orDefault (MAX_TWEETS env) 50000)
       (orDefault (MAX_RETRIES env) 5)
       (orDefault (RETRY_DELAY env) 5000)
       (orDefault (MIN_DELAY env) 1000)
       (orDefault (MAX_DELAY env) 3000)
       3)
    (mkFallbackConfig true (30 * 60 * 1000)).

Record Stats : Type := mkStats {
  requestCount : Z;
  rateLimitHits : Z;
  retriesCount : Z;
  uniqueTweets : Z;
  fallbackCount : Z;
  startTime : Z;
  oldestTweetDate : option JsNumber;
  newestTweetDate : option JsNumber;
  fallbackUsed : bool
}.

Definition initialStats (now : Z) : Stats :=
  mkStats 0 0 0 0 0 now None None false.

Definition incrRequestCount (s : Stats) : Stats :=
  mkStats (requestCount s + 1) (rateLimitHits s) (retriesCount s)
    (uniqueTweets s) (fallbackCount s) (startTime s)
    (oldestTweetDate s) (newestTweetDate s) (fallbackUsed s).

Definition incrUniqueTweets (s : Stats) : Stats :=
  mkStats (requestCount s) (rateLimitHits s) (retriesCount s)
    (uniqueTweets s + 1) (fallbackCount s) (startTime s)
    (oldestTweetDate s) (newestTweetDate s) (fallbackUsed s).

Definition setOldest (s : Stats) (d : JsNumber) : Stats :=
  mkStats (requestCount s) (rateLimitHits s) (retriesCount s)
    (uniqueTweets s) (fallbackCount s) (startTime s)
    (Some d) (newestTweetDate s) (fallbackUsed s).

Definition setNewest (s : Stats) (d : JsNumber) : Stats :=
  mkStats (requestCount s) (rateLimitHits s) (retriesCount s)
    (uniqueTweets s) (fallbackCount s) (startTime s)
    (oldestTweetDate s) (Some d) (fallbackUsed s).

(** The two date trackers updated by [processTweetData]. *)
Definition trackDates (s : Stats) (tweetDate : JsNumber) : Stats :=
  let s1 :=
    match oldestTweetDate s with
    | None => setOldest s tweetDate
    | Some oldest => if dateLt tweetDate oldest then setOldest s tweetDate else s
    end in
  match newestTweetDate s1 with
  | None => setNewest s1 tweetDate
  | Some newest => if dateLt newest tweetDate then setNewest s1 tweetDate else s1
  end.

(** The timestamp taken from the epoch field or, when that is falsy,
    from the parsed date ([tweet.timeParsed?.getTime()]). *)
Definition derivedTimestamp (tweet : RawTweet) : option JsNumber :=
  if truthyNumber (raw_timestamp tweet)
  then raw_timestamp tweet
  else raw_timeParsed tweet.

(** [if (timestamp < 1e12) timestamp *= 1000] *)
Definition rescale (z : Z) : Z := if z <? 10 ^ 12 then z * 1000 else z.

(** [processTweetData].  The body runs inside [try]; the only call that
    can throw is [toISOString], after the date trackers were updated, and
    the [catch] turns it into [null].  On a number that passed
    [!timestamp] the test [isNaN(timestamp)] is false. *)
Definition processTweetData (thisUsername : string) (stats : Stats)
  (tweet : option RawTweet) : Stats * option Post :=
  match tweet with
  | None => (stats, None)
  | Some tweet =>
      match raw_id tweet with
      | None => (stats, None)
      | Some tweetId =>
          if String.eqb tweetId "" then (stats, None) else
          match derivedTimestamp tweet with
          | None => (stats, None)
          | Some NaN => (stats, None)
          | Some (Num z) =>
              if z =? 0 then (stats, None) else
              let timestamp := rescale z in
              if timestamp <=? 0 then (stats, None) else
              let tweetDate := newDate (Num timestamp) in
              let stats' := trackDates stats tweetDate in
              match toISOString (newDate (Num timestamp)) with
              | Throw _ => (stats', None)
              | Ok iso =>
                  (stats',
                   Some (mkPost
                     tweetId
                     (raw_text tweet)
                     (if truthyString (raw_username tweet)
                      then match raw_username tweet with
                           | Some u => u
                           | None => thisUsername
                           end
                      else thisUsername)
                     (Millis timestamp)
                     iso
                     (toBoolean (raw_isReply tweet))
                     (toBoolean (raw_isRetweet tweet))
                     (Some (orZero (raw_likes tweet)))
                     (Some (orZero (raw_retweets tweet)))
                     (Some (orZero (raw_replies tweet)))
                     (orList (raw_photos tweet))
                     (orList (raw_videos tweet))
                     (orList (raw_urls tweet))
                     (raw_permanentUrl tweet)
                     (raw_quotedStatusId tweet)
                     (raw_inReplyToStatusId tweet)
                     (orList (raw_hashtags tweet))))
              end
          end
      end
  end.

(** One step of the asynchronous iterator returned by the scraper. *)
Inductive FeedEvent : Type :=
| Yield (tweet : RawTweet)
| Raise (e : JsError).

(** The scraper library: [searchTweets query maxTweets] is the sequence
    of steps the returned iterator takes; [logout] is the outcome of the
    logout call. *)
Record Scraper : Type := mkScraper {
  searchTweets : string -> Z -> list FeedEvent;
  logout : result unit
}.

(** The browser cluster of the fallback path. *)
Record Cluster : Type := mkCluster {
  maxConcurrency : Z;
  timeout : Z;
  close : result unit
}.

(** The pipeline object.  [tweetFilter] is [shouldIncludeTweet] of the
    configured TweetFilter, whose file is not part of the sources. *)
Record Pipeline : Type := mkPipeline {
  thisUsername : string;
  config : Config;
  tweetFilter : RawTweet -> bool;
  scraper : Scraper;
  cluster : option Cluster;
  stats : Stats
}.

Definition withStats (p : Pipeline) (s : Stats) : Pipeline :=
  mkPipeline (thisUsername p) (config p) (tweetFilter p) (scraper p)
    (cluster p) s.

Definition withCluster (p : Pipeline) (c : option Cluster) : Pipeline :=
  mkPipeline (thisUsername p) (config p) (tweetFilter p) (scraper p)
    c (stats p).

(** The constructor. *)
Definition newPipeline (env : Env) (username : string)
  (filter : RawTweet -> bool) (sc : Scraper) (now : Z) : Pipeline :=
  mkPipeline username (makeConfig env) filter sc None (initialStats now).

(** [initializeFallback]: launches the cluster unless one exists. *)
Definition initializeFallback (launched : result unit) (p : Pipeline) : Pipeline :=
  match cluster p with
  | None => withCluster p (Some (mkCluster 1 30000 launched))
  | Some _ => p
  end.

(** The body of [for await (const tweet of tweetIterator)]. *)
Fixpoint collectLoop (p : Pipeline) (events : list FeedEvent)
  (collectedTweets : list Post) : Pipeline * result (list Post) :=
  match events with
  | [] => (p, Ok collectedTweets)
  | Raise e :: _ => (p, Throw e)
  | Yield tweet :: rest =>
      let p1 := withStats p (incrRequestCount (stats p)) in
      if tweetFilter p1 tweet
      then
        let '(s2, processedTweet) :=
          processTweetData (thisUsername p1) (stats p1) (Some tweet) in
        let p2 := withStats p1 s2 in
        match processedTweet with
        | Some post =>
            collectLoop (withStats p2 (incrUniqueTweets (stats p2))) rest
              (collectedTweets ++ [post])
        | None => collectLoop p2 rest collectedTweets
        end
      else collectLoop p1 rest collectedTweets
  end.

(** The search query.  [fromDateObj] and [toDateObj] are the dates built
    from the two arguments, absent when the argument is falsy. *)
Definition searchQuery (host : JsHost) (p : Pipeline)
  (fromDateObj toDateObj : option JsNumber) : result string :=
  let q0 := "from:" +++ thisUsername p in
  q1 <- match fromDateObj with
        | Some d => day <- format host d ;; Ok (q0 +++ " since:" +++ day)
        | None => Ok q0
        end ;;
  match toDateObj with
  | Some d => day <- format host d ;; Ok (q1 +++ " until:" +++ day)
  | None => Ok q1
  end.

(** [collectTweets].  The query is never empty, so the iterator always
    comes from [searchTweets]; the [catch] logs and throws again. *)
Definition collectTweets (host : JsHost) (p : Pipeline)
  (fromDateObj toDateObj : option JsNumber) : Pipeline * result (list Post) :=
  match searchQuery host p fromDateObj toDateObj with
  | Throw e => (p, Throw e)
  | Ok query =>
      collectLoop p
        (searchTweets (scraper p) query (maxTweets (twitter (config p)))) []
  end.

(** *** Progress file and cleanup *)

Record Progress : Type := mkProgress {
  completed : bool;
  endTime : string;
  progressFallbackUsed : option bool;
  progressFallbackCount : option Z;
  progressRateLimitHits : option Z;
  error : option string
}.

(** The four keys [saveProgress] writes into [meta/progress.json]. *)
Record ProgressRecord : Type := mkProgressRecord {
  progress : Progress;
  totalTweets : Z;
  startDate : option string;
  endDate : option string
}.

(** The process: the [pipeline] variable of [index.js], the progress
    file, whether the disk accepts a write, and what happened to the
    session, the cluster and the process itself. *)
Record World : Type := mkWorld {
  pipeline : option Pipeline;
  progressFile : option ProgressRecord;
  diskWritable : bool;
  sessionReleased : bool;
  clusterClosed : bool;
  exitCode : option Z
}.

Definition releaseSession (w : World) : World :=
  mkWorld (pipeline w) (progressFile w) (diskWritable w) true
    (clusterClosed w) (exitCode w).

Definition markClusterClosed (w : World) : World :=
  mkWorld (pipeline w) (progressFile w) (diskWritable w) (sessionReleased w)
    true (exitCode w).

Definition writeProgress (w : World) (r : ProgressRecord) : World :=
  mkWorld (pipeline w) (Some r) (diskWritable w) (sessionReleased w)
    (clusterClosed w) (exitCode w).

Definition exit (w : World) (code : Z) : World :=
  mkWorld (pipeline w) (progressFile w) (diskWritable w) (sessionReleased w)
    (clusterClosed w) (Some code).

Definition errorMessage (e : JsError) : string :=
  match e with
  | RangeError m | TypeError m | FsError m | FeedError m => m
  end.

(** [saveProgress] *)
Definition saveProgress (w : World) (startDate endDate : option string)
  (totalTweets : Z) (pr : Progress) : World * result unit :=
  if diskWritable w
  then (writeProgress w (mkProgressRecord pr totalTweets startDate endDate), Ok tt)
  else (w, Throw (FsError "EACCES")).

(** The [try] block of [TwitterPipeline.cleanup]. *)
Definition cleanupBody (now : Z) (p : Pipeline) (w : World) : World * result unit :=
  match logout (scraper p) with
  | Throw e => (w, Throw e)
  | Ok _ =>
      let w1 := releaseSession w in
      let closed :=
        match cluster p with
        | Some c =>
            match close c with
            | Ok _ => (markClusterClosed w1, Ok tt)
            | Throw e => (w1, Throw e)
            end
        | None => (w1, Ok tt)
        end in
      match closed with
      | (w2, Throw e) => (w2, Throw e)
      | (w2, Ok _) =>
          saveProgress w2 None None (uniqueTweets (stats p))
            (mkProgress true (isoString now)
               (Some (fallbackUsed (stats p)))
               (Some (fallbackCount (stats p)))
               (Some (rateLimitHits (stats p)))
               None)
      end
  end.

(** [TwitterPipeline.cleanup], reached from the [catch] of [run]. *)
Definition cleanup (now : Z) (p : Pipeline) (w : World) : World * result unit :=
  match cleanupBody now p w with
  | (w', Ok _) => (w', Ok tt)
  | (w', Throw e) =>
      saveProgress w' None None (uniqueTweets (stats p))
        (mkProgress true (isoString now) None None None (Some (errorMessage e)))
  end.

(** The handler [index.js] installs for SIGINT and SIGTERM. *)
Definition signalCleanup (w : World) : World :=
  let w1 :=
    match pipeline w with
    | Some p =>
        match logout (scraper p) with
        | Ok _ => releaseSession w
        | Throw _ => w
        end
    | None => w
    end in
  exit w1 0.

End Pipeline.

(* ================================================================== *)
(** ** DataOrganizer: analytics *)

Module Analytics.

Record TopTweet : Type := mkTopTweet {
  topId : string;
  topText : option JsText;
  topLikes : option Z;
  topRetweetCount : option Z;
  topReplies : option Z;
  topTimestamp : JsTimestamp;
  url : option string
}.

Record Engagement : Type := mkEngagement {
  totalLikes : Z;
  totalRetweetCount : Z;
  totalReplies : Z;
  averageLikes : string;
  topTweets : list TopTweet
}.

Record TimeRange : Type := mkTimeRange {
  rangeStart : string;
  rangeEnd : string
}.

Record ContentTypes : Type := mkContentTypes {
  withImages : Z;
  withVideos : Z;
  withLinks : Z;
  textOnly : Z
}.

Record Analytics : Type := mkAnalytics {
  totalTweets : Z;
  directTweets : Z;
  replyTweets : Z;       (* the key [replies] *)
  retweets : Z;
  engagement : Engagement;
  timeRange : TimeRange;
  contentTypes : ContentTypes
}.

(** [array.filter(f).length] *)
Definition countIf {A : Type} (f : A -> bool) (l : list A) : Z :=
  Z.of_nat (List.length (filter f l)).

(** [array.reduce((sum, t) => sum + (field(t) || 0), 0)] *)
Definition sumOf (field : Post -> option Z) (l : list Post) : Z :=
  fold_left (fun sum t => sum + orZero (field t)) l 0.

Definition notRetweet (t : Post) : bool := negb (isRetweet t).

(** The comparator of the top-tweet sort. *)
Definition likesCompare (a b : Post) : Z := orZero (likes b) - orZero (likes a).

Definition summary (t : Post) : TopTweet :=
  mkTopTweet (id t) (text t) (likes t) (retweetCount t) (replies t)
    (timestamp t) (permanentUrl t).

(** The value returned for an empty input. *)
Definition emptyAnalytics : Analytics :=
  mkAnalytics 0 0 0 0
    (mkEngagement 0 0 0 "0.00" [])
    (mkTimeRange "N/A" "N/A")
    (mkContentTypes 0 0 0 0).

(** [tweets.filter(t => t.timestamp !== null)] *)
Definition validTweets (tweets : list Post) : list Post :=
  filter (fun t => notNull (timestamp t)) tweets.

(** [validTweets.map(t => t.timestamp).sort((a, b) => a - b)]: the
    numbers in ascending order, then one [undefined] for each post that
    has no timestamp key. *)
Definition validDates (tweets : list Post) : list (option Z) :=
  jsSortDefined (fun a b => a - b)
    (map (fun t => millisOf (timestamp t)) (validTweets tweets)).

(** [validDates[0]] and [validDates[validDates.length - 1]]:
    [undefined] on an empty array, and where the element is. *)
Definition firstDate (dates : list (option Z)) : option Z :=
  match dates with
  | x :: _ => x
  | [] => None
  end.

Definition lastDate (dates : list (option Z)) : option Z :=
  firstDate (rev dates).

Definition topTweetsOf (tweets : list Post) : list TopTweet :=
  map summary
    (sliceFromZero (jsSort likesCompare (filter notRetweet tweets)) 5).

(** [generateAnalytics] *)
Definition generateAnalytics (host : JsHost) (tweets : list Post)
  : result Analytics :=
  if isEmpty tweets then Ok emptyAnalytics else
  let dates := validDates tweets in
  let tweetsForEngagement := filter notRetweet tweets in
  let eng :=
    mkEngagement
      (sumOf likes tweetsForEngagement)
      (sumOf retweetCount tweetsForEngagement)
      (sumOf replies tweetsForEngagement)
      (divToFixed2 host (sumOf likes tweetsForEngagement)
         (Z.of_nat (List.length tweetsForEngagement)))
      (topTweetsOf tweets) in
  rangeStart <- format host (newDateOpt (firstDate dates)) ;;
  rangeEnd <- format host (newDateOpt (lastDate dates)) ;;
  Ok (mkAnalytics
        (Z.of_nat (List.length tweets))
        (countIf (fun t => negb (isReply t) && negb (isRetweet t)) tweets)
        (countIf (fun t => isReply t) tweets)
        (countIf (fun t => isRetweet t) tweets)
        eng
        (mkTimeRange rangeStart rangeEnd)
        (mkContentTypes
           (countIf (fun t => negb (isEmpty (photos t))) tweets)
           (countIf (fun t => negb (isEmpty (videos t))) tweets)
           (countIf (fun t => negb (isEmpty (urls t))) tweets)
           (countIf (fun t => isEmpty (photos t) && isEmpty (videos t)
                              && isEmpty (urls t)) tweets))).

End Analytics.

(* ================================================================== *)
(** ** DataOrganizer: fine-tuning export *)

Module Finetuning.

(** The characters [\s] matches, which are also the ones [trim] strips. *)
Definition isSpace (c : CodeUnit) : bool :=
  ((9 <=? c) && (c <=? 13) || (c =? 32) || (c =? 160) || (c =? 5760)
   || (8192 <=? c) && (c <=? 8202) || (c =? 8232) || (c =? 8233)
   || (c =? 8239) || (c =? 8287) || (c =? 12288) || (c =? 65279))%N.

Definition notSpace (c : CodeUnit) : bool := negb (isSpace c).

Definition hash : CodeUnit := 35%N.
Definition blank : CodeUnit := 32%N.

(** [[^\s#]] *)
Definition tagChar (c : CodeUnit) : bool := notSpace c && negb (c =? hash)%N.

(** The remainder of [s] after the literal [p], if [s] starts with it. *)
Fixpoint afterPrefix (p s : JsText) : option JsText :=
  match p, s with
  | [], _ => Some s
  | a :: p', b :: s' => if (a =? b)%N then afterPrefix p' s' else None
  | _ :: _, [] => None
  end.

(** A literal followed by at least one character of the class [cls]. *)
Definition literalThen (p : JsText) (cls : CodeUnit -> bool) (s : JsText) : bool :=
  match afterPrefix p s with
  | Some (d :: _) => cls d
  | _ => false
  end.

(** [/(?:https?:\/\/|www\.)[^\s]+/] matches at the head of [s]. *)
Definition urlAt (s : JsText) : bool :=
  literalThen (utf16 "http://") notSpace s
  || literalThen (utf16 "https://") notSpace s
  || literalThen (utf16 "www.") notSpace s.

(** [/#[^\s#]+/] matches at the head of [s]. *)
Definition tagAt (s : JsText) : bool := literalThen [hash] tagChar s.

(** [s.replace(re, '')] with the global flag, for an expression that
    matches where [start] holds and then takes the longest run of [body]
    characters: [skip] tells that a match is being consumed.  After a
    match the scan resumes at the character that ended it. *)
Fixpoint erase (start : JsText -> bool) (body : CodeUnit -> bool)
  (skip : bool) (s : JsText) : JsText :=
  match s with
  | [] => []
  | c :: s' =>
      if skip && body c then erase start body true s'
      else if start s then erase start body true s'
      else c :: erase start body false s'
  end.

Definition removeUrls (s : JsText) : JsText := erase urlAt notSpace false s.
Definition removeHashtags (s : JsText) : JsText := erase tagAt tagChar false s.

(** [s.replace(/\s+/g, ' ')]: [inRun] tells that the blank for the
    current run was already written. *)
Fixpoint collapse (inRun : bool) (s : JsText) : JsText :=
  match s with
  | [] => []
  | c :: s' =>
      if isSpace c
      then (if inRun then collapse true s' else blank :: collapse true s')
      else c :: collapse false s'
  end.

Fixpoint trimStart (s : JsText) : JsText :=
  match s with
  | [] => []
  | c :: s' => if isSpace c then trimStart s' else s
  end.

Fixpoint trimEnd (s : JsText) : JsText :=
  match s with
  | [] => []
  | c :: s' =>
      match trimEnd s' with
      | [] => if isSpace c then [] else [c]
      | r => c :: r
      end
  end.

Definition trim (s : JsText) : JsText := trimEnd (trimStart s).

(** The chain of replacements applied to [tweet.text]. *)
Definition cleanText (s : JsText) : JsText :=
  trim (collapse false (removeHashtags (removeUrls s))).

Record Entry : Type := mkEntry { entryText : JsText }.

(** The callback of the first [filter]. *)
Definition selected (tweet : Post) : bool :=
  negb (isRetweet tweet) && truthyText (text tweet)
  && notNull (timestamp tweet).

(** The callback of [map]: [null] when nothing is left of the text. *)
Definition toEntry (tweet : Post) : option Entry :=
  match cleanText (orList (text tweet)) with
  | [] => None
  | cleaned => Some (mkEntry cleaned)
  end.

(** The last [filter]: drops [null] and entries with an empty text. *)
Fixpoint keepEntries (l : list (option Entry)) : list Entry :=
  match l with
  | [] => []
  | Some e :: l' =>
      if (0 <? List.length (entryText e))%nat then e :: keepEntries l'
      else keepEntries l'
  | None :: l' => keepEntries l'
  end.

(** [generateFinetuningData] *)
Definition generateFinetuningData (tweets : list Post) : list Entry :=
  keepEntries (map toEntry (filter selected tweets)).

End Finetuning.

(* ================================================================== *)
(** ** Predicates used in the statements *)

(** Later elements never have a larger key. *)
Definition Descending {A : Type} (key : A -> Z) (l : list A) : Prop :=
  StronglySorted (fun a b => key b <= key a) l.

(** No suffix of [s] starts with a match of the expression whose
    matches begin where [start] holds. *)
Fixpoint matchFree (start : JsText -> bool) (s : JsText) : Prop :=
  match s with
  | [] => True
  | _ :: s' => start s = false /\ matchFree start s'
  end.

(** Every white-space character of [s] is a blank that is not followed
    by another white-space character. *)
Fixpoint singleSpaced (s : JsText) : Prop :=
  match s with
  | [] => True
  | c :: s' =>
      (Finetuning.isSpace c = true ->
       c = Finetuning.blank
       /\ match s' with
          | d :: _ => Finetuning.isSpace d = false
          | [] => True
          end)
      /\ singleSpaced s'
  end.

(** A match of [start] begins with a character that is not white space,
    goes on with characters of the class [cls], and depends on nothing
    after them. *)
Definition shaped (cls : CodeUnit -> bool) (start : JsText -> bool) : Prop :=
  forall s, start s = true ->
    exists c w r,
      s = c :: w ++ r
      /\ Finetuning.notSpace c = true
      /\ Forall (fun x => cls x = true) w
      /\ forall r', start (c :: w ++ r') = true.

(** Two cleaned texts put end to end: a blank goes between them when
    neither is empty. *)
Definition joinWords (x y : JsText) : JsText :=
  if isEmpty y then x
  else if isEmpty x then y
  else x ++ Finetuning.blank :: y.

(** The three literals an URL may begin with. *)
Definition urlLiterals : list JsText :=
  [utf16 "http://"; utf16 "https://"; utf16 "www."].

(** What [processTweetData] leaves alone in the statistics. *)
Definition sameCounters (s s' : Pipeline.Stats) : Prop :=
  Pipeline.rateLimitHits s' = Pipeline.rateLimitHits s
  /\ Pipeline.retriesCount s' = Pipeline.retriesCount s
  /\ Pipeline.fallbackCount s' = Pipeline.fallbackCount s
  /\ Pipeline.fallbackUsed s' = Pipeline.fallbackUsed s
  /\ Pipeline.startTime s' = Pipeline.startTime s.

(** What [collectTweets] leaves alone in the pipeline object. *)
Definition sameSession (p p' : Pipeline.Pipeline) : Prop :=
  Pipeline.cluster p' = Pipeline.cluster p
  /\ Pipeline.config p' = Pipeline.config p
  /\ Pipeline.scraper p' = Pipeline.scraper p
  /\ Pipeline.tweetFilter p' = Pipeline.tweetFilter p
  /\ Pipeline.thisUsername p' = Pipeline.thisUsername p
  /\ sameCounters (Pipeline.stats p) (Pipeline.stats p').

(** The raw records [processTweetData] answers with [null]: no record,
    an absent or empty id, no truthy timestamp in either field, or a
    timestamp that after rescaling is not positive or lies beyond the
    last representable date. *)
Definition rejected (tweet : option RawTweet) : Prop :=
  match tweet with
  | None => True
  | Some t =>
      truthyString (raw_id t) = false
      \/ truthyNumber (Pipeline.derivedTimestamp t) = false
      \/ exists z,
           Pipeline.derivedTimestamp t = Some (Num z)
           /\ (Pipeline.rescale z <= 0 \/ maxTimeValue < Pipeline.rescale z)
  end.

(* ================================================================== *)
(** ** Sample data *)

Module Sample.

(** A post of two letters; without a date its timestamp is [null]. *)
Definition post (name : string) (ts : option Z) (rt : bool)
  (nLikes nRetweets : Z) : Post :=
  mkPost name (Some (utf16 "gm")) "alice"
    (match ts with Some ms => Millis ms | None => Null end) "" false rt
    (Some nLikes) (Some nRetweets) (Some 0) [] [] [] None None None [].

Definition raw (name : option string) (ts : option JsNumber) : RawTweet :=
  mkRaw name (Some (utf16 "gm")) None ts None None None None None None
    None None None None None None None.

(** Two accounts with one dated folder each. *)
Definition liked : Post := post "a1" (Some 1700000000000) false 10 0.
Definition shared : Post := post "b1" (Some 1700000000000) false 5 100.

Definition twoAccounts : Merge.Store :=
  fun account =>
    if String.eqb account "a" then Some [Some [liked]]
    else if String.eqb account "b" then Some [Some [shared]]
    else None.

(** The accounts of the merge example of the specification. *)
Definition a100 : Post := post "a100" (Some 1700000000000) false 100 0.
Definition a5 : Post := post "a5" (Some 1700000000000) false 5 0.
Definition b110 : Post := post "b110" (Some 1700000000000) false 50 60.

Definition specAccounts : Merge.Store :=
  fun account =>
    if String.eqb account "a" then Some [Some [a100; a5]]
    else if String.eqb account "b" then Some [Some [b110]]
    else None.

(** A record dated in seconds, one dated beyond the last valid date,
    and a scraper whose iterator yields one record and then fails. *)
Definition rawSeconds : RawTweet := raw (Some "1") (Some (Num 1700000000)).
Definition rawFarFuture : RawTweet :=
  raw (Some "1") (Some (Num 9000000000000000)).

Definition rateLimited : JsError := FeedError "Rate limit exceeded".

Definition limitedScraper : Pipeline.Scraper :=
  Pipeline.mkScraper (fun _ _ => [Pipeline.Yield rawSeconds; Pipeline.Raise rateLimited])
    (Ok tt).

Definition noEnv : Pipeline.Env := Pipeline.mkEnv None None None None None.

Definition limitedPipeline : Pipeline.Pipeline :=
  Pipeline.newPipeline noEnv "alice" (fun _ => true) limitedScraper 0.

(** The process in the middle of a run: nothing written yet. *)
Definition midRun : Pipeline.World :=
  Pipeline.mkWorld (Some limitedPipeline) None true false false None.

Definition undated : Post := post "u1" None false 3 0.
Definition undatedRetweet : Post := post "u2" None true 3 0.
Definition datedRetweet : Post := post "r1" (Some 1700000000000) true 7 2.

End Sample.

(* ================================================================== *)
(** ** TwitterPipeline: error log *)

Module ErrorLog.

(** One element of [meta/error_log.json]. *)
Record Entry : Type := mkEntry {
  logTimestamp : string;
  message : string;
  context : list (string * string);
  contextUsername : string;
  contextSessionDuration : Z;
  logStats : Pipeline.Stats;
  delayMin : Z;
  delayMax : Z;
  retries : Z;
  fallbackEnabled : bool;
  fallbackSessionDuration : Z
}.

Definition makeEntry (now : Z) (p : Pipeline.Pipeline) (e : JsError)
  (context : list (string * string)) : Entry :=
  mkEntry (isoString now) (Pipeline.errorMessage e) context
    (Pipeline.thisUsername p)
    (now - Pipeline.startTime (Pipeline.stats p))
    (Pipeline.stats p)
    (Pipeline.minDelayBetweenRequests (Pipeline.twitter (Pipeline.config p)))
    (Pipeline.maxDelayBetweenRequests (Pipeline.twitter (Pipeline.config p)))
    (Pipeline.maxRetries (Pipeline.twitter (Pipeline.config p)))
    (Pipeline.enabled (Pipeline.fallback (Pipeline.config p)))
    (Pipeline.sessionDuration (Pipeline.fallback (Pipeline.config p))).

(** [array.slice(-n)]: the last [n] elements. *)
Definition sliceLast {A : Type} (n : nat) (l : list A) : list A :=
  skipn (List.length l - n) l.

(** [logError].  [file] is the parsed log, [None] when it cannot be
    read; a failed write is logged and goes no further, so the value is
    the file after the call. *)
Definition logError (now : Z) (p : Pipeline.Pipeline) (e : JsError)
  (context : list (string * string)) (file : option (list Entry))
  (writable : bool) : option (list Entry) :=
  let existingLogs := orList file ++ [makeEntry now p e context] in
  let existingLogs :=
    if (100 <? List.length existingLogs)%nat
    then sliceLast 100 existingLogs
    else existingLogs in
  if writable then Some existingLogs else file.

End ErrorLog.

(* ================================================================== *)
(** ** DataOrganizer: saving a corpus *)

Module Storage.

(** The files of one dated folder, [None] when absent. *)
Record Partition : Type := mkPartition {
  rawTweets : option (list Post);                  (* raw/tweets.json *)
  rawUrls : option string;                         (* raw/urls.txt *)
  statsFile : option Analytics.Analytics;          (* analytics/stats.json *)
  finetuningFile : option (list Finetuning.Entry); (* processed/finetuning.jsonl *)
  summaryFile : option string                      (* exports/summary.md *)
}.

Definition emptyPartition : Partition := mkPartition None None None None None.

Definition newline : string := String (ascii_of_nat 10) EmptyString.

(** [array.join('\n')]: an absent element is written as nothing. *)
Fixpoint joinLines (l : list (option string)) : string :=
  match l with
  | [] => EmptyString
  | [x] => match x with Some s => s | None => EmptyString end
  | x :: rest =>
      match x with Some s => s | None => EmptyString end
      +++ newline +++ joinLines rest
  end.

(** [saveTweets].  [summaryOf] is [generateSummary], whose text depends
    on the clock and the locale; [writable] tells whether the disk takes
    a write.  The writes happen in the order of the source, and the
    [catch] throws the error again. *)
Definition saveTweets (host : JsHost)
  (summaryOf : list Post -> Analytics.Analytics -> string)
  (writable : bool) (files : Partition) (tweets : list Post)
  : Partition * result Analytics.Analytics :=
  if negb writable then (files, Throw (FsError "EACCES")) else
  let files1 :=
    mkPartition (Some tweets) (rawUrls files) (statsFile files)
      (finetuningFile files) (summaryFile files) in
  let files2 :=
    mkPartition (rawTweets files1) (Some (joinLines (map permanentUrl tweets)))
      (statsFile files1) (finetuningFile files1) (summaryFile files1) in
  match Analytics.generateAnalytics host tweets with
  | Throw e => (files2, Throw e)
  | Ok analytics =>
      let files3 :=
        mkPartition (rawTweets files2) (rawUrls files2) (Some analytics)
          (finetuningFile files2) (summaryFile files2) in
      let finetuningData := Finetuning.generateFinetuningData tweets in
      let files4 :=
        if (0 <? List.length finetuningData)%nat
        then mkPartition (rawTweets files3) (rawUrls files3) (statsFile files3)
               (Some finetuningData) (summaryFile files3)
        else files3 in
      (mkPartition (rawTweets files4) (rawUrls files4) (statsFile files4)
         (finetuningFile files4) (Some (summaryOf tweets analytics)),
       Ok analytics)
  end.

End Storage.

(* ================================================================== *)
(** ** TwitterPipeline: the run *)

Module Run.

(** The credentials read from the environment. *)
Record Credentials : Type := mkCredentials {
  TWITTER_USERNAME : option string;
  TWITTER_PASSWORD : option string;
  TWITTER_AUTH_TOKEN : option string;
  TWITTER_CT0 : option string
}.

(** [validateEnvironment]: [false] stands for [process.exit(1)]. *)
Definition validateEnvironment (c : Credentials) : bool :=
  isEmpty (filter (fun v => negb (truthyString v))
             [TWITTER_USERNAME c; TWITTER_PASSWORD c]).

Record Profile : Type := mkProfile {
  following : option Z;
  profileLikes : option Z
}.

(** What the scraper answers to the calls of the authentication and of
    the profile request. *)
Record Session : Type := mkSession {
  setCookies : result unit;
  isLoggedIn : result bool;
  fetchProfile : result Profile
}.

(** [initializeScraper] *)
Definition initializeScraper (c : Credentials) (s : Session) : bool :=
  if truthyString (TWITTER_AUTH_TOKEN c) && truthyString (TWITTER_CT0 c)
  then
    match setCookies s with
    | Throw _ => false
    | Ok _ =>
        match isLoggedIn s with
        | Ok true => true
        | Ok false => false
        | Throw _ => false
        end
    end
  else false.

(** [getProfile]: [null] when the request fails.  The copy the source
    keeps in [stats.profile] is read by nothing and is left out. *)
Definition getProfile (s : Session) : option Profile :=
  match fetchProfile s with
  | Ok profile => Some (mkProfile (following profile) (profileLikes profile))
  | Throw _ => None
  end.

(** The sample of top tweets printed by [displaySummary]: the date of a
    tweet with a truthy timestamp is formatted. *)
Fixpoint displayTopTweets (host : JsHost) (l : list Analytics.TopTweet)
  : result unit :=
  match l with
  | [] => Ok tt
  | tweet :: rest =>
      match Analytics.topTimestamp tweet with
      | Millis ms =>
          if ms =? 0 then displayTopTweets host rest
          else _ <- format host (newDate (Num ms)) ;; displayTopTweets host rest
      | _ => displayTopTweets host rest
      end
  end.

(** [displaySummary] prints; only the formatting of a date can throw. *)
Definition displaySummary (host : JsHost) (analytics : Analytics.Analytics)
  : result unit :=
  displayTopTweets host (Analytics.topTweets (Analytics.engagement analytics)).

(** The filter options in force after the first lines of [run]: the
    dates built from [fromDate] and [toDate], and [shouldIncludeTweet] of
    the filter once [setOptions] was called. *)
Record FilterSetup : Type := mkFilterSetup {
  fromDateObj : option JsNumber;
  toDateObj : option JsNumber;
  include : RawTweet -> bool
}.

(** What lies outside the pipeline object during a run.  [filterStep]
    is the outcome of choosing and installing the filter options, code of
    TweetFilter: an error, no options, or options. *)
Record Outside : Type := mkOutside {
  host : JsHost;
  summaryOf : list Post -> Analytics.Analytics -> string;
  now : Z;
  credentials : Credentials;
  session : Session;
  filterStep : result (option FilterSetup)
}.

Record Machine : Type := mkMachine {
  pipe : Pipeline.Pipeline;
  world : Pipeline.World;
  files : Storage.Partition
}.

Inductive Outcome : Type :=
| Finished                 (* the promise resolves with [undefined] *)
| CleanedUp                (* resolves with [null] after [cleanup] *)
| Exited (code : Z)        (* [process.exit] inside the run *)
| Rejected (e : JsError).  (* the promise rejects *)

Definition withFilter (p : Pipeline.Pipeline) (f : RawTweet -> bool)
  : Pipeline.Pipeline :=
  Pipeline.mkPipeline (Pipeline.thisUsername p) (Pipeline.config p) f
    (Pipeline.scraper p) (Pipeline.cluster p) (Pipeline.stats p).

(** The [try] block of [run] once the environment was validated. *)
Definition attempt (o : Outside) (m : Machine)
  : Pipeline.Pipeline * Storage.Partition * result unit :=
  match filterStep o with
  | Throw e => (pipe m, files m, Throw e)
  | Ok None => (pipe m, files m, Ok tt)
  | Ok (Some setup) =>
      let p0 := withFilter (pipe m) (include setup) in
      if initializeScraper (credentials o) (session o)
      then
        match getProfile (session o) with
        | None => (p0, files m, Ok tt)
        | Some _ =>
            match Pipeline.collectTweets (host o) p0
                    (fromDateObj setup) (toDateObj setup) with
            | (p1, Throw e) => (p1, files m, Throw e)
            | (p1, Ok collectedTweets) =>
                if (0 <? List.length collectedTweets)%nat
                then
                  match Storage.saveTweets (host o) (summaryOf o)
                          (Pipeline.diskWritable (world m)) (files m)
                          collectedTweets with
                  | (files', Throw e) => (p1, files', Throw e)
                  | (files', Ok analytics) =>
                      (p1, files', displaySummary (host o) analytics)
                  end
                else (p1, files m, Ok tt)
            end
        end
      else (p0, files m, Ok tt)
  end.

(** [run] *)
Definition run (o : Outside) (m : Machine) : Machine * Outcome :=
  if negb (validateEnvironment (credentials o))
  then (mkMachine (pipe m) (Pipeline.exit (world m) 1) (files m), Exited 1)
  else
    match attempt o m with
    | (p', files', Ok _) => (mkMachine p' (world m) files', Finished)
    | (p', files', Throw _) =>
        match Pipeline.cleanup (now o) p' (world m) with
        | (w', Ok _) => (mkMachine p' w' files', CleanedUp)
        | (w', Throw e) => (mkMachine p' w' files', Rejected e)
        end
    end.

(** [index.js]: [main().then(() => process.exit(0)).catch(() =>
    process.exit(1))], unless the process was ended inside the run. *)
Definition main (o : Outside) (m : Machine) : Machine :=
  match run o m with
  | (m', Exited _) => m'
  | (m', Rejected _) =>
      mkMachine (pipe m') (Pipeline.exit (world m') 1) (files m')
  | (m', _) =>
      mkMachine (pipe m') (Pipeline.exit (world m') 0) (files m')
  end.

End Run.

(* ================================================================== *)
(** ** The merge script *)

Module MergeScript.

(** The count shown for an account before the prompt: 0 when its
    directory cannot be listed. *)
Definition availableCount (fs : Merge.Store) (account : string) : Z :=
  match Merge.getTweetsForAccount fs account with
  | Ok tweets => Z.of_nat (List.length tweets)
  | Throw _ => 0
  end.

(** [createMergedCharacter]: the list is built and then saved. *)
Definition createMergedCharacter (host : JsHost)
  (summaryOf : list Post -> Analytics.Analytics -> string)
  (fs : Merge.Store) (writable : bool) (files : Storage.Partition)
  (sourceAccounts : list string) (o : Merge.MergeOptions)
  : Storage.Partition * result unit :=
  match Merge.topTweets fs sourceAccounts o with
  | Throw e => (files, Throw e)
  | Ok topTweets =>
      match Storage.saveTweets host summaryOf writable files topTweets with
      | (files', Ok _) => (files', Ok tt)
      | (files', Throw e) => (files', Throw e)
      end
  end.

(** [main] of the merge script.  [args] are the command-line arguments
    after the script name, [prompt] is the inquirer dialogue, given the
    counts it displays.  The value is the folder of the new character
    and the exit code, 0 standing for the normal end of the script. *)
Definition main (host : JsHost)
  (summaryOf : list Post -> Analytics.Analytics -> string)
  (prompt : list (string * Z) -> result Merge.MergeOptions)
  (fs : Merge.Store) (writable : bool) (files : Storage.Partition)
  (args : list string) : Storage.Partition * Z :=
  let newCharacterName := hd_error args in
  let sourceAccounts := tl args in
  if negb (truthyString newCharacterName)
     || (List.length sourceAccounts <? 2)%nat
  then (files, 1)
  else
    let availableTweets :=
      map (fun account => (account, availableCount fs account))
        sourceAccounts in
    match prompt availableTweets with
    | Throw _ => (files, 1)
    | Ok options =>
        match createMergedCharacter host summaryOf fs writable files
                sourceAccounts
                (Merge.mkOptions (Merge.tweetsPerAccount options)
                   (Merge.excludeRetweets options)
                   (Merge.rankingMethod options)) with
        | (files', Ok _) => (files', 0)
        | (files', Throw _) => (files', 1)
        end
    end.

End MergeScript.

(* ================================================================== *)
(** ** Further predicates and sample data *)

(** The post [processTweetData] makes of a record: the statistics only
    receive, they decide nothing. *)
Definition normalize (me : string) (tweet : RawTweet) : option Post :=
  snd (Pipeline.processTweetData me (Pipeline.initialStats 0) (Some tweet)).

(** The posts a feed contributes: the records the filter lets through,
    normalised, in the order of the feed. *)
Definition contribution (me : string) (keep : RawTweet -> bool)
  (feed : list RawTweet) : list Post :=
  flat_map (fun tweet =>
              if keep tweet
              then match normalize me tweet with
                   | Some post => [post]
                   | None => []
                   end
              else []) feed.

(** A post as [processTweetData] builds it: an id, a timestamp that is a
    positive valid date, the ISO rendering of it, and counts that are
    present. *)
Definition wellFormed (post : Post) : Prop :=
  id post <> ""
  /\ (exists ms, timestamp post = Millis ms
                 /\ 0 < ms <= maxTimeValue
                 /\ createdAt post = isoString ms)
  /\ likes post <> None
  /\ retweetCount post <> None
  /\ replies post <> None.

(** The timestamps of the posts that have a number for one. *)
Definition timestampsOf (tweets : list Post) : list Z :=
  flat_map (fun t => match timestamp t with
                     | Millis ms => [ms]
                     | _ => []
                     end) tweets.

(** The two date trackers hold the least and the greatest of [ts], or
    nothing when [ts] is empty. *)
Definition tracked (s : Pipeline.Stats) (ts : list Z) : Prop :=
  match ts with
  | [] => Pipeline.oldestTweetDate s = None /\ Pipeline.newestTweetDate s = None
  | _ :: _ =>
      exists lo hi,
        Pipeline.oldestTweetDate s = Some (Num lo)
        /\ Pipeline.newestTweetDate s = Some (Num hi)
        /\ In lo ts /\ In hi ts
        /\ Forall (fun x => lo <= x <= hi) ts
  end.

(** A record whose timestamp, once rescaled, is a date JavaScript can
    represent. *)
Definition representable (tweet : RawTweet) : Prop :=
  forall z, Pipeline.derivedTimestamp tweet = Some (Num z) ->
            Pipeline.rescale z <= maxTimeValue.

(** [out] is made from [s] by deleting characters and by writing a
    blank for a white-space character, and by nothing else. *)
Inductive Kept : JsText -> JsText -> Prop :=
| kept_nil : Kept [] []
| kept_drop (c : CodeUnit) (out s : JsText) :
    Kept out s -> Kept out (c :: s)
| kept_same (c : CodeUnit) (out s : JsText) :
    Kept out s -> Kept (c :: out) (c :: s)
| kept_blank (c : CodeUnit) (out s : JsText) :
    Finetuning.isSpace c = true ->
    Kept out s -> Kept (Finetuning.blank :: out) (c :: s).

Module Fixture.

Definition goodCredentials : Run.Credentials :=
  Run.mkCredentials (Some "bob") (Some "secret") (Some "token") (Some "ct0").

Definition noToken : Run.Credentials :=
  Run.mkCredentials (Some "bob") (Some "secret") None (Some "ct0").

Definition noPassword : Run.Credentials :=
  Run.mkCredentials (Some "bob") None (Some "token") (Some "ct0").

Definition loggedIn : Run.Session :=
  Run.mkSession (Ok tt) (Ok true) (Ok (Run.mkProfile (Some 10) (Some 20))).

Definition everything : Run.FilterSetup :=
  Run.mkFilterSetup None None (fun _ => true).

Definition plainSummary (tweets : list Post) (a : Analytics.Analytics)
  : string := "summary".

Definition outside (c : Run.Credentials) : Run.Outside :=
  Run.mkOutside utcHost plainSummary 1700000100000 c loggedIn
    (Ok (Some everything)).

(** A scraper whose iterator yields two records and ends. *)
Definition rawLater : RawTweet := Sample.raw (Some "2") (Some (Num 1700000500)).

Definition calmScraper : Pipeline.Scraper :=
  Pipeline.mkScraper
    (fun _ _ => [Pipeline.Yield Sample.rawSeconds; Pipeline.Yield rawLater])
    (Ok tt).

Definition calmPipeline : Pipeline.Pipeline :=
  Pipeline.newPipeline Sample.noEnv "alice" (fun _ => true) calmScraper 0.

Definition freshWorld (writable : bool) : Pipeline.World :=
  Pipeline.mkWorld None None writable false false None.

Definition machine (p : Pipeline.Pipeline) (writable : bool) : Run.Machine :=
  Run.mkMachine p (freshWorld writable) Storage.emptyPartition.

(** Posts for the top list: eight dated ones, out of order, two pairs
    with equal likes and a retweet with more likes than any. *)
Definition three : Post := Sample.post "t1" (Some 1700000000000) false 3 0.
Definition nine : Post := Sample.post "t2" (Some 1700000100000) false 9 0.
Definition viral : Post := Sample.post "t3" (Some 1700000200000) true 100 0.
Definition threeAgain : Post :=
  Sample.post "t4" (Some 1700000300000) false 3 0.
Definition seven : Post := Sample.post "t5" (Some 1700000400000) false 7 0.
Definition zero : Post := Sample.post "t6" (Some 1700000500000) false 0 0.
Definition nineAgain : Post :=
  Sample.post "t7" (Some 1700000600000) false 9 0.
Definition one : Post := Sample.post "t8" (Some 1700000700000) false 1 0.

Definition timeline : list Post :=
  [three; nine; viral; threeAgain; seven; zero; nineAgain; one].

(** A post and a retweet stored without a timestamp key, and a post
    dated before 1970. *)
Definition keyless : Post :=
  mkPost "k1" (Some (utf16 "gm")) "alice" Undefined "" false false
    (Some 1) (Some 0) (Some 0) [] [] [] None None None [].
Definition keylessRetweet : Post :=
  mkPost "k2" (Some (utf16 "gm")) "alice" Undefined "" false true
    (Some 1) (Some 0) (Some 0) [] [] [] None None None [].
Definition ancient : Post := Sample.post "o1" (Some (-5)) false 1 0.

(** An account of 51 posts, with 0 to 50 likes. *)
Definition crowd : list Post :=
  map (fun n => Sample.post "m" (Some 1700000000000) false (Z.of_nat n) 0)
    (seq 0 51).

Definition crowdedStore : Merge.Store :=
  fun account => if String.eqb account "m" then Some [Some crowd] else None.

(** An account with a readable folder, an unreadable one and a second
    readable one. *)
Definition gappedStore : Merge.Store :=
  fun account =>
    if String.eqb account "a"
    then Some [Some [Sample.a100]; None; Some [Sample.a5]]
    else None.

End Fixture.

(* ================================================================== *)
(** * Properties *)

(** ** The sort *)

Lemma firstn_incl {A : Type} (n : nat) (l : list A) (y : A) :
  In y (firstn n l) -> In y l.
Proof.
  revert n. induction l as [|x l IH]; intros [|n]; simpl; try tauto.
  intros [H|H]; [now left|right; eauto].
Qed.

Section SortFacts.
Variable A : Type.
Variable cmp : A -> A -> Z.

Lemma insertSorted_perm (x : A) (l : list A) :
  Permutation (insertSorted cmp x l) (x :: l).
Proof.
  induction l as [|y l IH]; simpl; [reflexivity|].
  destruct (cmp x y <=? 0); [reflexivity|].
  rewrite IH. apply perm_swap.
Qed.

Lemma jsSort_perm (l : list A) : Permutation (jsSort cmp l) l.
Proof.
  induction l as [|x l IH]; simpl; [constructor|].
  rewrite insertSorted_perm. now constructor.
Qed.

Lemma jsSort_length (l : list A) :
  List.length (jsSort cmp l) = List.length l.
Proof. apply Permutation_length, jsSort_perm. Qed.

Lemma jsSort_In (x : A) (l : list A) : In x (jsSort cmp l) <-> In x l.
Proof.
  split; apply Permutation_in; [|symmetry]; apply jsSort_perm.
Qed.

(** The comparator orders by a key, larger keys first. *)
Variable key : A -> Z.
Hypothesis cmp_key : forall a b, cmp a b <= 0 <-> key b <= key a.

Lemma insertSorted_descending (x : A) (l : list A) :
  Descending key l -> Descending key (insertSorted cmp x l).
Proof.
  unfold Descending.
  induction l as [|y l IH]; intros Hl; simpl.
  - repeat constructor.
  - inversion Hl as [|? ? Hl' Hy]; subst.
    destruct (Z.leb_spec (cmp x y) 0) as [Hle|Hgt].
    + apply cmp_key in Hle.
      constructor; [exact Hl|].
      constructor; [lia|].
      eapply Forall_impl; [|exact Hy]. simpl. intros; lia.
    + assert (key x <= key y).
      { destruct (Z.le_gt_cases (key y) (key x)) as [Hc|Hc]; [|lia].
        apply cmp_key in Hc. lia. }
      constructor; [now apply IH|].
      eapply Permutation_Forall.
      * symmetry. apply insertSorted_perm.
      * constructor; [assumption|exact Hy].
Qed.

Lemma jsSort_descending (l : list A) : Descending key (jsSort cmp l).
Proof.
  induction l as [|x l IH]; simpl.
  - constructor.
  - now apply insertSorted_descending.
Qed.

(** Stability: the elements of one key keep their input order. *)
Lemma insertSorted_stable (k : Z) (x : A) (l : list A) :
  filter (fun a => key a =? k) (insertSorted cmp x l)
  = filter (fun a => key a =? k) (x :: l).
Proof.
  induction l as [|y l IH]; [reflexivity|].
  cbn [insertSorted].
  destruct (Z.leb_spec (cmp x y) 0) as [Hle|Hgt]; [reflexivity|].
  assert (key x <> key y).
  { intros E. assert (Hc : key y <= key x) by lia.
    apply cmp_key in Hc. lia. }
  cbn [filter] in *. rewrite IH.
  destruct (Z.eqb_spec (key y) k), (Z.eqb_spec (key x) k);
    try reflexivity; lia.
Qed.

Lemma jsSort_stable (k : Z) (l : list A) :
  filter (fun a => key a =? k) (jsSort cmp l)
  = filter (fun a => key a =? k) l.
Proof.
  induction l as [|x l IH]; [reflexivity|].
  cbn [jsSort]. rewrite insertSorted_stable.
  cbn [filter]. now rewrite IH.
Qed.

Lemma firstn_descending (n : nat) (l : list A) :
  Descending key l -> Descending key (firstn n l).
Proof.
  unfold Descending. revert n.
  induction l as [|x l IH]; intros [|n] Hl; simpl; try constructor.
  - inversion Hl; subst. now apply IH.
  - inversion Hl as [|? ? _ Hx]; subst.
    rewrite Forall_forall in *. intros y Hy.
    apply Hx. eapply firstn_incl, Hy.
Qed.
End SortFacts.

Lemma sliceFromZero_firstn {A : Type} (l : list A) (e : Z) :
  0 <= e -> sliceFromZero l e = firstn (Z.to_nat e) l.
Proof.
  intros He. unfold sliceFromZero.
  destruct (Z.ltb_spec e 0); [lia|reflexivity].
Qed.

(* ================================================================== *)
(** ** Merge ranking *)

Section MergeFacts.
Import Merge.

Lemma loadAccounts_concat (fs : Store) (accounts : list string)
  (perAccount : list (list Post)) (acc : list Post) :
  Forall2 (fun a ts => getTweetsForAccount fs a = Ok ts) accounts perAccount ->
  loadAccounts fs accounts acc = Ok (acc ++ List.concat perAccount).
Proof.
  intros H. revert acc.
  induction H as [|a ts accounts perAccount Ha _ IH]; intros acc; simpl.
  - now rewrite app_nil_r.
  - rewrite Ha. simpl. rewrite IH. now rewrite app_assoc.
Qed.

(** The ranking never reads [rankingMethod]. *)
Lemma rankedTweets_any_method (cap : option Z) (ex : bool) (m1 m2 : string)
  (l : list Post) :
  rankedTweets (mkOptions cap ex m1) l = rankedTweets (mkOptions cap ex m2) l.
Proof. reflexivity. Qed.

Lemma rankedTweets_length (o : MergeOptions) (l : list Post) :
  List.length (rankedTweets o l)
  = List.length (if excludeRetweets o
                 then filter (fun tweet => negb (isRetweet tweet)) l
                 else l).
Proof. unfold rankedTweets. apply jsSort_length. Qed.

(** The ranked list is ordered by likes plus retweets, ties in input
    order, whatever the method. *)
Lemma rankedTweets_by_engagement (o : MergeOptions) (l : list Post) :
  Descending engagement (rankedTweets o l)
  /\ forall k,
       filter (fun t => engagement t =? k) (rankedTweets o l)
       = filter (fun t => engagement t =? k)
           (if excludeRetweets o
            then filter (fun tweet => negb (isRetweet tweet)) l
            else l).
Proof.
  assert (Hk : forall a b, rankCompare a b <= 0 <-> engagement b <= engagement a)
    by (unfold rankCompare; intros; lia).
  unfold rankedTweets. split.
  - now apply jsSort_descending.
  - intros k. now apply jsSort_stable.
Qed.
End MergeFacts.

(** The merge example of the specification: scores 100, 5 and 110 come
    out as 110, 100, 5 and the cap of 10 cuts nothing. *)
Example merge_spec_example :
  Merge.topTweets Sample.specAccounts ["a"; "b"]
    (Merge.mkOptions (Some 10) true Merge.TotalEngagement)
  = Ok [Sample.b110; Sample.a100; Sample.a5].
Proof. reflexivity. Qed.

(** C1 (defect).  The merge is meant to score by the chosen ranking
    method.  [createMergedCharacter] builds the same list for every
    method, and for "Likes only" on one post with 10 likes and one with
    5 likes and 100 retweets it puts the second first: the order is the
    one of likes plus retweets. *)
Theorem C1_ranking_method_is_ignored :
  (forall fs accounts cap ex m,
      Merge.topTweets fs accounts (Merge.mkOptions cap ex m)
      = Merge.topTweets fs accounts
          (Merge.mkOptions cap ex Merge.TotalEngagement))
  /\ Merge.topTweets Sample.twoAccounts ["a"; "b"]
       (Merge.mkOptions (Some 10) true Merge.LikesOnly)
     = Ok [Sample.shared; Sample.liked]
  /\ orZero (likes Sample.shared) < orZero (likes Sample.liked).
Proof.
  split; [reflexivity|].
  split; [reflexivity|].
  simpl. lia.
Qed.

(** C3 (as stated, refuted).  With [tweetsPerAccount = 0] the merge of
    an account of 51 posts keeps 50 of them: [0 || 50] is 50, so the
    result has length 50 and not min(0, 51) = 0. *)
Lemma C3_zero_cap_counterexample :
  exists top,
    Merge.topTweets Fixture.crowdedStore ["m"]
      (Merge.mkOptions (Some 0) false Merge.TotalEngagement) = Ok top
    /\ List.length Fixture.crowd = 51%nat
    /\ List.length top = 50%nat
    /\ List.length top <> Nat.min (Z.to_nat 0) (List.length Fixture.crowd).
Proof.
  eexists. split; [vm_compute; reflexivity|].
  split; [reflexivity|]. split; [reflexivity|]. discriminate.
Qed.

(** C3 (amended).  For a [tweetsPerAccount] of at least 1 the merge
    keeps the first [tweetsPerAccount] posts of the ranked list built from
    all accounts together, so exactly min(tweetsPerAccount, size of the
    combined list) posts: one cap over the whole, not one per account.
    A [tweetsPerAccount] of 0 counts as not given, and the cap is 50. *)
Theorem C3_single_global_cap (fs : Merge.Store) (accounts : list string)
  (perAccount : list (list Post)) (o : Merge.MergeOptions) (n : Z) :
  Forall2 (fun a ts => Merge.getTweetsForAccount fs a = Ok ts)
    accounts perAccount ->
  Merge.tweetsPerAccount o = Some n ->
  0 <= n ->
  exists top,
    Merge.topTweets fs accounts o = Ok top
    /\ top = firstn (Z.to_nat (if n =? 0 then 50 else n))
               (Merge.rankedTweets o (List.concat perAccount))
    /\ List.length top
       = Nat.min (Z.to_nat (if n =? 0 then 50 else n))
           (List.length
              (if Merge.excludeRetweets o
               then filter (fun tweet => negb (isRetweet tweet))
                      (List.concat perAccount)
               else List.concat perAccount)).
Proof.
  intros Hload Hcap Hn.
  unfold Merge.topTweets.
  rewrite (loadAccounts_concat fs [] Hload). simpl.
  assert (Hc : Merge.effectiveCap o = if n =? 0 then 50 else n).
  { unfold Merge.effectiveCap. now rewrite Hcap. }
  rewrite Hc, sliceFromZero_firstn by (destruct (Z.eqb_spec n 0); lia).
  eexists. split; [reflexivity|]. split; [reflexivity|].
  now rewrite length_firstn, rankedTweets_length.
Qed.

(** A cap of 2 over the three posts of two accounts, and a cap of 0 over
    an account of 51 posts. *)
Lemma C3_single_global_cap_witness :
  (exists top,
     Merge.topTweets Sample.specAccounts ["a"; "b"]
       (Merge.mkOptions (Some 2) true Merge.TotalEngagement) = Ok top
     /\ top = firstn 2
                (Merge.rankedTweets
                   (Merge.mkOptions (Some 2) true Merge.TotalEngagement)
                   (List.concat [[Sample.a100; Sample.a5]; [Sample.b110]]))
     /\ List.length top
        = Nat.min 2
            (List.length
               (filter (fun tweet => negb (isRetweet tweet))
                  (List.concat [[Sample.a100; Sample.a5]; [Sample.b110]]))))
  /\ (exists top,
        Merge.topTweets Fixture.crowdedStore ["m"]
          (Merge.mkOptions (Some 0) false Merge.TotalEngagement) = Ok top
        /\ top = firstn 50
                   (Merge.rankedTweets
                      (Merge.mkOptions (Some 0) false Merge.TotalEngagement)
                      (List.concat [Fixture.crowd]))
        /\ List.length top
           = Nat.min 50 (List.length (List.concat [Fixture.crowd]))).
Proof.
  split.
  - apply (@C3_single_global_cap Sample.specAccounts ["a"; "b"]
             [[Sample.a100; Sample.a5]; [Sample.b110]]
             (Merge.mkOptions (Some 2) true Merge.TotalEngagement) 2).
    + repeat constructor.
    + reflexivity.
    + lia.
  - apply (@C3_single_global_cap Fixture.crowdedStore ["m"]
             [Fixture.crowd]
             (Merge.mkOptions (Some 0) false Merge.TotalEngagement) 0).
    + repeat constructor.
    + reflexivity.
    + lia.
Defined.

(* ================================================================== *)
(** ** Analytics *)

Section AnalyticsFacts.
Import Analytics.

Lemma timestampsOf_In (tweets : list Post) (ms : Z) :
  In ms (timestampsOf tweets)
  <-> exists t, In t tweets /\ timestamp t = Millis ms.
Proof.
  unfold timestampsOf. rewrite in_flat_map.
  split; intros [t [Ht H]]; exists t; split; trivial.
  - destruct (timestamp t); simpl in H; try tauto.
    destruct H as [->|[]]. reflexivity.
  - rewrite H. now left.
Qed.

Lemma timestampsOf_none (tweets : list Post) :
  Forall (fun t => forall ms, timestamp t <> Millis ms) tweets ->
  timestampsOf tweets = [].
Proof.
  intros H. destruct (timestampsOf tweets) as [|ms l] eqn:E; [reflexivity|].
  assert (Hin : In ms (timestampsOf tweets)) by (rewrite E; now left).
  apply timestampsOf_In in Hin. destruct Hin as [t [Ht Hts]].
  rewrite Forall_forall in H. now destruct (H t Ht ms).
Qed.

Lemma filter_isUndefined {A : Type} (l : list (option A)) :
  filter isUndefined l = repeat None (List.length (filter isUndefined l)).
Proof.
  induction l as [|[a|] l IH]; simpl; [reflexivity|exact IH|].
  now f_equal.
Qed.

(** The array of valid dates: the numbers in ascending order, then as
    many [undefined] as there are posts without a timestamp key. *)
Lemma validDates_shape (tweets : list Post) :
  exists k,
    validDates tweets
    = map Some (jsSort (fun a b => a - b) (timestampsOf tweets))
      ++ repeat None k
    /\ (k = O <-> Forall (fun t => timestamp t <> Undefined) tweets).
Proof.
  unfold validDates, jsSortDefined, validTweets.
  exists (List.length
            (filter isUndefined
               (map (fun t => millisOf (timestamp t))
                  (filter (fun t => notNull (timestamp t)) tweets)))).
  split.
  - f_equal; [|apply filter_isUndefined].
    do 2 f_equal. unfold defined, timestampsOf.
    induction tweets as [|t l IH]; [reflexivity|].
    cbn [filter flat_map map].
    destruct (timestamp t) eqn:E;
      cbn [notNull map flat_map millisOf app]; rewrite ?E;
      cbn [millisOf app]; now rewrite IH.
  - induction tweets as [|t l IH]; cbn [filter map].
    + split; [constructor|reflexivity].
    + destruct (timestamp t) eqn:E;
        cbn [notNull map filter]; rewrite ?E;
        cbn [millisOf isUndefined filter List.length].
      * rewrite IH. split; intros H.
        -- constructor; [congruence|exact H].
        -- now inversion H.
      * rewrite IH. split; intros H.
        -- constructor; [congruence|exact H].
        -- now inversion H.
      * split; [discriminate|].
        intros H. inversion H; congruence.
Qed.

Lemma firstDate_validDates (tweets : list Post) :
  firstDate (validDates tweets)
  = hd_error (jsSort (fun a b => a - b) (timestampsOf tweets)).
Proof.
  destruct (validDates_shape tweets) as [k [-> _]].
  destruct (jsSort _ (timestampsOf tweets)); [|reflexivity].
  now destruct k.
Qed.

Lemma lastDate_validDates (tweets : list Post) :
  (Forall (fun t => timestamp t <> Undefined) tweets
   /\ lastDate (validDates tweets)
      = hd_error (rev (jsSort (fun a b => a - b) (timestampsOf tweets))))
  \/ (Exists (fun t => timestamp t = Undefined) tweets
      /\ lastDate (validDates tweets) = None).
Proof.
  destruct (validDates_shape tweets) as [k [-> Hk]].
  destruct k as [|k].
  - left. split; [now apply Hk|].
    cbn [repeat]. rewrite app_nil_r. unfold lastDate. rewrite <- map_rev.
    now destruct (rev _).
  - right. split.
    + assert (Hno : ~ Forall (fun t => timestamp t <> Undefined) tweets)
        by (intros H; apply Hk in H; discriminate).
      clear Hk. induction tweets as [|t l IH].
      * destruct Hno. constructor.
      * destruct (timestamp t) eqn:E;
          try (right; apply IH; intros H; apply Hno;
               constructor; [congruence|exact H]).
        now left.
    + unfold lastDate. cbn [repeat]. rewrite repeat_cons.
      rewrite app_assoc, rev_app_distr. reflexivity.
Qed.

Lemma hd_error_In {A : Type} (l : list A) (x : A) :
  hd_error l = Some x -> In x l.
Proof. destruct l; simpl; [discriminate|]. intros [= ->]. now left. Qed.

Lemma firstDate_In (tweets : list Post) (lo : Z) :
  firstDate (validDates tweets) = Some lo -> In lo (timestampsOf tweets).
Proof.
  rewrite firstDate_validDates. intros H.
  apply hd_error_In in H. now apply jsSort_In in H.
Qed.

Lemma lastDate_defined (tweets : list Post) (hi : Z) :
  lastDate (validDates tweets) = Some hi ->
  Forall (fun t => timestamp t <> Undefined) tweets
  /\ hd_error (rev (jsSort (fun a b => a - b) (timestampsOf tweets)))
     = Some hi.
Proof.
  destruct (lastDate_validDates tweets) as [[Hk ->]|[_ ->]];
    [tauto|discriminate].
Qed.

Lemma lastDate_In (tweets : list Post) (hi : Z) :
  lastDate (validDates tweets) = Some hi -> In hi (timestampsOf tweets).
Proof.
  intros H. apply lastDate_defined in H. destruct H as [_ H].
  apply hd_error_In in H. apply in_rev in H. now apply jsSort_In in H.
Qed.

Lemma firstDate_none (tweets : list Post) :
  Forall (fun t => forall ms, timestamp t <> Millis ms) tweets ->
  firstDate (validDates tweets) = None.
Proof.
  intros H. rewrite firstDate_validDates.
  now rewrite (timestampsOf_none H).
Qed.

(** Both ends of the array are numbers as soon as some post has a
    number for timestamp and no post lacks the key. *)
Lemma dates_exist (tweets : list Post) :
  Exists (fun t => exists ms, timestamp t = Millis ms) tweets ->
  Forall (fun t => timestamp t <> Undefined) tweets ->
  exists lo hi,
    firstDate (validDates tweets) = Some lo
    /\ lastDate (validDates tweets) = Some hi.
Proof.
  intros Hsome Hkeys.
  apply Exists_exists in Hsome. destruct Hsome as [t [Ht [ms Hms]]].
  assert (Hin : In ms (jsSort (fun a b => a - b) (timestampsOf tweets)))
    by (apply jsSort_In, timestampsOf_In; eauto).
  rewrite firstDate_validDates.
  destruct (lastDate_validDates tweets) as [[_ ->]|[Hex _]].
  - destruct (jsSort _ (timestampsOf tweets)) as [|x l] eqn:E;
      [destruct Hin|].
    exists x.
    destruct (rev (x :: l)) as [|y r] eqn:Er.
    + apply (f_equal (@List.length Z)) in Er.
      rewrite length_rev in Er. discriminate.
    + exists y. now split.
  - apply Exists_exists in Hex. destruct Hex as [u [Hu Eu]].
    rewrite Forall_forall in Hkeys. now destruct (Hkeys u Hu).
Qed.

Lemma newDateOpt_valid (ms : Z) :
  Z.abs ms <= maxTimeValue -> newDateOpt (Some ms) = Num ms.
Proof.
  intros H. simpl. destruct (Z.leb_spec (Z.abs ms) maxTimeValue); [reflexivity|lia].
Qed.

(** The value of [generateAnalytics] on a non-empty input whose
    earliest and latest timestamps exist and are valid dates. *)
Lemma generateAnalytics_value (host : JsHost) (tweets : list Post) (lo hi : Z) :
  tweets <> [] ->
  firstDate (validDates tweets) = Some lo ->
  lastDate (validDates tweets) = Some hi ->
  Z.abs lo <= maxTimeValue ->
  Z.abs hi <= maxTimeValue ->
  exists a,
    generateAnalytics host tweets = Ok a
    /\ totalTweets a = Z.of_nat (List.length tweets)
    /\ totalLikes (engagement a) = sumOf likes (filter notRetweet tweets)
    /\ totalRetweetCount (engagement a)
       = sumOf retweetCount (filter notRetweet tweets)
    /\ totalReplies (engagement a) = sumOf replies (filter notRetweet tweets)
    /\ averageLikes (engagement a)
       = divToFixed2 host (sumOf likes (filter notRetweet tweets))
           (Z.of_nat (List.length (filter notRetweet tweets)))
    /\ topTweets (engagement a) = topTweetsOf tweets
    /\ timeRange a = mkTimeRange (formatDay host lo) (formatDay host hi).
Proof.
  intros Hne Hlo Hhi Blo Bhi. unfold generateAnalytics.
  destruct tweets as [|t tweets]; [congruence|].
  cbn [isEmpty]. rewrite Hlo, Hhi.
  rewrite !newDateOpt_valid by assumption.
  cbn [format bind].
  eexists. split; [reflexivity|]. cbn. repeat split; reflexivity.
Qed.

(** Whenever [generateAnalytics] returns, the top list is the one of
    [topTweetsOf]. *)
Lemma generateAnalytics_topTweets (host : JsHost) (tweets : list Post)
  (a : Analytics) :
  generateAnalytics host tweets = Ok a ->
  topTweets (engagement a) = topTweetsOf tweets.
Proof.
  unfold generateAnalytics.
  destruct tweets as [|t tweets]; cbn [isEmpty].
  - intros [= <-]. reflexivity.
  - destruct (format host (newDateOpt (firstDate (validDates (t :: tweets)))));
      cbn [bind]; [|discriminate].
    destruct (format host (newDateOpt (lastDate (validDates (t :: tweets)))));
      cbn [bind]; [|discriminate].
    intros [= <-]. reflexivity.
Qed.

Lemma filter_notRetweet_none (tweets : list Post) :
  Forall (fun t => isRetweet t = true) tweets -> filter notRetweet tweets = [].
Proof.
  induction 1 as [|t l Ht _ IH]; [reflexivity|].
  simpl. unfold notRetweet at 1. now rewrite Ht.
Qed.
End AnalyticsFacts.

(** C9.  On the empty list [generateAnalytics] returns the zero value:
    no tweets, every count 0, average "0.00", both bounds of the time
    range "N/A", no top tweet. *)
Theorem C9_empty_input_zero_value (host : JsHost) :
  exists a,
    Analytics.generateAnalytics host [] = Ok a
    /\ Analytics.totalTweets a = 0
    /\ Analytics.directTweets a = 0
    /\ Analytics.replyTweets a = 0
    /\ Analytics.retweets a = 0
    /\ Analytics.totalLikes (Analytics.engagement a) = 0
    /\ Analytics.totalRetweetCount (Analytics.engagement a) = 0
    /\ Analytics.totalReplies (Analytics.engagement a) = 0
    /\ Analytics.averageLikes (Analytics.engagement a) = "0.00"
    /\ Analytics.topTweets (Analytics.engagement a) = []
    /\ Analytics.rangeStart (Analytics.timeRange a) = "N/A"
    /\ Analytics.rangeEnd (Analytics.timeRange a) = "N/A"
    /\ Analytics.withImages (Analytics.contentTypes a) = 0
    /\ Analytics.withVideos (Analytics.contentTypes a) = 0
    /\ Analytics.withLinks (Analytics.contentTypes a) = 0
    /\ Analytics.textOnly (Analytics.contentTypes a) = 0.
Proof.
  exists Analytics.emptyAnalytics. repeat split.
Qed.

(** C4 (defect).  The time range is meant to be "N/A" when no post has a
    valid timestamp.  On a non-empty list in which no post has a number
    for timestamp (it is [null], or the key is missing) the first of the
    valid dates is [undefined], [new Date(undefined)] is an invalid date,
    and [format] throws: [generateAnalytics] raises instead of
    returning. *)
Theorem C4_no_valid_timestamp_raises (host : JsHost) (tweets : list Post) :
  tweets <> [] ->
  Forall (fun t => forall ms, timestamp t <> Millis ms) tweets ->
  Analytics.generateAnalytics host tweets
  = Throw (RangeError "Invalid time value").
Proof.
  intros Hne Hnull. unfold Analytics.generateAnalytics.
  destruct tweets as [|t tweets]; [congruence|].
  cbn [isEmpty].
  now rewrite (firstDate_none Hnull).
Qed.

Lemma C4_no_valid_timestamp_raises_witness :
  Analytics.generateAnalytics utcHost [Sample.undated]
  = Throw (RangeError "Invalid time value").
Proof.
  apply C4_no_valid_timestamp_raises.
  - discriminate.
  - constructor; [|constructor]. intros ms. discriminate.
Defined.

(** C10 (defect).  On every non-empty list of retweets only, the
    analytics are meant to come back with engagement totals 0, an empty
    top list and the average "NaN", the quotient of 0 by the zero count
    of posts that are not retweets.  [generateAnalytics] returns them
    when no post lacks the timestamp key, some post has a number for
    timestamp and every such number is a valid date.  When no post has a
    number for timestamp it raises before anything is returned: the
    defect of C4. *)
Theorem C10_all_retweets_average_is_NaN (host : JsHost) (tweets : list Post) :
  tweets <> [] ->
  Forall (fun t => isRetweet t = true) tweets ->
  (Forall (fun t => timestamp t <> Undefined) tweets ->
   Exists (fun t => exists ms, timestamp t = Millis ms) tweets ->
   Forall (fun t => forall ms, timestamp t = Millis ms ->
                               Z.abs ms <= maxTimeValue) tweets ->
   exists a,
     Analytics.generateAnalytics host tweets = Ok a
     /\ Analytics.totalLikes (Analytics.engagement a) = 0
     /\ Analytics.totalRetweetCount (Analytics.engagement a) = 0
     /\ Analytics.totalReplies (Analytics.engagement a) = 0
     /\ Analytics.topTweets (Analytics.engagement a) = []
     /\ Analytics.averageLikes (Analytics.engagement a) = "NaN")
  /\ (Forall (fun t => forall ms, timestamp t <> Millis ms) tweets ->
      Analytics.generateAnalytics host tweets
      = Throw (RangeError "Invalid time value")).
Proof.
  intros Hne Hrt. split.
  - intros Hkeys Hsome Hvalid.
    destruct (dates_exist Hsome Hkeys) as [lo [hi [Hlo Hhi]]].
    assert (Hb : forall ms, In ms (timestampsOf tweets) ->
                            Z.abs ms <= maxTimeValue).
    { intros ms Hin. apply timestampsOf_In in Hin.
      destruct Hin as [t [Ht Hts]].
      rewrite Forall_forall in Hvalid. eauto. }
    destruct (@generateAnalytics_value host tweets lo hi Hne Hlo Hhi)
      as [a [Ha [_ [Hl [Hr [Hp [Havg [Htop _]]]]]]]].
    + apply Hb, firstDate_In, Hlo.
    + apply Hb, lastDate_In, Hhi.
    + exists a. split; [exact Ha|].
      rewrite Hl, Hr, Hp, Havg, Htop.
      unfold Analytics.topTweetsOf.
      rewrite (filter_notRetweet_none Hrt).
      repeat split.
  - intros Hnull. unfold Analytics.generateAnalytics.
    destruct tweets as [|t tweets]; [congruence|].
    cbn [isEmpty].
    now rewrite (firstDate_none Hnull).
Qed.

(** One dated retweet, and one retweet with a [null] timestamp. *)
Lemma C10_all_retweets_average_is_NaN_witness :
  (exists a,
     Analytics.generateAnalytics utcHost [Sample.datedRetweet] = Ok a
     /\ Analytics.totalLikes (Analytics.engagement a) = 0
     /\ Analytics.totalRetweetCount (Analytics.engagement a) = 0
     /\ Analytics.totalReplies (Analytics.engagement a) = 0
     /\ Analytics.topTweets (Analytics.engagement a) = []
     /\ Analytics.averageLikes (Analytics.engagement a) = "NaN")
  /\ isRetweet Sample.undatedRetweet = true
  /\ Analytics.generateAnalytics utcHost [Sample.undatedRetweet]
     = Throw (RangeError "Invalid time value").
Proof.
  split; [|split; [reflexivity|]].
  - apply (proj1 (@C10_all_retweets_average_is_NaN utcHost
                    [Sample.datedRetweet] ltac:(discriminate)
                    ltac:(repeat constructor))).
    + constructor; [discriminate|constructor].
    + left. now exists 1700000000000.
    + constructor; [|constructor].
      simpl. intros ms [= <-]. vm_compute. discriminate.
  - apply (proj2 (@C10_all_retweets_average_is_NaN utcHost
                    [Sample.undatedRetweet] ltac:(discriminate)
                    ltac:(repeat constructor))).
    constructor; [|constructor]. intros ms. discriminate.
Defined.

Lemma Descending_map {A B : Type} (f : A -> B) (key : B -> Z) (l : list A) :
  Descending (fun a => key (f a)) l -> Descending key (map f l).
Proof.
  unfold Descending. induction 1 as [|x l _ IH Hx]; simpl; constructor.
  - exact IH.
  - rewrite Forall_forall in *. intros y Hy.
    apply in_map_iff in Hy. destruct Hy as [z [<- Hz]]. now apply Hx.
Qed.

(** The top list of [topTweetsOf]: the first five posts of a list that
    holds exactly the posts that are not retweets, in non-increasing
    order of likes, posts with the same likes in their input order. *)
Lemma topTweetsOf_ranked (tweets : list Post) :
  exists ranked,
    Analytics.topTweetsOf tweets = map Analytics.summary (firstn 5 ranked)
    /\ Permutation ranked (filter Analytics.notRetweet tweets)
    /\ Descending (fun t => orZero (likes t)) ranked
    /\ (forall k,
          filter (fun t => orZero (likes t) =? k) ranked
          = filter (fun t => orZero (likes t) =? k)
              (filter Analytics.notRetweet tweets))
    /\ List.length (Analytics.topTweetsOf tweets)
       = Nat.min 5 (List.length (filter Analytics.notRetweet tweets))
    /\ Forall (fun e => exists t, In t tweets /\ isRetweet t = false
                                  /\ e = Analytics.summary t)
         (Analytics.topTweetsOf tweets)
    /\ Descending (fun e => orZero (Analytics.topLikes e))
         (Analytics.topTweetsOf tweets).
Proof.
  unfold Analytics.topTweetsOf.
  rewrite sliceFromZero_firstn by lia. change (Z.to_nat 5) with 5%nat.
  set (pool := filter Analytics.notRetweet tweets).
  set (ranked := jsSort Analytics.likesCompare pool).
  assert (Hk : forall x y, Analytics.likesCompare x y <= 0
                           <-> orZero (likes y) <= orZero (likes x))
    by (unfold Analytics.likesCompare; intros; lia).
  assert (Hdesc : Descending (fun t => orZero (likes t)) ranked)
    by (now apply jsSort_descending).
  exists ranked. repeat split.
  - apply jsSort_perm.
  - exact Hdesc.
  - intros k. now apply jsSort_stable.
  - rewrite length_map, length_firstn. unfold ranked.
    now rewrite jsSort_length.
  - rewrite Forall_forall. intros e He.
    apply in_map_iff in He. destruct He as [t [<- Ht]].
    apply firstn_incl in Ht. apply jsSort_In in Ht.
    apply filter_In in Ht. destruct Ht as [Hin Hrt].
    exists t. repeat split; trivial.
    unfold Analytics.notRetweet in Hrt. now destruct (isRetweet t).
  - apply Descending_map.
    apply (firstn_descending (key := fun t => orZero (likes t))), Hdesc.
Qed.

(** C6 (defect).  The top list is meant to exist for every post list.
    Whenever [generateAnalytics] returns, its top list is made of the
    first five posts of a list [ranked] that holds exactly the posts that
    are not retweets, in non-increasing order of likes (a missing count
    reads as 0), posts with the same likes in their input order: it has
    min(5, number of such posts) entries, each one the summary of a post
    that is not a retweet, in non-increasing order of likes.  But on a
    non-empty list in which no post has a number for timestamp
    [generateAnalytics] raises, whatever the posts that are not retweets,
    and there is no top list at all: the defect of C4. *)
Theorem C6_top_tweets (host : JsHost) (tweets : list Post) :
  (forall a, Analytics.generateAnalytics host tweets = Ok a ->
     exists ranked,
       Analytics.topTweets (Analytics.engagement a)
       = map Analytics.summary (firstn 5 ranked)
       /\ Permutation ranked (filter Analytics.notRetweet tweets)
       /\ Descending (fun t => orZero (likes t)) ranked
       /\ (forall k,
             filter (fun t => orZero (likes t) =? k) ranked
             = filter (fun t => orZero (likes t) =? k)
                 (filter Analytics.notRetweet tweets))
       /\ List.length (Analytics.topTweets (Analytics.engagement a))
          = Nat.min 5 (List.length (filter Analytics.notRetweet tweets))
       /\ Forall (fun e => exists t, In t tweets /\ isRetweet t = false
                                     /\ e = Analytics.summary t)
            (Analytics.topTweets (Analytics.engagement a))
       /\ Descending (fun e => orZero (Analytics.topLikes e))
            (Analytics.topTweets (Analytics.engagement a)))
  /\ (tweets <> [] ->
      Forall (fun t => forall ms, timestamp t <> Millis ms) tweets ->
      Analytics.generateAnalytics host tweets
      = Throw (RangeError "Invalid time value")).
Proof.
  split.
  - intros a Ha. rewrite (generateAnalytics_topTweets _ _ Ha).
    apply topTweetsOf_ranked.
  - intros Hne Hnull. unfold Analytics.generateAnalytics.
    destruct tweets as [|t tweets]; [congruence|].
    cbn [isEmpty].
    now rewrite (firstDate_none Hnull).
Qed.

(** Eight dated posts, out of order and with equal likes among them: the
    retweet with the most likes is left out, the two posts with 9 likes
    and the two with 3 keep their input order, and the posts with 1 and
    0 likes are cut.  One post with a [null] timestamp: no top list. *)
Lemma C6_top_tweets_witness :
  (exists a,
     Analytics.generateAnalytics utcHost Fixture.timeline = Ok a
     /\ Analytics.topTweets (Analytics.engagement a)
        = map Analytics.summary
            [Fixture.nine; Fixture.nineAgain; Fixture.seven;
             Fixture.three; Fixture.threeAgain]
     /\ List.length (Analytics.topTweets (Analytics.engagement a))
        = Nat.min 5
            (List.length (filter Analytics.notRetweet Fixture.timeline))
     /\ Descending (fun e => orZero (Analytics.topLikes e))
          (Analytics.topTweets (Analytics.engagement a)))
  /\ List.length (filter Analytics.notRetweet [Sample.undated]) = 1%nat
  /\ Analytics.generateAnalytics utcHost [Sample.undated]
     = Throw (RangeError "Invalid time value").
Proof.
  split; [|split; [reflexivity|]].
  - destruct (Analytics.generateAnalytics utcHost Fixture.timeline)
      as [a|e] eqn:Ha; [|vm_compute in Ha; discriminate].
    exists a. split; [reflexivity|].
    destruct (proj1 (C6_top_tweets utcHost Fixture.timeline) a Ha)
      as [ranked [_ [_ [_ [_ [Hlen [_ Hdesc]]]]]]].
    split; [|split; [exact Hlen|exact Hdesc]].
    vm_compute in Ha. injection Ha as <-. reflexivity.
  - apply (proj2 (C6_top_tweets utcHost [Sample.undated])).
    + discriminate.
    + constructor; [|constructor]. intros ms. discriminate.
Defined.

(* ================================================================== *)
(** ** Normalisation *)

Section PipelineFacts.
Import Pipeline.

Lemma trackDates_sameCounters (s : Stats) (d : JsNumber) :
  sameCounters s (trackDates s d)
  /\ requestCount (trackDates s d) = requestCount s
  /\ uniqueTweets (trackDates s d) = uniqueTweets s.
Proof.
  unfold trackDates, sameCounters.
  destruct (oldestTweetDate s) as [o|]; [destruct (dateLt d o)|];
    cbn [newestTweetDate setOldest];
    match goal with
    | |- context [match ?n with Some _ => _ | None => _ end] =>
        destruct n as [n'|]; [destruct (dateLt n' d)|]
    end; cbn; repeat split; reflexivity.
Qed.

Lemma processTweetData_counters (me : string) (s : Stats)
  (tweet : option RawTweet) :
  sameCounters s (fst (processTweetData me s tweet))
  /\ requestCount (fst (processTweetData me s tweet)) = requestCount s
  /\ uniqueTweets (fst (processTweetData me s tweet)) = uniqueTweets s.
Proof.
  assert (Hrefl : sameCounters s s /\ requestCount s = requestCount s
                  /\ uniqueTweets s = uniqueTweets s)
    by (unfold sameCounters; repeat split; reflexivity).
  unfold processTweetData.
  destruct tweet as [t|]; [|exact Hrefl].
  destruct (raw_id t) as [i|]; [|exact Hrefl].
  destruct (String.eqb i ""); [exact Hrefl|].
  destruct (derivedTimestamp t) as [[z|]|]; try exact Hrefl.
  destruct (z =? 0); [exact Hrefl|].
  destruct (rescale z <=? 0); [exact Hrefl|].
  destruct (toISOString (newDate (Num (rescale z))));
    cbn [fst]; apply trackDates_sameCounters.
Qed.

Lemma toISOString_newDate (z : Z) :
  0 < z ->
  (z <= maxTimeValue ->
   toISOString (newDate (Num z)) = Ok (isoString z))
  /\ (maxTimeValue < z ->
      toISOString (newDate (Num z)) = Throw (RangeError "Invalid time value")).
Proof.
  intros Hz. unfold newDate.
  destruct (Z.leb_spec (Z.abs z) maxTimeValue); split; intros; try lia;
    reflexivity.
Qed.
End PipelineFacts.

(** A record dated in epoch seconds is kept, with the timestamp in
    milliseconds and the absent lists empty. *)
Example processTweetData_seconds :
  snd (Pipeline.processTweetData "alice" (Pipeline.initialStats 0)
         (Some Sample.rawSeconds))
  = Some (mkPost "1" (Some (utf16 "gm")) "alice" (Millis 1700000000000)
            "2023-11-14T22:13:20.000Z" false false (Some 0) (Some 0) (Some 0)
            [] [] [] None None None []).
Proof. vm_compute. reflexivity. Qed.

(** C5 (as stated, refuted).  A record with an id and the positive
    numeric timestamp 9 * 10^15 is answered with [null]: the timestamp
    lies beyond the last date JavaScript represents, [toISOString]
    throws and the [catch] returns [null]. *)
Lemma C5_far_future_counterexample :
  snd (Pipeline.processTweetData "alice" (Pipeline.initialStats 0)
         (Some Sample.rawFarFuture)) = None
  /\ raw_id Sample.rawFarFuture = Some "1"
  /\ Pipeline.derivedTimestamp Sample.rawFarFuture
     = Some (Num 9000000000000000)
  /\ 0 < 9000000000000000.
Proof. repeat split. Qed.

(** C5 (amended).  [processTweetData] always returns.  It returns [null]
    exactly on the records described by [rejected]: no record, absent
    or empty id, no truthy timestamp in the epoch field or the parsed
    date, or a timestamp that after rescaling is not positive or exceeds
    8.64 * 10^15.  A returned post carries the derived timestamp,
    multiplied by 1000 when it was below 10^12, and its photos, videos,
    urls and hashtags are the lists of the record, empty when absent. *)
Theorem C5_normalize_total (me : string) (s : Pipeline.Stats)
  (tweet : option RawTweet) :
  (snd (Pipeline.processTweetData me s tweet) = None <-> rejected tweet)
  /\ match snd (Pipeline.processTweetData me s tweet) with
     | None => True
     | Some post =>
         exists t z,
           tweet = Some t
           /\ Pipeline.derivedTimestamp t = Some (Num z)
           /\ timestamp post = Millis (if z <? 10 ^ 12 then z * 1000 else z)
           /\ photos post = orList (raw_photos t)
           /\ videos post = orList (raw_videos t)
           /\ urls post = orList (raw_urls t)
           /\ hashtags post = orList (raw_hashtags t)
     end.
Proof.
  unfold Pipeline.processTweetData, rejected.
  destruct tweet as [t|]; [|cbn; tauto].
  unfold truthyString.
  destruct (raw_id t) as [i|]; [|cbn; intuition].
  destruct (String.eqb i "") eqn:Ei; [cbn; intuition|].
  destruct (Pipeline.derivedTimestamp t) as [[z|]|] eqn:Ed;
    [|cbn; intuition..].
  cbn [truthyNumber negb].
  destruct (Z.eqb_spec z 0) as [Hz|Hz]; [cbn; intuition|].
  destruct (Z.leb_spec (Pipeline.rescale z) 0) as [Hle|Hpos].
  { cbn. split; [|trivial]. split; [|trivial].
    intros _. right. right. exists z. auto. }
  destruct (toISOString_newDate Hpos) as [Hin Hout].
  destruct (Z.le_gt_cases (Pipeline.rescale z) maxTimeValue) as [Hr|Hr].
  - rewrite (Hin Hr). cbn [snd]. split.
    + split; [discriminate|].
      intros [H|[H|[z' [[= <-] [H|H]]]]]; try discriminate; lia.
    + exists t, z. repeat split. exact Ed.
  - rewrite (Hout Hr). cbn [snd]. split; [|trivial].
    split; [|trivial]. intros _. right. right. exists z. auto.
Qed.

Lemma C5_normalize_total_witness :
  (snd (Pipeline.processTweetData "alice" (Pipeline.initialStats 0)
          (Some Sample.rawSeconds)) = None
   <-> rejected (Some Sample.rawSeconds))
  /\ match snd (Pipeline.processTweetData "alice" (Pipeline.initialStats 0)
                  (Some Sample.rawSeconds)) with
     | None => True
     | Some post =>
         exists t z,
           Some Sample.rawSeconds = Some t
           /\ Pipeline.derivedTimestamp t = Some (Num z)
           /\ timestamp post = Millis (if z <? 10 ^ 12 then z * 1000 else z)
           /\ photos post = orList (raw_photos t)
           /\ videos post = orList (raw_videos t)
           /\ urls post = orList (raw_urls t)
           /\ hashtags post = orList (raw_hashtags t)
     end.
Proof.
  exact (C5_normalize_total "alice" (Pipeline.initialStats 0)
           (Some Sample.rawSeconds)).
Defined.

(* ================================================================== *)
(** ** Collection under a failing feed *)

Section CollectFacts.
Import Pipeline.

Lemma sameCounters_refl (s : Stats) : sameCounters s s.
Proof. unfold sameCounters. repeat split. Qed.

Lemma sameCounters_trans (s1 s2 s3 : Stats) :
  sameCounters s1 s2 -> sameCounters s2 s3 -> sameCounters s1 s3.
Proof. unfold sameCounters. intuition congruence. Qed.

Lemma sameSession_refl (p : Pipeline) : sameSession p p.
Proof. unfold sameSession. repeat split. Qed.

Lemma sameSession_trans (p1 p2 p3 : Pipeline) :
  sameSession p1 p2 -> sameSession p2 p3 -> sameSession p1 p3.
Proof.
  unfold sameSession. intros H12 H23.
  destruct H12 as (? & ? & ? & ? & ? & H12), H23 as (? & ? & ? & ? & ? & H23).
  repeat split; try congruence.
  all: destruct H12 as (? & ? & ? & ? & ?), H23 as (? & ? & ? & ? & ?);
    congruence.
Qed.

(** One yielded record: the request counter grows by one, the
    rate-limit, retry and fallback counters and the session stay. *)
Lemma yield_step (p : Pipeline) (tweet : RawTweet) :
  let p1 := withStats p (incrRequestCount (stats p)) in
  let r := processTweetData (thisUsername p1) (stats p1) (Some tweet) in
  sameSession p p1
  /\ sameSession p (withStats p1 (fst r))
  /\ sameSession p
       (withStats (withStats p1 (fst r))
          (incrUniqueTweets (stats (withStats p1 (fst r)))))
  /\ requestCount (fst r) = requestCount (stats p) + 1.
Proof.
  intros p1 r.
  destruct (processTweetData_counters (thisUsername p1) (stats p1) (Some tweet))
    as [(H1 & H2 & H3 & H4 & H5) [Hreq _]].
  fold r in H1, H2, H3, H4, H5, Hreq.
  subst p1. destruct p as [u c f sc cl st].
  unfold sameSession, sameCounters. cbn in *.
  repeat split; assumption.
Qed.

(** The loop stops at the first failure of the iterator and hands it
    on, having counted the records before it. *)
Lemma collectLoop_raise (pre : list RawTweet) (e : JsError)
  (rest : list FeedEvent) (p : Pipeline) (acc : list Post) :
  let out := collectLoop p (map Yield pre ++ Raise e :: rest) acc in
  snd out = Throw e
  /\ sameSession p (fst out)
  /\ requestCount (stats (fst out))
     = requestCount (stats p) + Z.of_nat (List.length pre).
Proof.
  revert p acc.
  induction pre as [|tweet pre IH]; intros p acc out.
  - subst out. cbn. repeat split. lia.
  - subst out. cbn [map app collectLoop List.length].
    destruct (yield_step p tweet) as (S1 & S2 & S3 & Hreq).
    set (p1 := withStats p (incrRequestCount (stats p))) in *.
    cbn zeta in S2, S3, Hreq.
    destruct (tweetFilter p1 tweet).
    + destruct (processTweetData (thisUsername p1) (stats p1) (Some tweet))
        as [s2 [post|]] eqn:Er; cbn [fst] in S2, S3, Hreq.
      * match goal with
        | |- context [collectLoop ?q _ ?a] =>
            destruct (IH q a) as (Ht & Hs & Hc)
        end.
        split; [exact Ht|]. split.
        -- eapply sameSession_trans; [exact S3|exact Hs].
        -- rewrite Hc. cbn. rewrite Hreq. lia.
      * match goal with
        | |- context [collectLoop ?q _ ?a] =>
            destruct (IH q a) as (Ht & Hs & Hc)
        end.
        split; [exact Ht|]. split.
        -- eapply sameSession_trans; [exact S2|exact Hs].
        -- rewrite Hc. cbn. rewrite Hreq. lia.
    + destruct (IH p1 acc) as (Ht & Hs & Hc).
      split; [exact Ht|]. split.
      * eapply sameSession_trans; [exact S1|exact Hs].
      * rewrite Hc. subst p1. cbn. lia.
Qed.
End CollectFacts.

(** C2 (as stated, refuted).  With the default configuration (threshold
    3, 5 retries, fallback enabled) a feed that yields one record and
    then signals a rate limit makes [collectTweets] fail at once with
    that error; [rateLimitHits] and [retriesCount] are still 0 and no
    fallback cluster exists. *)
Lemma C2_rate_limit_counterexample :
  snd (Pipeline.collectTweets utcHost Sample.limitedPipeline None None)
  = Throw Sample.rateLimited
  /\ Pipeline.rateLimitHits
       (Pipeline.stats
          (fst (Pipeline.collectTweets utcHost Sample.limitedPipeline None None)))
     = 0
  /\ Pipeline.retriesCount
       (Pipeline.stats
          (fst (Pipeline.collectTweets utcHost Sample.limitedPipeline None None)))
     = 0
  /\ Pipeline.cluster
       (fst (Pipeline.collectTweets utcHost Sample.limitedPipeline None None))
     = None
  /\ Pipeline.enabled (Pipeline.fallback (Pipeline.config Sample.limitedPipeline))
     = true
  /\ Pipeline.maxRetries (Pipeline.twitter (Pipeline.config Sample.limitedPipeline))
     = 5.
Proof. repeat split. Qed.

(** C2 (amended).  The configuration carries the threshold 3, the
    enabled fallback and, when the environment sets nothing, 5 retries
    and a retry delay of 5000 ms; collection reads none of them.  When
    the iterator fails after any number of records, [collectTweets]
    fails with that same error at the first signal: [rateLimitHits], the
    retry and fallback counters, the cluster and the configuration are
    those of before the call, and only the records already yielded were
    counted as requests. *)
Theorem C2_failure_is_handed_on (host : JsHost) (p : Pipeline.Pipeline)
  (fromDateObj toDateObj : option JsNumber) (query : string)
  (pre : list RawTweet) (e : JsError) (rest : list Pipeline.FeedEvent) :
  Pipeline.searchQuery host p fromDateObj toDateObj = Ok query ->
  Pipeline.searchTweets (Pipeline.scraper p) query
    (Pipeline.maxTweets (Pipeline.twitter (Pipeline.config p)))
  = map Pipeline.Yield pre ++ Pipeline.Raise e :: rest ->
  snd (Pipeline.collectTweets host p fromDateObj toDateObj) = Throw e
  /\ sameSession p (fst (Pipeline.collectTweets host p fromDateObj toDateObj))
  /\ Pipeline.requestCount
       (Pipeline.stats (fst (Pipeline.collectTweets host p fromDateObj toDateObj)))
     = Pipeline.requestCount (Pipeline.stats p) + Z.of_nat (List.length pre)
  /\ (forall env,
        Pipeline.rateLimitThreshold (Pipeline.twitter (Pipeline.makeConfig env)) = 3
        /\ Pipeline.enabled (Pipeline.fallback (Pipeline.makeConfig env)) = true)
  /\ Pipeline.maxRetries (Pipeline.twitter (Pipeline.makeConfig Sample.noEnv)) = 5
  /\ Pipeline.retryDelay (Pipeline.twitter (Pipeline.makeConfig Sample.noEnv)) = 5000.
Proof.
  intros Hq Hfeed. unfold Pipeline.collectTweets. rewrite Hq, Hfeed.
  destruct (collectLoop_raise pre e rest p []) as (Ht & Hs & Hc).
  split; [exact Ht|]. split; [exact Hs|]. split; [exact Hc|].
  repeat split.
Qed.

Lemma C2_failure_is_handed_on_witness :
  snd (Pipeline.collectTweets utcHost Sample.limitedPipeline None None)
  = Throw Sample.rateLimited
  /\ sameSession Sample.limitedPipeline
       (fst (Pipeline.collectTweets utcHost Sample.limitedPipeline None None))
  /\ Pipeline.requestCount
       (Pipeline.stats
          (fst (Pipeline.collectTweets utcHost Sample.limitedPipeline None None)))
     = Pipeline.requestCount (Pipeline.stats Sample.limitedPipeline)
       + Z.of_nat (List.length [Sample.rawSeconds])
  /\ (forall env,
        Pipeline.rateLimitThreshold (Pipeline.twitter (Pipeline.makeConfig env)) = 3
        /\ Pipeline.enabled (Pipeline.fallback (Pipeline.makeConfig env)) = true)
  /\ Pipeline.maxRetries (Pipeline.twitter (Pipeline.makeConfig Sample.noEnv)) = 5
  /\ Pipeline.retryDelay (Pipeline.twitter (Pipeline.makeConfig Sample.noEnv)) = 5000.
Proof.
  apply (@C2_failure_is_handed_on utcHost Sample.limitedPipeline None None
           "from:alice" [Sample.rawSeconds] Sample.rateLimited []).
  - reflexivity.
  - reflexivity.
Defined.

(* ================================================================== *)
(** ** Termination signal *)

(** The cleanup of the pipeline, reached when [run] fails, records the
    end of the run whenever the progress file can be written. *)
Lemma cleanup_records_completion (now : Z) (p : Pipeline.Pipeline)
  (w : Pipeline.World) :
  Pipeline.diskWritable w = true ->
  exists r,
    Pipeline.progressFile (fst (Pipeline.cleanup now p w)) = Some r
    /\ Pipeline.completed (Pipeline.progress r) = true
    /\ snd (Pipeline.cleanup now p w) = Ok tt.
Proof.
  intros Hw. unfold Pipeline.cleanup, Pipeline.cleanupBody.
  destruct (Pipeline.logout (Pipeline.scraper p)) as [u|e].
  - destruct (Pipeline.cluster p) as [c|]; [destruct (Pipeline.close c)|];
      unfold Pipeline.saveProgress; cbn; rewrite Hw; cbn;
      eexists; repeat split.
  - unfold Pipeline.saveProgress. rewrite Hw. cbn.
    eexists; repeat split.
Qed.

(** C8 (defect).  A termination signal is meant to leave a progress
    record with [completed = true].  The handler of [index.js] only logs
    out and exits with code 0: the progress file is the one of before
    the signal and the cluster is not closed.  Mid-run, with no progress
    file yet, none exists after the signal. *)
Theorem C8_signal_leaves_progress_untouched :
  (forall w,
      Pipeline.progressFile (Pipeline.signalCleanup w) = Pipeline.progressFile w
      /\ Pipeline.clusterClosed (Pipeline.signalCleanup w)
         = Pipeline.clusterClosed w
      /\ Pipeline.exitCode (Pipeline.signalCleanup w) = Some 0)
  /\ Pipeline.progressFile (Pipeline.signalCleanup Sample.midRun) = None
  /\ Pipeline.sessionReleased (Pipeline.signalCleanup Sample.midRun) = true.
Proof.
  split; [|split; reflexivity].
  intros w. unfold Pipeline.signalCleanup.
  destruct (Pipeline.pipeline w) as [p|]; [|repeat split].
  destruct (Pipeline.logout (Pipeline.scraper p)); repeat split.
Qed.

(* ================================================================== *)
(** ** Fine-tuning export *)

Section EraseFacts.
Import Finetuning.
Variable start : JsText -> bool.
Variable body : CodeUnit -> bool.

(** Nothing is removed from a text without a match. *)
Lemma erase_matchFree_fixed (s : JsText) :
  matchFree start s -> erase start body false s = s.
Proof.
  induction s as [|c s IH]; [reflexivity|].
  intros [Hc Hs]. cbn [erase andb]. rewrite Hc. now rewrite IH.
Qed.

(** While a match is consumed, what comes out next is not a character
    of the body. *)
Lemma erase_skip_head (s : JsText) :
  match erase start body true s with
  | [] => True
  | c :: _ => body c = false
  end.
Proof.
  induction s as [|c s IH]; [exact I|].
  cbn [erase andb]. destruct (body c) eqn:Hb; [exact IH|].
  destruct (start (c :: s)); [exact IH|exact Hb].
Qed.

(** A run of body characters at the head of the output stood at the
    head of the input. *)
Lemma erase_run (w r s : JsText) :
  erase start body false s = w ++ r ->
  Forall (fun x => body x = true) w ->
  exists r', s = w ++ r' /\ erase start body false r' = r.
Proof.
  revert s. induction w as [|x w IH]; intros s Hout Hw.
  - exists s. now split.
  - inversion Hw as [|? ? Hx Hw']; subst.
    destruct s as [|c s]; [discriminate|].
    cbn [erase andb] in Hout.
    destruct (start (c :: s)) eqn:Hst.
    + pose proof (erase_skip_head s) as Hh.
      rewrite Hout in Hh. simpl in Hh. congruence.
    + injection Hout as -> Hout.
      destruct (IH s Hout Hw') as [r' [-> Hr']].
      exists r'. now split.
Qed.

Hypothesis start_shaped : shaped body start.

Lemma start_nil : start [] = false.
Proof.
  destruct (start []) eqn:E; [|reflexivity].
  destruct (start_shaped E) as (c & w & r & H & _). discriminate.
Qed.

(** The output holds no match. *)
Lemma erase_matchFree (b : bool) (s : JsText) :
  matchFree start (erase start body b s).
Proof.
  revert b. induction s as [|c s IH]; intros b; [exact I|].
  cbn [erase]. destruct (b && body c); [apply IH|].
  destruct (start (c :: s)) eqn:Hst; [apply IH|].
  cbn [matchFree]. split; [|apply IH].
  destruct (start (c :: erase start body false s)) eqn:Hout; [|reflexivity].
  destruct (start_shaped Hout) as (c0 & w & r & Heq & _ & Hw & Hany).
  injection Heq as <- Heq.
  destruct (erase_run _ _ Heq Hw) as [r' [-> _]].
  rewrite Hany in Hst. discriminate.
Qed.

Lemma matchFree_suffix (s pre suf : JsText) :
  matchFree start s -> s = pre ++ suf -> start suf = false.
Proof.
  revert s. induction pre as [|a pre IH]; intros s Hs ->.
  - destruct suf; [apply start_nil|apply Hs].
  - destruct Hs as [_ Hs]. now apply (IH _ Hs).
Qed.
End EraseFacts.

Section PatternFacts.
Import Finetuning.

Lemma afterPrefix_app (p s r : JsText) :
  afterPrefix p s = Some r <-> s = p ++ r.
Proof.
  revert s. induction p as [|a p IH]; intros s; simpl.
  - split; [intros [= ->]|intros ->]; reflexivity.
  - destruct s as [|b s]; [split; discriminate|].
    destruct (N.eqb_spec a b) as [->|Hab].
    + rewrite IH. split; [intros ->|intros [= ->]]; reflexivity.
    + split; [discriminate|]. intros [= <- _]. congruence.
Qed.

Lemma literalThen_spec (p : JsText) (cls : CodeUnit -> bool) (s : JsText) :
  literalThen p cls s = true
  <-> exists d r, s = p ++ d :: r /\ cls d = true.
Proof.
  unfold literalThen. split.
  - destruct (afterPrefix p s) as [[|d r]|] eqn:E; try discriminate.
    intros Hd. apply afterPrefix_app in E. now exists d, r.
  - intros (d & r & -> & Hd).
    assert (E : afterPrefix p (p ++ d :: r) = Some (d :: r))
      by now apply afterPrefix_app.
    now rewrite E.
Qed.

Lemma tagChar_notSpace (c : CodeUnit) : tagChar c = true -> notSpace c = true.
Proof. unfold tagChar. now intros [H _]%andb_prop. Qed.

(** A match of the URL expression is one of the literals followed by a
    character that is not white space; the literals are made of
    characters a hashtag may contain. *)
Lemma urlAt_spec (s : JsText) :
  urlAt s = true
  <-> exists p d r, In p urlLiterals /\ s = p ++ d :: r /\ notSpace d = true.
Proof.
  unfold urlAt, urlLiterals. rewrite !orb_true_iff, !literalThen_spec. split.
  - intros [[(d & r & H)|(d & r & H)]|(d & r & H)];
      eexists _, d, r; (split; [|exact H]); simpl; auto.
  - intros (p & d & r & Hp & H).
    destruct Hp as [<-|[<-|[<-|[]]]]; eauto.
Qed.

Lemma urlLiterals_plain (p : JsText) :
  In p urlLiterals ->
  exists c p', p = c :: p' /\ notSpace c = true
               /\ Forall (fun x => tagChar x = true) p'.
Proof.
  intros [<-|[<-|[<-|[]]]]; eexists _, _;
    (split; [reflexivity|]); (split; [reflexivity|]);
    repeat constructor.
Qed.

Lemma urlAt_shaped : shaped notSpace urlAt.
Proof.
  intros s Hs. apply urlAt_spec in Hs.
  destruct Hs as (p & d & r & Hp & -> & Hd).
  destruct (@urlLiterals_plain _ Hp) as (c & p' & -> & Hc & Hplain).
  exists c, (p' ++ [d]), r. repeat split.
  - simpl. now rewrite <- app_assoc.
  - exact Hc.
  - apply Forall_app. split.
    + eapply Forall_impl; [|exact Hplain]. apply tagChar_notSpace.
    + now constructor.
  - intros r'. apply urlAt_spec. exists (c :: p'), d, r'.
    repeat split; trivial. simpl. now rewrite <- app_assoc.
Qed.

Lemma tagAt_spec (s : JsText) :
  tagAt s = true <-> exists d r, s = hash :: d :: r /\ tagChar d = true.
Proof. unfold tagAt. now rewrite literalThen_spec. Qed.

Lemma tagAt_shaped : shaped tagChar tagAt.
Proof.
  intros s Hs. apply tagAt_spec in Hs. destruct Hs as (d & r & -> & Hd).
  exists hash, [d], r. repeat split.
  - now constructor.
  - intros r'. apply tagAt_spec. now exists d, r'.
Qed.

Lemma shaped_notSpace (start : JsText -> bool) :
  shaped tagChar start -> shaped notSpace start.
Proof.
  intros H s Hs. destruct (H s Hs) as (c & w & r & E & Hc & Hw & Hany).
  exists c, w, r. repeat split; trivial.
  eapply Forall_impl; [|exact Hw]. apply tagChar_notSpace.
Qed.

(** Removing hashtags forms no URL: the character after a removed
    hashtag is white space or a hash, and every URL literal is followed
    in the input by whatever follows it in the output or by a hash. *)
Lemma erase_tag_head (s r : JsText) (d : CodeUnit) :
  erase tagAt tagChar false s = d :: r ->
  notSpace d = true ->
  exists x s', s = x :: s' /\ notSpace x = true.
Proof.
  destruct s as [|x s]; [discriminate|].
  cbn [erase andb]. destruct (tagAt (x :: s)) eqn:Ht.
  - intros _ _. apply tagAt_spec in Ht. destruct Ht as (d' & r' & [= -> _] & _).
    now exists hash, s.
  - intros [= -> _] Hd. now exists d, s.
Qed.

Lemma removeHashtags_keeps_urlFree (b : bool) (s : JsText) :
  matchFree urlAt s -> matchFree urlAt (erase tagAt tagChar b s).
Proof.
  revert b. induction s as [|c s IH]; intros b Hs; [exact I|].
  destruct Hs as [Hc Hs]. cbn [erase].
  destruct (b && tagChar c); [now apply IH|].
  destruct (tagAt (c :: s)); [now apply IH|].
  cbn [matchFree]. split; [|now apply IH].
  destruct (urlAt (c :: erase tagAt tagChar false s)) eqn:Hout; [|reflexivity].
  apply urlAt_spec in Hout. destruct Hout as (p & d & r & Hp & Heq & Hd).
  destruct (@urlLiterals_plain _ Hp) as (c0 & p' & -> & _ & Hplain).
  injection Heq as <- Heq.
  destruct (@erase_run _ _ _ _ _ Heq Hplain) as (r' & -> & Hr').
  destruct (@erase_tag_head _ _ _ Hr' Hd) as (x & s' & -> & Hx).
  assert (Hin : urlAt (c :: p' ++ x :: s') = true).
  { apply urlAt_spec. now exists (c :: p'), x, s'. }
  congruence.
Qed.
End PatternFacts.

Section SpaceFacts.
Import Finetuning.

Lemma notSpace_false (c : CodeUnit) : isSpace c = true -> notSpace c = false.
Proof. unfold notSpace. now intros ->. Qed.

Lemma collapse_run (w r s : JsText) :
  collapse false s = w ++ r ->
  Forall (fun x => notSpace x = true) w ->
  exists r', s = w ++ r'.
Proof.
  revert s. induction w as [|x w IH]; intros s Hout Hw.
  - now exists s.
  - inversion Hw as [|? ? Hx Hw']; subst.
    destruct s as [|c s]; [discriminate|].
    cbn [collapse] in Hout. destruct (isSpace c) eqn:Hc.
    + injection Hout as <- _. discriminate.
    + injection Hout as -> Hout.
      destruct (IH s Hout Hw') as [r' ->]. now exists r'.
Qed.

Lemma trimEnd_cons (c : CodeUnit) (s : JsText) :
  trimEnd (c :: s)
  = if isSpace c && isEmpty (trimEnd s) then [] else c :: trimEnd s.
Proof.
  cbn [trimEnd]. destruct (trimEnd s); destruct (isSpace c); reflexivity.
Qed.

(** [trimEnd] cuts a tail off. *)
Lemma trimEnd_prefix (s : JsText) : exists tail, s = trimEnd s ++ tail.
Proof.
  induction s as [|c s [tail IH]]; [now exists []|].
  rewrite trimEnd_cons. destruct (isSpace c && isEmpty (trimEnd s)).
  - now exists (c :: s).
  - exists tail. simpl. now rewrite <- IH.
Qed.

Lemma trimEnd_idempotent (s : JsText) : trimEnd (trimEnd s) = trimEnd s.
Proof.
  induction s as [|c s IH]; [reflexivity|].
  rewrite trimEnd_cons.
  destruct (isSpace c && isEmpty (trimEnd s)) eqn:E; [reflexivity|].
  now rewrite trimEnd_cons, IH, E.
Qed.

Lemma trimStart_head (s : JsText) :
  match trimStart s with
  | [] => True
  | c :: _ => isSpace c = false
  end.
Proof.
  induction s as [|c s IH]; [exact I|].
  cbn [trimStart]. destruct (isSpace c) eqn:E; [exact IH|exact E].
Qed.

Lemma trimStart_fixed (s : JsText) :
  match s with [] => True | c :: _ => isSpace c = false end ->
  trimStart s = s.
Proof. destruct s as [|c s]; [reflexivity|]. cbn. now intros ->. Qed.

Lemma trim_idempotent (s : JsText) : trim (trim s) = trim s.
Proof.
  unfold trim. rewrite (@trimStart_fixed (trimEnd (trimStart s))).
  - apply trimEnd_idempotent.
  - pose proof (trimStart_head s) as Hh.
    destruct (trimStart s) as [|c t]; [exact I|].
    rewrite trimEnd_cons, Hh. exact Hh.
Qed.

(** White space after [collapse]. *)
Lemma collapse_single (b : bool) (s : JsText) :
  singleSpaced (collapse b s)
  /\ (b = true ->
      match collapse b s with [] => True | d :: _ => isSpace d = false end).
Proof.
  revert b. induction s as [|c s IH]; intros b; [now split|].
  cbn [collapse]. destruct (isSpace c) eqn:Hc.
  - destruct b; [apply IH|].
    destruct (IH true) as [Hs Hh]. split; [|discriminate].
    cbn [singleSpaced]. split; [|exact Hs].
    intros _. split; [reflexivity|]. now apply Hh.
  - destruct (IH false) as [Hs _]. split; [|now intros _].
    cbn [singleSpaced]. split; [|exact Hs]. congruence.
Qed.

Lemma collapse_fixed (b : bool) (s : JsText) :
  singleSpaced s ->
  (b = true -> match s with [] => True | d :: _ => isSpace d = false end) ->
  collapse b s = s.
Proof.
  revert b. induction s as [|c s IH]; intros b Hs Hb; [reflexivity|].
  destruct Hs as [Hc Hs]. cbn [collapse].
  destruct (isSpace c) eqn:E.
  - destruct b; [specialize (Hb eq_refl); congruence|].
    destruct (Hc eq_refl) as [-> Hnext].
    now rewrite IH.
  - rewrite IH; trivial. discriminate.
Qed.

Lemma singleSpaced_trimStart (s : JsText) :
  singleSpaced s -> singleSpaced (trimStart s).
Proof.
  induction s as [|c s IH]; [trivial|].
  intros Hs. cbn [trimStart]. destruct (isSpace c); [|exact Hs].
  apply IH, Hs.
Qed.

Lemma singleSpaced_trimEnd (s : JsText) :
  singleSpaced s -> singleSpaced (trimEnd s).
Proof.
  induction s as [|c s IH]; [trivial|].
  intros [Hc Hs]. rewrite trimEnd_cons.
  destruct (isSpace c && isEmpty (trimEnd s)); [exact I|].
  cbn [singleSpaced]. split; [|now apply IH].
  intros E. destruct (Hc E) as [-> Hnext]. split; [reflexivity|].
  destruct s as [|d s]; [exact I|].
  rewrite trimEnd_cons, Hnext. exact Hnext.
Qed.

Variable start : JsText -> bool.
Hypothesis start_shaped : shaped notSpace start.

Lemma start_space (c : CodeUnit) (s : JsText) :
  isSpace c = true -> start (c :: s) = false.
Proof.
  intros Hc. destruct (start (c :: s)) eqn:E; [|reflexivity].
  destruct (start_shaped E) as (c0 & w & r & [= <- _] & Hn & _).
  apply notSpace_false in Hc. congruence.
Qed.

Lemma collapse_matchFree (b : bool) (s : JsText) :
  matchFree start s -> matchFree start (collapse b s).
Proof.
  revert b. induction s as [|c s IH]; intros b Hs; [exact I|].
  destruct Hs as [Hc Hs]. cbn [collapse]. destruct (isSpace c) eqn:E.
  - destruct b; [now apply IH|].
    cbn [matchFree]. split; [|now apply IH]. now apply start_space.
  - cbn [matchFree]. split; [|now apply IH].
    destruct (start (c :: collapse false s)) eqn:Hout; [|reflexivity].
    destruct (start_shaped Hout) as (c0 & w & r & Heq & _ & Hw & Hany).
    injection Heq as <- Heq.
    destruct (@collapse_run _ _ _ Heq Hw) as [r' ->].
    rewrite Hany in Hc. discriminate.
Qed.

Lemma trimStart_matchFree (s : JsText) :
  matchFree start s -> matchFree start (trimStart s).
Proof.
  induction s as [|c s IH]; [trivial|].
  intros Hs. cbn [trimStart]. destruct (isSpace c); [|exact Hs].
  apply IH, Hs.
Qed.

Lemma trimEnd_matchFree (s : JsText) :
  matchFree start s -> matchFree start (trimEnd s).
Proof.
  induction s as [|c s IH]; [trivial|].
  intros [Hc Hs]. rewrite trimEnd_cons.
  destruct (isSpace c && isEmpty (trimEnd s)); [exact I|].
  cbn [matchFree]. split; [|now apply IH].
  destruct (start (c :: trimEnd s)) eqn:Hout; [|reflexivity].
  destruct (start_shaped Hout) as (c0 & w & r & Heq & _ & _ & Hany).
  injection Heq as <- Heq.
  destruct (trimEnd_prefix s) as [tail Htail].
  rewrite Htail, Heq, <- app_assoc, Hany in Hc. discriminate.
Qed.

Lemma trim_matchFree (s : JsText) :
  matchFree start s -> matchFree start (trim s).
Proof. intros Hs. apply trimEnd_matchFree, trimStart_matchFree, Hs. Qed.
End SpaceFacts.

Section CleanFacts.
Import Finetuning.

Lemma cleanText_urlFree (s : JsText) : matchFree urlAt (cleanText s).
Proof.
  unfold cleanText, removeHashtags, removeUrls.
  apply (trim_matchFree urlAt_shaped).
  apply (collapse_matchFree urlAt_shaped).
  apply removeHashtags_keeps_urlFree.
  apply (erase_matchFree urlAt_shaped).
Qed.

Lemma cleanText_tagFree (s : JsText) : matchFree tagAt (cleanText s).
Proof.
  unfold cleanText, removeHashtags.
  apply (trim_matchFree (shaped_notSpace tagAt_shaped)).
  apply (collapse_matchFree (shaped_notSpace tagAt_shaped)).
  apply (erase_matchFree tagAt_shaped).
Qed.

Lemma cleanText_single (s : JsText) : singleSpaced (cleanText s).
Proof.
  unfold cleanText, trim.
  apply singleSpaced_trimEnd, singleSpaced_trimStart, collapse_single.
Qed.

Lemma cleanText_trimmed (s : JsText) : trim (cleanText s) = cleanText s.
Proof. unfold cleanText. apply trim_idempotent. Qed.

(** Cleaning a cleaned text changes nothing. *)
Lemma cleanText_idempotent (s : JsText) : cleanText (cleanText s) = cleanText s.
Proof.
  unfold cleanText at 1. unfold removeUrls, removeHashtags.
  rewrite (@erase_matchFree_fixed urlAt notSpace _ (cleanText_urlFree s)).
  rewrite (@erase_matchFree_fixed tagAt tagChar _ (cleanText_tagFree s)).
  rewrite collapse_fixed.
  - apply cleanText_trimmed.
  - apply cleanText_single.
  - discriminate.
Qed.

Lemma keepEntries_texts (l : list Post) :
  map entryText (keepEntries (map toEntry l))
  = filter (fun s => negb (isEmpty s))
      (map (fun t => cleanText (orList (text t))) l).
Proof.
  induction l as [|t l IH]; [reflexivity|].
  cbn [map]. unfold toEntry at 1.
  destruct (cleanText (orList (text t))) as [|c s]; cbn; now rewrite IH.
Qed.

Lemma selected_spec (t : Post) :
  selected t = true
  <-> isRetweet t = false
      /\ (exists c s, text t = Some (c :: s))
      /\ timestamp t <> Null.
Proof.
  unfold selected, truthyText. split.
  - intros H. apply andb_prop in H. destruct H as [H Hts].
    apply andb_prop in H. destruct H as [Hrt Htxt].
    repeat split.
    + now destruct (isRetweet t).
    + destruct (text t) as [[|c s]|]; try discriminate. now exists c, s.
    + destruct (timestamp t); discriminate.
  - intros (Hrt & (c & s & Htxt) & Hts).
    rewrite Hrt, Htxt. destruct (timestamp t); [reflexivity|congruence|reflexivity].
Qed.
End CleanFacts.

(** A text with a link and two hashtags. *)
Example cleanText_sample :
  Finetuning.cleanText
    (utf16 "  gm  frens https://t.co/x #web3#ai  www.site.io wagmi ")
  = utf16 "gm frens wagmi".
Proof. vm_compute. reflexivity. Qed.

(* ================================================================== *)
(** * Further properties *)

(** ** Loading and merging accounts *)

Section MergeMore.
Import Merge.

Lemma sliceFromZero_prefix {A : Type} (l : list A) (e : Z) :
  exists m, sliceFromZero l e = firstn m l.
Proof. unfold sliceFromZero. destruct (e <? 0); eauto. Qed.

Lemma readFolders_concat (folders : list (option (list Post)))
  (acc : list Post) :
  fold_left (fun allTweets folder =>
               match folder with
               | Some data => allTweets ++ data
               | None => allTweets
               end) folders acc
  = acc ++ List.concat (map (@orList Post) folders).
Proof.
  revert acc. induction folders as [|f folders IH]; intros acc; simpl.
  - now rewrite app_nil_r.
  - rewrite IH. destruct f; simpl; [now rewrite app_assoc|reflexivity].
Qed.

Lemma getTweetsForAccount_In (fs : Store) (a : string) (ts : list Post)
  (t : Post) :
  getTweetsForAccount fs a = Ok ts -> In t ts ->
  exists folders data,
    fs a = Some folders /\ In (Some data) folders /\ In t data.
Proof.
  unfold getTweetsForAccount. destruct (fs a) as [folders|]; [|discriminate].
  intros [= <-] Hin. rewrite readFolders_concat in Hin. simpl in Hin.
  apply in_concat in Hin. destruct Hin as (data & Hd & Ht).
  apply in_map_iff in Hd. destruct Hd as ([d|] & <- & Hf); [|destruct Ht].
  now exists folders, d.
Qed.

Lemma loadAccounts_In (fs : Store) (accounts : list string)
  (acc all : list Post) (t : Post) :
  loadAccounts fs accounts acc = Ok all -> In t all ->
  In t acc
  \/ exists a folders data,
       In a accounts /\ fs a = Some folders
       /\ In (Some data) folders /\ In t data.
Proof.
  revert acc. induction accounts as [|a accounts IH]; intros acc; simpl.
  - intros [= <-] Hin. now left.
  - destruct (getTweetsForAccount fs a) as [ts|] eqn:Ea; [|discriminate].
    cbn [bind]. intros Hload Hin.
    destruct (IH _ Hload Hin) as [Hacc|(b & folders & data & Hb & H)].
    + apply in_app_or in Hacc. destruct Hacc as [Hacc|Hts]; [now left|].
      right. destruct (@getTweetsForAccount_In _ _ _ _ Ea Hts)
        as (folders & data & H).
      exists a, folders, data. split; [now left|exact H].
    + right. exists b, folders, data. split; [now right|exact H].
Qed.

Lemma loadAccounts_outcome (fs : Store) (accounts : list string)
  (acc : list Post) :
  match loadAccounts fs accounts acc with
  | Throw e =>
      e = FsError "ENOENT" /\ exists a, In a accounts /\ fs a = None
  | Ok _ => forall a, In a accounts -> fs a <> None
  end.
Proof.
  revert acc. induction accounts as [|a accounts IH]; intros acc; simpl.
  - intros a [].
  - unfold getTweetsForAccount at 1. destruct (fs a) as [folders|] eqn:Ea.
    + cbn [bind]. specialize (IH (acc ++ fold_left
        (fun allTweets folder =>
           match folder with
           | Some data => allTweets ++ data
           | None => allTweets
           end) folders [])).
      destruct (loadAccounts fs accounts _).
      * intros b [<-|Hb]; [congruence|now apply IH].
      * destruct IH as [He (b & Hb & Hnone)].
        split; [exact He|]. exists b. split; [now right|exact Hnone].
    + cbn [bind]. split; [reflexivity|]. exists a. split; [now left|exact Ea].
Qed.
End MergeMore.

(** X1.  The posts of an account are those of its readable dated
    folders, one folder after the other; a folder whose raw file is
    missing or unreadable contributes nothing and raises nothing. *)
Theorem X1_readable_folders_concatenated (fs : Merge.Store)
  (account : string) (folders : list (option (list Post))) :
  fs account = Some folders ->
  Merge.getTweetsForAccount fs account
  = Ok (List.concat (map (@orList Post) folders)).
Proof.
  intros H. unfold Merge.getTweetsForAccount. rewrite H.
  now rewrite readFolders_concat.
Qed.

Lemma X1_readable_folders_concatenated_witness :
  Merge.getTweetsForAccount Fixture.gappedStore "a"
  = Ok (List.concat
          (map (@orList Post) [Some [Sample.a100]; None; Some [Sample.a5]])).
Proof.
  apply X1_readable_folders_concatenated. reflexivity.
Defined.


(** X3.  Every post of a merged corpus comes from a readable folder of
    one of the source accounts, and none is a retweet when retweets are
    excluded. *)
Theorem X3_merged_posts_come_from_sources (fs : Merge.Store)
  (accounts : list string) (o : Merge.MergeOptions) (top : list Post) :
  Merge.topTweets fs accounts o = Ok top ->
  Forall (fun t =>
            (exists a folders data,
                In a accounts /\ fs a = Some folders
                /\ In (Some data) folders /\ In t data)
            /\ (Merge.excludeRetweets o = true -> isRetweet t = false))
    top.
Proof.
  unfold Merge.topTweets.
  destruct (Merge.loadAccounts fs accounts []) as [all|] eqn:Hload;
    [|discriminate].
  cbn [bind]. intros [= <-]. rewrite Forall_forall. intros t Ht.
  destruct (sliceFromZero_prefix (Merge.rankedTweets o all)
              (Merge.effectiveCap o)) as [m Hm].
  rewrite Hm in Ht. apply firstn_incl in Ht.
  unfold Merge.rankedTweets in Ht. apply jsSort_In in Ht.
  assert (Hall : In t all /\ (Merge.excludeRetweets o = true
                              -> isRetweet t = false)).
  { destruct (Merge.excludeRetweets o).
    - apply filter_In in Ht. destruct Ht as [Hin Hrt].
      split; [exact Hin|]. intros _. now destruct (isRetweet t).
    - split; [exact Ht|discriminate]. }
  destruct Hall as [Hin Hrt]. split; [|exact Hrt].
  destruct (@loadAccounts_In _ _ _ _ _ Hload Hin) as [[]|H]. exact H.
Qed.

Lemma X3_merged_posts_come_from_sources_witness :
  Forall (fun t =>
            (exists a folders data,
                In a ["a"; "b"] /\ Sample.specAccounts a = Some folders
                /\ In (Some data) folders /\ In t data)
            /\ (Merge.excludeRetweets
                  (Merge.mkOptions (Some 2) true Merge.TotalEngagement) = true
                -> isRetweet t = false))
    [Sample.b110; Sample.a100].
Proof.
  apply (@X3_merged_posts_come_from_sources Sample.specAccounts ["a"; "b"]
           (Merge.mkOptions (Some 2) true Merge.TotalEngagement)).
  reflexivity.
Defined.

(** X4.  Without a [tweetsPerAccount], or with 0, the merge keeps the 50
    best posts; with a negative one it keeps all but that many posts at
    the bottom of the ranking, the end of [slice] counting from the end
    of the list. *)
Theorem X4_cap_defaults_and_negative (fs : Merge.Store)
  (accounts : list string) (o : Merge.MergeOptions) (all : list Post) :
  Merge.loadAccounts fs accounts [] = Ok all ->
  (Merge.tweetsPerAccount o = None \/ Merge.tweetsPerAccount o = Some 0 ->
   Merge.topTweets fs accounts o
   = Ok (firstn 50 (Merge.rankedTweets o all)))
  /\ (forall n,
        Merge.tweetsPerAccount o = Some n -> n < 0 ->
        Merge.topTweets fs accounts o
        = Ok (firstn (List.length (Merge.rankedTweets o all) - Z.to_nat (- n))
                (Merge.rankedTweets o all))).
Proof.
  intros Hload. unfold Merge.topTweets. rewrite Hload.
  cbn [bind]. split.
  - intros Hcap. assert (Hc : Merge.effectiveCap o = 50).
    { unfold Merge.effectiveCap. destruct Hcap as [-> | ->]; reflexivity. }
    rewrite Hc. reflexivity.
  - intros n Hcap Hn. assert (Hc : Merge.effectiveCap o = n).
    { unfold Merge.effectiveCap. rewrite Hcap.
      destruct (Z.eqb_spec n 0); [lia|reflexivity]. }
    rewrite Hc. unfold sliceFromZero.
    destruct (Z.ltb_spec n 0); [|lia].
    do 2 f_equal. lia.
Qed.

Lemma X4_cap_defaults_and_negative_witness :
  (Merge.tweetsPerAccount (Merge.mkOptions (Some (-1)) true Merge.LikesOnly)
   = None
   \/ Merge.tweetsPerAccount (Merge.mkOptions (Some (-1)) true Merge.LikesOnly)
      = Some 0 ->
   Merge.topTweets Sample.specAccounts ["a"; "b"]
     (Merge.mkOptions (Some (-1)) true Merge.LikesOnly)
   = Ok (firstn 50
           (Merge.rankedTweets
              (Merge.mkOptions (Some (-1)) true Merge.LikesOnly)
              [Sample.a100; Sample.a5; Sample.b110])))
  /\ (forall n,
        Merge.tweetsPerAccount
          (Merge.mkOptions (Some (-1)) true Merge.LikesOnly) = Some n ->
        n < 0 ->
        Merge.topTweets Sample.specAccounts ["a"; "b"]
          (Merge.mkOptions (Some (-1)) true Merge.LikesOnly)
        = Ok (firstn
                (List.length
                   (Merge.rankedTweets
                      (Merge.mkOptions (Some (-1)) true Merge.LikesOnly)
                      [Sample.a100; Sample.a5; Sample.b110])
                 - Z.to_nat (- n))
                (Merge.rankedTweets
                   (Merge.mkOptions (Some (-1)) true Merge.LikesOnly)
                   [Sample.a100; Sample.a5; Sample.b110]))).
Proof.
  apply (@X4_cap_defaults_and_negative Sample.specAccounts ["a"; "b"]
           (Merge.mkOptions (Some (-1)) true Merge.LikesOnly)
           [Sample.a100; Sample.a5; Sample.b110]).
  reflexivity.
Defined.

(** With -1 the last of the three ranked posts is dropped. *)
Example merge_negative_cap :
  Merge.topTweets Sample.specAccounts ["a"; "b"]
    (Merge.mkOptions (Some (-1)) true Merge.LikesOnly)
  = Ok [Sample.b110; Sample.a100].
Proof. reflexivity. Qed.

(** X5.  Whatever the ranking method, a merged corpus is in
    non-increasing order of likes plus retweets: it is a prefix of the
    ranked list of all loaded posts, in which posts of equal engagement
    keep the order in which they were loaded. *)
Theorem X5_merged_order (fs : Merge.Store) (accounts : list string)
  (o : Merge.MergeOptions) (top : list Post) :
  Merge.topTweets fs accounts o = Ok top ->
  Descending Merge.engagement top
  /\ exists all m,
       Merge.loadAccounts fs accounts [] = Ok all
       /\ top = firstn m (Merge.rankedTweets o all)
       /\ forall k,
            filter (fun t => Merge.engagement t =? k) (Merge.rankedTweets o all)
            = filter (fun t => Merge.engagement t =? k)
                (if Merge.excludeRetweets o
                 then filter (fun tweet => negb (isRetweet tweet)) all
                 else all).
Proof.
  unfold Merge.topTweets.
  destruct (Merge.loadAccounts fs accounts []) as [all|] eqn:Hload;
    [|discriminate].
  cbn [bind]. intros [= <-].
  destruct (sliceFromZero_prefix (Merge.rankedTweets o all)
              (Merge.effectiveCap o)) as [m Hm].
  destruct (rankedTweets_by_engagement o all) as [Hdesc Hstable].
  rewrite Hm. split.
  - apply (firstn_descending (key := Merge.engagement)), Hdesc.
  - exists all, m. repeat split. exact Hstable.
Qed.

Lemma X5_merged_order_witness :
  Descending Merge.engagement [Sample.shared; Sample.liked]
  /\ exists all m,
       Merge.loadAccounts Sample.twoAccounts ["a"; "b"] [] = Ok all
       /\ [Sample.shared; Sample.liked]
          = firstn m
              (Merge.rankedTweets
                 (Merge.mkOptions (Some 10) true Merge.RetweetsOnly) all)
       /\ forall k,
            filter (fun t => Merge.engagement t =? k)
              (Merge.rankedTweets
                 (Merge.mkOptions (Some 10) true Merge.RetweetsOnly) all)
            = filter (fun t => Merge.engagement t =? k)
                (if Merge.excludeRetweets
                      (Merge.mkOptions (Some 10) true Merge.RetweetsOnly)
                 then filter (fun tweet => negb (isRetweet tweet)) all
                 else all).
Proof.
  apply (@X5_merged_order Sample.twoAccounts ["a"; "b"]
           (Merge.mkOptions (Some 10) true Merge.RetweetsOnly)).
  reflexivity.
Defined.

(* ================================================================== *)
(** ** Analytics: when it returns, and what it counts *)

Section AnalyticsMore.
Import Analytics.

Lemma millis_ascending (l : list Z) :
  Descending Z.opp (jsSort (fun a b => a - b) l).
Proof. apply jsSort_descending. intros a b. lia. Qed.

Lemma descending_last {A : Type} (key : A -> Z) (l : list A) (z : A) :
  Descending key l -> hd_error (rev l) = Some z ->
  forall x, In x l -> key z <= key x.
Proof.
  unfold Descending. induction 1 as [|y l Hl IH Hy]; intros Hz x Hx.
  - destruct Hx.
  - simpl in Hz. destruct (rev l) as [|r rs] eqn:Er.
    + assert (l = []).
      { apply (f_equal (@rev A)) in Er. now rewrite rev_involutive in Er. }
      subst l. simpl in Hz. injection Hz as <-.
      destruct Hx as [<-|[]]. lia.
    + simpl in Hz. injection Hz as ->.
      assert (Hzl : In z l).
      { apply in_rev. rewrite Er. now left. }
      destruct Hx as [<-|Hx].
      * rewrite Forall_forall in Hy. now apply Hy.
      * apply IH; trivial.
Qed.

(** The first and the last valid date bound every timestamp. *)
Lemma validDates_bounds (tweets : list Post) (lo hi ms : Z) :
  firstDate (validDates tweets) = Some lo ->
  lastDate (validDates tweets) = Some hi ->
  In ms (timestampsOf tweets) ->
  lo <= ms <= hi.
Proof.
  intros Hlo Hhi Hin.
  rewrite firstDate_validDates in Hlo.
  apply lastDate_defined in Hhi. destruct Hhi as [_ Hhi].
  apply (jsSort_In (fun a b => a - b)) in Hin.
  pose proof (millis_ascending (timestampsOf tweets)) as Hs. split.
  - destruct (jsSort _ (timestampsOf tweets)) as [|x l]; [discriminate|].
    injection Hlo as ->. destruct Hin as [<-|Hin]; [lia|].
    inversion Hs as [|? ? _ Hx]; subst. rewrite Forall_forall in Hx.
    specialize (Hx _ Hin). simpl in Hx. lia.
  - pose proof (@descending_last _ Z.opp _ _ Hs Hhi ms Hin). lia.
Qed.

Lemma format_inversion (h : JsHost) (d : option Z) (text : string) :
  format h (newDateOpt d) = Ok text ->
  exists ms, d = Some ms /\ Z.abs ms <= maxTimeValue /\ text = formatDay h ms.
Proof.
  destruct d as [ms|]; [|discriminate]. simpl.
  destruct (Z.leb_spec (Z.abs ms) maxTimeValue); [|discriminate].
  intros [= <-]. now exists ms.
Qed.

Lemma format_error (h : JsHost) (d : JsNumber) (e : JsError) :
  format h d = Throw e -> e = RangeError "Invalid time value".
Proof. destruct d; [discriminate|]. now intros [= <-]. Qed.

(** What a returned value is made of. *)
Lemma generateAnalytics_inversion (h : JsHost) (tweets : list Post)
  (a : Analytics) :
  generateAnalytics h tweets = Ok a ->
  tweets <> [] ->
  exists lo hi,
    firstDate (validDates tweets) = Some lo
    /\ lastDate (validDates tweets) = Some hi
    /\ Z.abs lo <= maxTimeValue /\ Z.abs hi <= maxTimeValue
    /\ a = mkAnalytics
             (Z.of_nat (List.length tweets))
             (countIf (fun t => negb (isReply t) && negb (isRetweet t)) tweets)
             (countIf (fun t => isReply t) tweets)
             (countIf (fun t => isRetweet t) tweets)
             (mkEngagement
                (sumOf likes (filter notRetweet tweets))
                (sumOf retweetCount (filter notRetweet tweets))
                (sumOf replies (filter notRetweet tweets))
                (divToFixed2 h (sumOf likes (filter notRetweet tweets))
                   (Z.of_nat (List.length (filter notRetweet tweets))))
                (topTweetsOf tweets))
             (mkTimeRange (formatDay h lo) (formatDay h hi))
             (mkContentTypes
                (countIf (fun t => negb (isEmpty (photos t))) tweets)
                (countIf (fun t => negb (isEmpty (videos t))) tweets)
                (countIf (fun t => negb (isEmpty (urls t))) tweets)
                (countIf (fun t => isEmpty (photos t) && isEmpty (videos t)
                                   && isEmpty (urls t)) tweets)).
Proof.
  intros Ha Hne. unfold generateAnalytics in Ha.
  destruct tweets as [|t tweets]; [congruence|]. cbn [isEmpty] in Ha.
  destruct (format h (newDateOpt (firstDate (validDates (t :: tweets)))))
    as [s1|] eqn:E1; cbn [bind] in Ha; [|discriminate].
  destruct (format h (newDateOpt (lastDate (validDates (t :: tweets)))))
    as [s2|] eqn:E2; cbn [bind] in Ha; [|discriminate].
  apply format_inversion in E1. destruct E1 as (lo & Hlo & Blo & ->).
  apply format_inversion in E2. destruct E2 as (hi & Hhi & Bhi & ->).
  exists lo, hi. injection Ha as <-. repeat split; assumption.
Qed.

Lemma generateAnalytics_error (h : JsHost) (tweets : list Post) (e : JsError) :
  generateAnalytics h tweets = Throw e -> e = RangeError "Invalid time value".
Proof.
  unfold generateAnalytics. destruct (isEmpty tweets); [discriminate|].
  destruct (format h (newDateOpt (firstDate (validDates tweets)))) eqn:E1;
    cbn [bind].
  - destruct (format h (newDateOpt (lastDate (validDates tweets)))) eqn:E2;
      cbn [bind]; [discriminate|].
    intros [= <-]. eapply format_error, E2.
  - intros [= <-]. eapply format_error, E1.
Qed.

Lemma countIf_nil {A : Type} (f : A -> bool) : countIf f [] = 0.
Proof. reflexivity. Qed.

Lemma countIf_cons {A : Type} (f : A -> bool) (x : A) (l : list A) :
  countIf f (x :: l) = (if f x then 1 else 0) + countIf f l.
Proof.
  unfold countIf. cbn [filter]. destruct (f x); cbn [List.length]; lia.
Qed.

Lemma filter_filter {A : Type} (f : A -> bool) (l : list A) :
  filter f (filter f l) = filter f l.
Proof.
  induction l as [|x l IH]; [reflexivity|].
  cbn [filter]. destruct (f x) eqn:E; [|exact IH].
  cbn [filter]. now rewrite E, IH.
Qed.
End AnalyticsMore.

(** When [generateAnalytics] returns. *)
Lemma analytics_defined_iff (h : JsHost) (tweets : list Post) :
  (exists a, Analytics.generateAnalytics h tweets = Ok a)
  <-> tweets = []
      \/ (Forall (fun t => timestamp t <> Undefined) tweets
          /\ Exists (fun t => exists ms, timestamp t = Millis ms) tweets
          /\ Forall (fun t => forall ms, timestamp t = Millis ms ->
                                         Z.abs ms <= maxTimeValue) tweets).
Proof.
  split.
  - intros [a Ha]. destruct tweets as [|t0 tweets0] eqn:Et; [now left|].
    right. rewrite <- Et in *.
    assert (Hne : tweets <> []) by (rewrite Et; discriminate).
    destruct (@generateAnalytics_inversion _ _ _ Ha Hne)
      as (lo & hi & Hlo & Hhi & Blo & Bhi & _).
    split; [|split].
    + now apply lastDate_defined in Hhi.
    + apply firstDate_In, timestampsOf_In in Hlo.
      destruct Hlo as (t & Ht & Hts). apply Exists_exists.
      exists t. split; [exact Ht|]. now exists lo.
    + rewrite Forall_forall. intros t Ht ms Hms.
      assert (Hin : In ms (timestampsOf tweets))
        by (apply timestampsOf_In; eauto).
      pose proof (@validDates_bounds _ _ _ _ Hlo Hhi Hin). lia.
  - intros [->|(Hkeys & Hsome & Hvalid)];
      [now exists Analytics.emptyAnalytics|].
    assert (Hne : tweets <> []) by (intros ->; inversion Hsome).
    destruct (dates_exist Hsome Hkeys) as [lo [hi [Hlo Hhi]]].
    assert (Hb : forall ms, In ms (timestampsOf tweets) ->
                            Z.abs ms <= maxTimeValue).
    { intros ms Hin. apply timestampsOf_In in Hin.
      destruct Hin as [t [Ht Hts]].
      rewrite Forall_forall in Hvalid. eauto. }
    destruct (@generateAnalytics_value h tweets lo hi Hne Hlo Hhi)
      as [a [Ha _]].
    + apply Hb, firstDate_In, Hlo.
    + apply Hb, lastDate_In, Hhi.
    + now exists a.
Qed.

Lemma Forall_or_Exists {A : Type} (P Q : A -> Prop) (l : list A) :
  (forall x, P x \/ Q x) -> Forall P l \/ Exists Q l.
Proof.
  intros H. induction l as [|x l [IH|IH]].
  - left. constructor.
  - destruct (H x); [left; now constructor|right; now left].
  - right. now right.
Qed.

(** When [generateAnalytics] raises. *)
Lemma analytics_raises_iff (h : JsHost) (tweets : list Post) :
  Analytics.generateAnalytics h tweets
  = Throw (RangeError "Invalid time value")
  <-> tweets <> []
      /\ (Exists (fun t => timestamp t = Undefined) tweets
          \/ Forall (fun t => forall ms, timestamp t <> Millis ms) tweets
          \/ Exists (fun t => exists ms, timestamp t = Millis ms
                                         /\ maxTimeValue < Z.abs ms)
               tweets).
Proof.
  split.
  - intros Hthrow.
    assert (Hno : ~ exists a, Analytics.generateAnalytics h tweets = Ok a)
      by (intros [a Ha]; congruence).
    rewrite analytics_defined_iff in Hno.
    split; [intros ->; apply Hno; now left|].
    destruct (@Forall_or_Exists _
                (fun t => timestamp t <> Undefined)
                (fun t => timestamp t = Undefined) tweets) as [Hkeys|Hex];
      [intros t; destruct (timestamp t); auto; left; discriminate
      | |now left].
    destruct (@Forall_or_Exists _
                (fun t => forall ms, timestamp t <> Millis ms)
                (fun t => exists ms, timestamp t = Millis ms) tweets)
      as [Hnone|Hsome];
      [intros t; destruct (timestamp t) as [ms| |];
       [right; now exists ms|left; discriminate|left; discriminate]
      |now right; left| ].
    destruct (@Forall_or_Exists _
                (fun t => forall ms, timestamp t = Millis ms ->
                                     Z.abs ms <= maxTimeValue)
                (fun t => exists ms, timestamp t = Millis ms
                                     /\ maxTimeValue < Z.abs ms) tweets)
      as [Hvalid|Hbad];
      [intros t; destruct (timestamp t) as [ms| |];
       [destruct (Z.le_gt_cases (Z.abs ms) maxTimeValue);
        [left; intros ? [= <-]; assumption|right; exists ms; split; [reflexivity|lia]]
       |left; discriminate|left; discriminate]
      | |now right; right].
    destruct Hno. right. tauto.
  - intros [Hne Hwhy].
    destruct (Analytics.generateAnalytics h tweets) as [a|e] eqn:Ha.
    + assert (Hyes : exists a, Analytics.generateAnalytics h tweets = Ok a)
        by eauto.
      rewrite analytics_defined_iff in Hyes.
      destruct Hyes as [->|(Hkeys & Hsome & Hvalid)]; [congruence|].
      rewrite Forall_forall in Hkeys, Hvalid.
      rewrite Exists_exists in Hsome.
      destruct Hwhy as [Hex|[Hnone|Hbad]].
      * apply Exists_exists in Hex. destruct Hex as (t & Ht & E).
        now destruct (Hkeys t Ht).
      * rewrite Forall_forall in Hnone.
        destruct Hsome as (t & Ht & ms & E). now destruct (Hnone t Ht ms).
      * apply Exists_exists in Hbad. destruct Hbad as (t & Ht & ms & E & B).
        specialize (Hvalid t Ht ms E). lia.
    + f_equal. eapply generateAnalytics_error, Ha.
Qed.


(** A post without a timestamp key makes the analytics raise even next
    to a dated post: the [undefined] is the last of the valid dates.  A
    [null] timestamp is left out of them. *)
Example analytics_keyless_example :
  Analytics.generateAnalytics utcHost [Fixture.keyless; Sample.liked]
  = Throw (RangeError "Invalid time value")
  /\ Analytics.generateAnalytics utcHost
       [Sample.datedRetweet; Fixture.keylessRetweet]
     = Throw (RangeError "Invalid time value")
  /\ Analytics.validDates [Fixture.keyless; Sample.liked; Sample.undated]
     = [Some 1700000000000; None]
  /\ exists a,
       Analytics.generateAnalytics utcHost [Sample.undated; Sample.liked]
       = Ok a
       /\ Analytics.timeRange a
          = Analytics.mkTimeRange "2023-11-14" "2023-11-14".
Proof.
  split; [reflexivity|]. split; [reflexivity|]. split; [reflexivity|].
  eexists. split; [vm_compute; reflexivity|reflexivity].
Qed.

(** X7.  On a non-empty list the time range of a returned value shows
    the day of the earliest and the day of the latest timestamp of the
    list: both are timestamps of posts, and every timestamp lies between
    them. *)
Theorem X7_time_range_is_earliest_and_latest (h : JsHost)
  (tweets : list Post) (a : Analytics.Analytics) :
  Analytics.generateAnalytics h tweets = Ok a ->
  tweets <> [] ->
  exists lo hi,
    Analytics.rangeStart (Analytics.timeRange a) = formatDay h lo
    /\ Analytics.rangeEnd (Analytics.timeRange a) = formatDay h hi
    /\ In lo (timestampsOf tweets)
    /\ In hi (timestampsOf tweets)
    /\ Forall (fun ms => lo <= ms <= hi) (timestampsOf tweets).
Proof.
  intros Ha Hne.
  destruct (@generateAnalytics_inversion _ _ _ Ha Hne)
    as (lo & hi & Hlo & Hhi & _ & _ & ->).
  exists lo, hi. cbn. repeat split.
  - now apply firstDate_In in Hlo.
  - now apply lastDate_In in Hhi.
  - rewrite Forall_forall. intros ms Hms.
    now apply (@validDates_bounds _ _ _ _ Hlo Hhi).
Qed.

Lemma X7_time_range_is_earliest_and_latest_witness :
  exists a,
    Analytics.generateAnalytics utcHost
      [Sample.post "late" (Some 1704067200000) false 1 0;
       Sample.undated;
       Sample.post "early" (Some 951782400000) true 2 0] = Ok a
    /\ Analytics.timeRange a = Analytics.mkTimeRange "2000-02-29" "2024-01-01"
    /\ exists lo hi,
         Analytics.rangeStart (Analytics.timeRange a) = formatDay utcHost lo
         /\ Analytics.rangeEnd (Analytics.timeRange a) = formatDay utcHost hi
         /\ In lo (timestampsOf
                     [Sample.post "late" (Some 1704067200000) false 1 0;
                      Sample.undated;
                      Sample.post "early" (Some 951782400000) true 2 0])
         /\ In hi (timestampsOf
                     [Sample.post "late" (Some 1704067200000) false 1 0;
                      Sample.undated;
                      Sample.post "early" (Some 951782400000) true 2 0])
         /\ Forall (fun ms => lo <= ms <= hi)
              (timestampsOf
                 [Sample.post "late" (Some 1704067200000) false 1 0;
                  Sample.undated;
                  Sample.post "early" (Some 951782400000) true 2 0]).
Proof.
  eexists. split; [vm_compute; reflexivity|].
  split; [reflexivity|].
  apply (@X7_time_range_is_earliest_and_latest utcHost
           [Sample.post "late" (Some 1704067200000) false 1 0;
            Sample.undated;
            Sample.post "early" (Some 951782400000) true 2 0]).
  - vm_compute. reflexivity.
  - discriminate.
Defined.

Section CountFacts.
Import Analytics.

Lemma count_by_type (l : list Post) :
  countIf (fun t => negb (isReply t) && negb (isRetweet t)) l
  + countIf (fun t => isReply t) l + countIf (fun t => isRetweet t) l
  = Z.of_nat (List.length l)
    + countIf (fun t => isReply t && isRetweet t) l.
Proof.
  induction l as [|t l IH]; [reflexivity|].
  rewrite !countIf_cons. cbn [List.length].
  destruct (isReply t), (isRetweet t); cbn [negb andb]; lia.
Qed.

Lemma count_by_content (l : list Post) :
  countIf (fun t => isEmpty (photos t) && isEmpty (videos t)
                    && isEmpty (urls t)) l
  + countIf (fun t => negb (isEmpty (photos t)) || negb (isEmpty (videos t))
                      || negb (isEmpty (urls t))) l
  = Z.of_nat (List.length l).
Proof.
  induction l as [|t l IH]; [reflexivity|].
  rewrite !countIf_cons. cbn [List.length].
  destruct (isEmpty (photos t)), (isEmpty (videos t)), (isEmpty (urls t));
    cbn [negb andb orb]; lia.
Qed.

Lemma count_retweets (l : list Post) :
  countIf (fun t => isRetweet t) l + Z.of_nat (List.length (filter notRetweet l))
  = Z.of_nat (List.length l).
Proof.
  induction l as [|t l IH]; [reflexivity|].
  rewrite countIf_cons. cbn [filter List.length]. unfold notRetweet at 1.
  destruct (isRetweet t); cbn [negb List.length]; lia.
Qed.
End CountFacts.

(** X8.  In a returned value the total is the number of posts; direct
    tweets, replies and retweets add up to the total plus the posts that
    are both a reply and a retweet, which are counted twice; the
    text-only posts and the posts with a photo, a video or a link add up
    to the total; and the retweets are the posts left out of the
    engagement figures. *)
Theorem X8_counts_add_up (h : JsHost) (tweets : list Post)
  (a : Analytics.Analytics) :
  Analytics.generateAnalytics h tweets = Ok a ->
  Analytics.totalTweets a = Z.of_nat (List.length tweets)
  /\ Analytics.directTweets a + Analytics.replyTweets a + Analytics.retweets a
     = Analytics.totalTweets a
       + Analytics.countIf (fun t => isReply t && isRetweet t) tweets
  /\ Analytics.textOnly (Analytics.contentTypes a)
     + Analytics.countIf
         (fun t => negb (isEmpty (photos t)) || negb (isEmpty (videos t))
                   || negb (isEmpty (urls t))) tweets
     = Analytics.totalTweets a
  /\ Analytics.retweets a
     + Z.of_nat (List.length (filter Analytics.notRetweet tweets))
     = Analytics.totalTweets a.
Proof.
  intros Ha. destruct tweets as [|t0 tweets0] eqn:Et.
  - injection Ha as <-. repeat split.
  - rewrite <- Et in *.
    assert (Hne : tweets <> []) by (rewrite Et; discriminate).
    destruct (@generateAnalytics_inversion _ _ _ Ha Hne)
      as (lo & hi & _ & _ & _ & _ & ->).
    cbn. split; [reflexivity|]. split; [apply count_by_type|].
    split; [apply count_by_content|apply count_retweets].
Qed.

Lemma X8_counts_add_up_witness :
  exists a,
    Analytics.generateAnalytics utcHost
      [Sample.liked; Sample.datedRetweet; Sample.shared] = Ok a
    /\ Analytics.totalTweets a
       = Z.of_nat (List.length [Sample.liked; Sample.datedRetweet; Sample.shared])
    /\ Analytics.directTweets a + Analytics.replyTweets a + Analytics.retweets a
       = Analytics.totalTweets a
         + Analytics.countIf (fun t => isReply t && isRetweet t)
             [Sample.liked; Sample.datedRetweet; Sample.shared]
    /\ Analytics.textOnly (Analytics.contentTypes a)
       + Analytics.countIf
           (fun t => negb (isEmpty (photos t)) || negb (isEmpty (videos t))
                     || negb (isEmpty (urls t)))
           [Sample.liked; Sample.datedRetweet; Sample.shared]
       = Analytics.totalTweets a
    /\ Analytics.retweets a
       + Z.of_nat (List.length
                     (filter Analytics.notRetweet
                        [Sample.liked; Sample.datedRetweet; Sample.shared]))
       = Analytics.totalTweets a.
Proof.
  eexists. split; [vm_compute; reflexivity|].
  apply (@X8_counts_add_up utcHost
           [Sample.liked; Sample.datedRetweet; Sample.shared]).
  vm_compute. reflexivity.
Defined.

(** X9.  Retweets leave no trace in the engagement figures: the totals
    of likes, retweets and replies and the top list are those of the
    list without its retweets, and so is the average as long as one post
    is not a retweet. *)
Theorem X9_engagement_ignores_retweets (h : JsHost) (tweets : list Post)
  (a a' : Analytics.Analytics) :
  Analytics.generateAnalytics h tweets = Ok a ->
  Analytics.generateAnalytics h (filter Analytics.notRetweet tweets) = Ok a' ->
  Analytics.totalLikes (Analytics.engagement a)
  = Analytics.totalLikes (Analytics.engagement a')
  /\ Analytics.totalRetweetCount (Analytics.engagement a)
     = Analytics.totalRetweetCount (Analytics.engagement a')
  /\ Analytics.totalReplies (Analytics.engagement a)
     = Analytics.totalReplies (Analytics.engagement a')
  /\ Analytics.topTweets (Analytics.engagement a)
     = Analytics.topTweets (Analytics.engagement a')
  /\ (filter Analytics.notRetweet tweets <> [] ->
      Analytics.averageLikes (Analytics.engagement a)
      = Analytics.averageLikes (Analytics.engagement a')).
Proof.
  intros Ha Ha'. destruct tweets as [|t0 tweets0] eqn:Et.
  - cbn in Ha'. injection Ha as <-. injection Ha' as <-. repeat split.
  - rewrite <- Et in *.
    assert (Hne : tweets <> []) by (rewrite Et; discriminate).
    destruct (@generateAnalytics_inversion _ _ _ Ha Hne)
      as (lo & hi & _ & _ & _ & _ & ->).
    destruct (filter Analytics.notRetweet tweets) as [|u l] eqn:Ef.
    + injection Ha' as <-. cbn. unfold Analytics.topTweetsOf. rewrite Ef.
      repeat split. congruence.
    + rewrite <- Ef in *.
      assert (Hne' : filter Analytics.notRetweet tweets <> [])
        by (rewrite Ef; discriminate).
      destruct (@generateAnalytics_inversion _ _ _ Ha' Hne')
        as (lo' & hi' & _ & _ & _ & _ & ->).
      cbn. unfold Analytics.topTweetsOf. rewrite !filter_filter.
      repeat split.
Qed.

Lemma X9_engagement_ignores_retweets_witness :
  exists a a',
    Analytics.generateAnalytics utcHost
      [Sample.liked; Sample.datedRetweet; Sample.shared] = Ok a
    /\ Analytics.generateAnalytics utcHost
         (filter Analytics.notRetweet
            [Sample.liked; Sample.datedRetweet; Sample.shared]) = Ok a'
    /\ Analytics.totalLikes (Analytics.engagement a)
       = Analytics.totalLikes (Analytics.engagement a')
    /\ Analytics.totalRetweetCount (Analytics.engagement a)
       = Analytics.totalRetweetCount (Analytics.engagement a')
    /\ Analytics.totalReplies (Analytics.engagement a)
       = Analytics.totalReplies (Analytics.engagement a')
    /\ Analytics.topTweets (Analytics.engagement a)
       = Analytics.topTweets (Analytics.engagement a')
    /\ (filter Analytics.notRetweet
          [Sample.liked; Sample.datedRetweet; Sample.shared] <> [] ->
        Analytics.averageLikes (Analytics.engagement a)
        = Analytics.averageLikes (Analytics.engagement a')).
Proof.
  eexists. eexists. split; [vm_compute; reflexivity|].
  split; [vm_compute; reflexivity|].
  apply (@X9_engagement_ignores_retweets utcHost
           [Sample.liked; Sample.datedRetweet; Sample.shared]);
    vm_compute; reflexivity.
Defined.

(* ================================================================== *)
(** ** Collection over a feed that does not fail *)

Section CollectMore.
Import Pipeline.

(** The post made of a record does not depend on the statistics. *)
Lemma processTweetData_post (me : string) (s : Stats) (tweet : RawTweet) :
  snd (processTweetData me s (Some tweet)) = normalize me tweet.
Proof.
  unfold normalize, processTweetData.
  destruct (raw_id tweet) as [i|]; [|reflexivity].
  destruct (String.eqb i ""); [reflexivity|].
  destruct (derivedTimestamp tweet) as [[z|]|]; try reflexivity.
  destruct (z =? 0); [reflexivity|].
  destruct (rescale z <=? 0); [reflexivity|].
  destruct (toISOString (newDate (Num (rescale z)))); reflexivity.
Qed.

Lemma normalize_wellFormed (me : string) (tweet : RawTweet) (post : Post) :
  normalize me tweet = Some post -> wellFormed post.
Proof.
  unfold normalize, processTweetData.
  destruct (raw_id tweet) as [i|]; [|discriminate].
  destruct (String.eqb_spec i "") as [|Hi]; [discriminate|].
  destruct (derivedTimestamp tweet) as [[z|]|]; try discriminate.
  destruct (z =? 0); [discriminate|].
  destruct (Z.leb_spec (rescale z) 0) as [|Hpos]; [discriminate|].
  destruct (toISOString_newDate Hpos) as [Hin Hout].
  destruct (Z.le_gt_cases (rescale z) maxTimeValue) as [Hr|Hr].
  - rewrite (Hin Hr). cbn [snd]. intros [= <-].
    unfold wellFormed. cbn. repeat split; try discriminate; trivial.
    exists (rescale z). repeat split; trivial.
  - rewrite (Hout Hr). discriminate.
Qed.

(** The counters after one record. *)
Lemma processTweetData_requests (me : string) (s : Stats) (tweet : RawTweet) :
  requestCount (fst (processTweetData me s (Some tweet))) = requestCount s
  /\ uniqueTweets (fst (processTweetData me s (Some tweet))) = uniqueTweets s.
Proof. apply processTweetData_counters. Qed.

Lemma collectLoop_yields (feed : list RawTweet) (p : Pipeline)
  (acc : list Post) :
  let out := collectLoop p (map Yield feed) acc in
  let added := contribution (thisUsername p) (tweetFilter p) feed in
  snd out = Ok (acc ++ added)
  /\ sameSession p (fst out)
  /\ requestCount (stats (fst out))
     = requestCount (stats p) + Z.of_nat (List.length feed)
  /\ uniqueTweets (stats (fst out))
     = uniqueTweets (stats p) + Z.of_nat (List.length added).
Proof.
  revert p acc. induction feed as [|tweet feed IH]; intros p acc out added.
  - subst out added. cbn. rewrite app_nil_r.
    split; [reflexivity|]. split; [apply sameSession_refl|]. split; lia.
  - subst out added. cbn [map collectLoop contribution flat_map].
    destruct (yield_step p tweet) as (S1 & S2 & S3 & Hreq).
    set (p1 := withStats p (incrRequestCount (stats p))) in *.
    cbn zeta in S2, S3, Hreq.
    assert (Hf : tweetFilter p1 = tweetFilter p) by reflexivity.
    assert (Hu : thisUsername p1 = thisUsername p) by reflexivity.
    rewrite Hf.
    destruct (tweetFilter p tweet) eqn:Ekeep.
    + pose proof (processTweetData_post (thisUsername p1) (stats p1) tweet)
        as Hpost.
      destruct (processTweetData_requests (thisUsername p1) (stats p1) tweet)
        as [_ Huniq].
      destruct (processTweetData (thisUsername p1) (stats p1) (Some tweet))
        as [s2 processed] eqn:Er.
      cbn [fst snd] in *. rewrite Hu in Hpost. rewrite <- Hpost.
      destruct processed as [post|].
      * match goal with
        | |- context [collectLoop ?q _ ?a] =>
            destruct (IH q a) as (Hr & Hs & Hc & Hq)
        end.
        cbn [thisUsername tweetFilter withStats] in Hr, Hq.
        rewrite Hr, Hc, Hq. cbn [stats withStats incrUniqueTweets uniqueTweets
                                 requestCount].
        rewrite <- app_assoc. cbn [app List.length].
        split; [reflexivity|]. split.
        -- eapply sameSession_trans; [exact S3|exact Hs].
        -- unfold contribution in *; subst p1;
           cbn [thisUsername tweetFilter withStats stats incrRequestCount
                uniqueTweets requestCount List.length app] in *; split; lia.
      * match goal with
        | |- context [collectLoop ?q _ ?a] =>
            destruct (IH q a) as (Hr & Hs & Hc & Hq)
        end.
        cbn [thisUsername tweetFilter withStats] in Hr, Hq.
        rewrite Hr, Hc, Hq. cbn [stats withStats].
        split; [reflexivity|]. split.
        -- eapply sameSession_trans; [exact S2|exact Hs].
        -- unfold contribution in *; subst p1;
           cbn [thisUsername tweetFilter withStats stats incrRequestCount
                uniqueTweets requestCount List.length app] in *; split; lia.
    + destruct (IH p1 acc) as (Hr & Hs & Hc & Hq).
      rewrite Hu, Hf in Hr, Hq. rewrite Hr, Hc, Hq.
      split; [reflexivity|]. split.
      * eapply sameSession_trans; [exact S1|exact Hs].
      * unfold contribution in *; subst p1;
         cbn [thisUsername tweetFilter withStats stats incrRequestCount
              uniqueTweets requestCount List.length app] in *; split; lia.
Qed.

(** Whatever the events, a list that comes out holds well-formed posts
    only. *)
Lemma collectLoop_wellFormed (events : list FeedEvent) (p p' : Pipeline)
  (acc posts : list Post) :
  collectLoop p events acc = (p', Ok posts) ->
  Forall wellFormed acc -> Forall wellFormed posts.
Proof.
  revert p acc. induction events as [|ev events IH]; intros p acc.
  - cbn. intros [= _ <-] Hacc. exact Hacc.
  - destruct ev as [tweet|e]; [|discriminate].
    cbn [collectLoop].
    set (p1 := withStats p (incrRequestCount (stats p))).
    destruct (tweetFilter p1 tweet); [|apply IH].
    pose proof (processTweetData_post (thisUsername p1) (stats p1) tweet)
      as Hpost.
    destruct (processTweetData (thisUsername p1) (stats p1) (Some tweet))
      as [s2 [post|]]; [|apply IH].
    cbn [snd] in Hpost. intros Hloop Hacc.
    apply (IH _ _ Hloop). apply Forall_app. split; [exact Hacc|].
    constructor; [|constructor].
    eapply normalize_wellFormed. symmetry. exact Hpost.
Qed.

Lemma wellFormed_analytics (h : JsHost) (posts : list Post) :
  Forall wellFormed posts ->
  exists a, Analytics.generateAnalytics h posts = Ok a.
Proof.
  intros Hwf. apply analytics_defined_iff.
  destruct posts as [|post0 posts0] eqn:Ep; [now left|].
  right. rewrite <- Ep in *. rewrite Forall_forall in Hwf.
  split; [|split].
  - rewrite Forall_forall. intros t Ht.
    destruct (Hwf t Ht) as (_ & (m & Hm & _) & _). congruence.
  - apply Exists_exists. exists post0.
    assert (Hp0 : In post0 posts) by (rewrite Ep; now left).
    split; [exact Hp0|].
    destruct (Hwf post0 Hp0) as (_ & (m & Hm & _) & _). now exists m.
  - rewrite Forall_forall. intros t Ht ms Hms.
    destruct (Hwf t Ht) as (_ & (m & Hm & Hr & _) & _).
    assert (m = ms) by congruence. subst m. lia.
Qed.
End CollectMore.

(** X10.  When the iterator yields its records without failing,
    [collectTweets] returns the posts of the records the filter lets
    through and [processTweetData] keeps, in the order of the feed;
    [requestCount] grows by the number of records, kept or not, and
    [uniqueTweets] by the number of posts returned. *)
Theorem X10_collection_of_a_quiet_feed (h : JsHost) (p : Pipeline.Pipeline)
  (fromDateObj toDateObj : option JsNumber) (query : string)
  (feed : list RawTweet) :
  Pipeline.searchQuery h p fromDateObj toDateObj = Ok query ->
  Pipeline.searchTweets (Pipeline.scraper p) query
    (Pipeline.maxTweets (Pipeline.twitter (Pipeline.config p)))
  = map Pipeline.Yield feed ->
  snd (Pipeline.collectTweets h p fromDateObj toDateObj)
  = Ok (contribution (Pipeline.thisUsername p) (Pipeline.tweetFilter p) feed)
  /\ Pipeline.requestCount
       (Pipeline.stats (fst (Pipeline.collectTweets h p fromDateObj toDateObj)))
     = Pipeline.requestCount (Pipeline.stats p) + Z.of_nat (List.length feed)
  /\ Pipeline.uniqueTweets
       (Pipeline.stats (fst (Pipeline.collectTweets h p fromDateObj toDateObj)))
     = Pipeline.uniqueTweets (Pipeline.stats p)
       + Z.of_nat (List.length
                     (contribution (Pipeline.thisUsername p)
                        (Pipeline.tweetFilter p) feed)).
Proof.
  intros Hq Hfeed. unfold Pipeline.collectTweets. rewrite Hq, Hfeed.
  destruct (collectLoop_yields feed p []) as (Hr & _ & Hc & Hu).
  split; [exact Hr|]. split; [exact Hc|exact Hu].
Qed.

Lemma X10_collection_of_a_quiet_feed_witness :
  snd (Pipeline.collectTweets utcHost Fixture.calmPipeline None None)
  = Ok (contribution (Pipeline.thisUsername Fixture.calmPipeline)
          (Pipeline.tweetFilter Fixture.calmPipeline)
          [Sample.rawSeconds; Fixture.rawLater])
  /\ Pipeline.requestCount
       (Pipeline.stats
          (fst (Pipeline.collectTweets utcHost Fixture.calmPipeline None None)))
     = Pipeline.requestCount (Pipeline.stats Fixture.calmPipeline)
       + Z.of_nat (List.length [Sample.rawSeconds; Fixture.rawLater])
  /\ Pipeline.uniqueTweets
       (Pipeline.stats
          (fst (Pipeline.collectTweets utcHost Fixture.calmPipeline None None)))
     = Pipeline.uniqueTweets (Pipeline.stats Fixture.calmPipeline)
       + Z.of_nat (List.length
                     (contribution (Pipeline.thisUsername Fixture.calmPipeline)
                        (Pipeline.tweetFilter Fixture.calmPipeline)
                        [Sample.rawSeconds; Fixture.rawLater])).
Proof.
  apply (@X10_collection_of_a_quiet_feed utcHost Fixture.calmPipeline
           None None "from:alice" [Sample.rawSeconds; Fixture.rawLater]).
  - reflexivity.
  - reflexivity.
Defined.

(** X11.  Every post [collectTweets] returns has a non-empty id, a
    timestamp that is a positive valid date with its ISO rendering, and
    its three counts; so [generateAnalytics] never raises on a collected
    list, and counts all of it. *)
Theorem X11_collected_posts_are_analysable (h : JsHost)
  (p p' : Pipeline.Pipeline) (fromDateObj toDateObj : option JsNumber)
  (posts : list Post) :
  Pipeline.collectTweets h p fromDateObj toDateObj = (p', Ok posts) ->
  Forall wellFormed posts
  /\ exists a,
       Analytics.generateAnalytics h posts = Ok a
       /\ Analytics.totalTweets a = Z.of_nat (List.length posts).
Proof.
  unfold Pipeline.collectTweets.
  destruct (Pipeline.searchQuery h p fromDateObj toDateObj) as [query|];
    [|discriminate].
  intros Hloop.
  assert (Hwf : Forall wellFormed posts).
  { eapply collectLoop_wellFormed; [exact Hloop|constructor]. }
  split; [exact Hwf|].
  destruct (wellFormed_analytics h Hwf) as [a Ha].
  exists a. split; [exact Ha|].
  destruct posts as [|post0 posts0] eqn:Ep.
  - injection Ha as <-. reflexivity.
  - rewrite <- Ep in *.
    assert (Hne : posts <> []) by (rewrite Ep; discriminate).
    destruct (@generateAnalytics_inversion _ _ _ Ha Hne)
      as (lo & hi & _ & _ & _ & _ & ->).
    reflexivity.
Qed.

Lemma X11_collected_posts_are_analysable_witness :
  exists p' posts,
    Pipeline.collectTweets utcHost Fixture.calmPipeline None None
    = (p', Ok posts)
    /\ Forall wellFormed posts
    /\ exists a,
         Analytics.generateAnalytics utcHost posts = Ok a
         /\ Analytics.totalTweets a = Z.of_nat (List.length posts).
Proof.
  eexists. eexists. split; [vm_compute; reflexivity|].
  eapply (@X11_collected_posts_are_analysable utcHost Fixture.calmPipeline
            _ None None).
  vm_compute. reflexivity.
Defined.

(* ================================================================== *)
(** ** The two date trackers *)

Section TrackerFacts.
Import Pipeline.

Lemma tracked_same (s s' : Stats) (ts : list Z) :
  oldestTweetDate s' = oldestTweetDate s ->
  newestTweetDate s' = newestTweetDate s ->
  tracked s ts -> tracked s' ts.
Proof. unfold tracked. intros -> ->. trivial. Qed.

Lemma trackDates_tracked (s : Stats) (ts : list Z) (ms : Z) :
  tracked s ts -> tracked (trackDates s (Num ms)) (ts ++ [ms]).
Proof.
  unfold tracked, trackDates. destruct ts as [|x l].
  - intros [Ho Hn]. rewrite Ho. cbn. rewrite Hn. cbn.
    exists ms, ms. repeat split; auto. constructor; [lia|constructor].
  - intros (lo & hi & Ho & Hn & Hlo & Hhi & Hall).
    rewrite Ho. cbn [dateLt app].
    assert (Hall' : forall lo' hi', lo' <= lo -> hi <= hi' ->
                      lo' <= ms <= hi' ->
                      Forall (fun y => lo' <= y <= hi') (x :: l ++ [ms])).
    { intros lo' hi' H1 H2 H3. change (x :: l ++ [ms]) with ((x :: l) ++ [ms]).
      apply Forall_app. split.
      - eapply Forall_impl; [|exact Hall]. simpl. intros; lia.
      - constructor; [exact H3|constructor]. }
    assert (Hin : forall y, In y (x :: l) -> In y (x :: l ++ [ms])).
    { intros y Hy. change (x :: l ++ [ms]) with ((x :: l) ++ [ms]).
      apply in_or_app. now left. }
    assert (Hms : In ms (x :: l ++ [ms])).
    { change (x :: l ++ [ms]) with ((x :: l) ++ [ms]).
      apply in_or_app. right. now left. }
    assert (Hlohi : lo <= hi).
    { rewrite Forall_forall in Hall. specialize (Hall lo Hlo). lia. }
    destruct (Z.ltb_spec ms lo) as [Hlt|Hge].
    + cbn [newestTweetDate setOldest]. rewrite Hn. cbn [dateLt].
      destruct (Z.ltb_spec hi ms) as [Hlt2|Hge2]; [lia|].
      exists ms, hi. cbn [oldestTweetDate newestTweetDate setOldest].
      repeat split; auto. apply Hall'; lia.
    + rewrite Hn. cbn [dateLt].
      destruct (Z.ltb_spec hi ms) as [Hlt2|Hge2].
      * exists lo, ms. cbn [oldestTweetDate newestTweetDate setNewest].
        repeat split; auto. apply Hall'; lia.
      * exists lo, hi. repeat split; auto. apply Hall'; lia.
Qed.

(** One record: a kept post extends the tracked timestamps by its own,
    a dropped record leaves the trackers alone. *)
Lemma processTweetData_tracked (me : string) (s : Stats) (tweet : RawTweet)
  (ts : list Z) :
  representable tweet ->
  tracked s ts ->
  tracked (fst (processTweetData me s (Some tweet)))
    (ts ++ timestampsOf match normalize me tweet with
                        | Some post => [post]
                        | None => []
                        end).
Proof.
  intros Hrep Htr. unfold normalize, processTweetData.
  assert (Hsame : tracked s (ts ++ timestampsOf [])).
  { cbn. now rewrite app_nil_r. }
  destruct (raw_id tweet) as [i|]; [|exact Hsame].
  destruct (String.eqb i ""); [exact Hsame|].
  destruct (derivedTimestamp tweet) as [[z|]|] eqn:Ed; try exact Hsame.
  destruct (z =? 0); [exact Hsame|].
  destruct (Z.leb_spec (rescale z) 0) as [|Hpos]; [exact Hsame|].
  specialize (Hrep z Ed).
  destruct (toISOString_newDate Hpos) as [Hin _].
  rewrite (Hin Hrep). cbn [fst snd timestampsOf flat_map timestamp app].
  assert (Hd : newDate (Num (rescale z)) = Num (rescale z)).
  { unfold newDate. destruct (Z.leb_spec (Z.abs (rescale z)) maxTimeValue);
      [reflexivity|lia]. }
  rewrite Hd. now apply trackDates_tracked.
Qed.

Lemma timestampsOf_app (l1 l2 : list Post) :
  timestampsOf (l1 ++ l2) = timestampsOf l1 ++ timestampsOf l2.
Proof. unfold timestampsOf. apply flat_map_app. Qed.

Lemma collectLoop_tracked (feed : list RawTweet) (p : Pipeline)
  (acc : list Post) :
  Forall representable feed ->
  tracked (stats p) (timestampsOf acc) ->
  tracked (stats (fst (collectLoop p (map Yield feed) acc)))
    (timestampsOf (acc ++ contribution (thisUsername p) (tweetFilter p) feed)).
Proof.
  revert p acc. induction feed as [|tweet feed IH]; intros p acc Hrep Htr.
  - cbn. now rewrite app_nil_r.
  - inversion Hrep as [|? ? Ht Hrest]; subst.
    cbn [map collectLoop contribution flat_map].
    set (p1 := withStats p (incrRequestCount (stats p))).
    assert (Htr1 : tracked (stats p1) (timestampsOf acc))
      by (eapply tracked_same; [| |exact Htr]; reflexivity).
    change (tweetFilter p1) with (tweetFilter p).
    destruct (tweetFilter p tweet) eqn:Ekeep.
    + pose proof (processTweetData_post (thisUsername p1) (stats p1) tweet)
        as Hpost.
      pose proof (@processTweetData_tracked (thisUsername p1) (stats p1)
                    tweet _ Ht Htr1) as Hstep.
      change (thisUsername p1) with (thisUsername p) in *.
      destruct (processTweetData (thisUsername p) (stats p1) (Some tweet))
        as [s2 processed].
      cbn [fst snd] in Hpost, Hstep. rewrite <- Hpost in *.
      destruct processed as [post|].
      * rewrite app_assoc.
        match goal with
        | |- context [collectLoop ?q _ ?a] =>
            pose proof (IH q a Hrest) as IHq
        end.
        cbn [thisUsername tweetFilter withStats] in IHq. apply IHq.
        rewrite timestampsOf_app.
        eapply tracked_same; [| |exact Hstep]; reflexivity.
      * cbn [app].
        match goal with
        | |- context [collectLoop ?q _ ?a] =>
            pose proof (IH q a Hrest) as IHq
        end.
        cbn [thisUsername tweetFilter withStats] in IHq. apply IHq.
        cbn in Hstep. rewrite app_nil_r in Hstep. exact Hstep.
    + cbn [app]. pose proof (IH p1 acc Hrest) as IHq.
      cbn [thisUsername tweetFilter withStats p1] in IHq. apply IHq.
      exact Htr1.
Qed.
End TrackerFacts.

(** X12.  Starting with empty date trackers, a feed that does not fail
    and holds no record dated beyond the last representable date leaves
    in [oldestTweetDate] and [newestTweetDate] the earliest and the
    latest timestamp of the posts returned, and leaves them empty when
    nothing is returned. *)
Theorem X12_trackers_bracket_the_collection (h : JsHost)
  (p : Pipeline.Pipeline) (fromDateObj toDateObj : option JsNumber)
  (query : string) (feed : list RawTweet) :
  Pipeline.searchQuery h p fromDateObj toDateObj = Ok query ->
  Pipeline.searchTweets (Pipeline.scraper p) query
    (Pipeline.maxTweets (Pipeline.twitter (Pipeline.config p)))
  = map Pipeline.Yield feed ->
  Pipeline.oldestTweetDate (Pipeline.stats p) = None ->
  Pipeline.newestTweetDate (Pipeline.stats p) = None ->
  Forall representable feed ->
  exists posts,
    snd (Pipeline.collectTweets h p fromDateObj toDateObj) = Ok posts
    /\ tracked
         (Pipeline.stats (fst (Pipeline.collectTweets h p fromDateObj toDateObj)))
         (timestampsOf posts).
Proof.
  intros Hq Hfeed Ho Hn Hrep. unfold Pipeline.collectTweets.
  rewrite Hq, Hfeed.
  destruct (collectLoop_yields feed p []) as (Hr & _).
  eexists. split; [exact Hr|].
  apply (collectLoop_tracked p [] Hrep). cbn. now split.
Qed.

Lemma X12_trackers_bracket_the_collection_witness :
  exists posts,
    snd (Pipeline.collectTweets utcHost Fixture.calmPipeline None None)
    = Ok posts
    /\ tracked
         (Pipeline.stats
            (fst (Pipeline.collectTweets utcHost Fixture.calmPipeline None None)))
         (timestampsOf posts).
Proof.
  apply (@X12_trackers_bracket_the_collection utcHost Fixture.calmPipeline
           None None "from:alice" [Sample.rawSeconds; Fixture.rawLater]);
    try reflexivity.
  repeat constructor; intros z [= <-]; vm_compute; discriminate.
Defined.

(** X13.  A record dated beyond the last representable date that meets
    empty trackers is dropped, yet it leaves an invalid date in both
    trackers; and once both hold an invalid date no record changes
    them, since every comparison with an invalid date is false. *)
Theorem X13_invalid_date_sticks (me : string) (s : Pipeline.Stats) :
  (forall tweet i z,
      Pipeline.oldestTweetDate s = None ->
      Pipeline.newestTweetDate s = None ->
      raw_id tweet = Some i -> i <> "" ->
      Pipeline.derivedTimestamp tweet = Some (Num z) ->
      maxTimeValue < Pipeline.rescale z ->
      snd (Pipeline.processTweetData me s (Some tweet)) = None
      /\ Pipeline.oldestTweetDate
           (fst (Pipeline.processTweetData me s (Some tweet))) = Some NaN
      /\ Pipeline.newestTweetDate
           (fst (Pipeline.processTweetData me s (Some tweet))) = Some NaN)
  /\ (forall tweet,
        Pipeline.oldestTweetDate s = Some NaN ->
        Pipeline.newestTweetDate s = Some NaN ->
        Pipeline.oldestTweetDate (fst (Pipeline.processTweetData me s tweet))
        = Some NaN
        /\ Pipeline.newestTweetDate (fst (Pipeline.processTweetData me s tweet))
           = Some NaN).
Proof.
  split.
  - intros tweet i z Ho Hn Hid Hi Hd Hbig.
    unfold Pipeline.processTweetData. rewrite Hid.
    destruct (String.eqb_spec i ""); [congruence|]. rewrite Hd.
    assert (Hmax : 0 < maxTimeValue) by (vm_compute; reflexivity).
    assert (Hz : z <> 0).
    { intros ->. unfold Pipeline.rescale in Hbig. cbn in Hbig. lia. }
    destruct (Z.eqb_spec z 0); [congruence|].
    destruct (Z.leb_spec (Pipeline.rescale z) 0); [lia|].
    assert (Hdate : newDate (Num (Pipeline.rescale z)) = NaN).
    { unfold newDate.
      destruct (Z.leb_spec (Z.abs (Pipeline.rescale z)) maxTimeValue);
        [lia|reflexivity]. }
    rewrite Hdate. cbn [toISOString fst snd].
    unfold Pipeline.trackDates. rewrite Ho. cbn. rewrite Hn. cbn.
    repeat split.
  - intros tweet Ho Hn.
    assert (Hkeep : Pipeline.oldestTweetDate s = Some NaN
                    /\ Pipeline.newestTweetDate s = Some NaN) by now split.
    assert (Htrack : forall d,
               Pipeline.oldestTweetDate (Pipeline.trackDates s d) = Some NaN
               /\ Pipeline.newestTweetDate (Pipeline.trackDates s d) = Some NaN).
    { intros d. unfold Pipeline.trackDates. rewrite Ho.
      assert (Hlt : dateLt d NaN = false) by (destruct d; reflexivity).
      rewrite Hlt, Hn. cbn. now split. }
    unfold Pipeline.processTweetData.
    destruct tweet as [t|]; [|exact Hkeep].
    destruct (raw_id t) as [i|]; [|exact Hkeep].
    destruct (String.eqb i ""); [exact Hkeep|].
    destruct (Pipeline.derivedTimestamp t) as [[z|]|]; try exact Hkeep.
    destruct (z =? 0); [exact Hkeep|].
    destruct (Pipeline.rescale z <=? 0); [exact Hkeep|].
    destruct (toISOString (newDate (Num (Pipeline.rescale z))));
      cbn [fst]; apply Htrack.
Qed.

Lemma X13_invalid_date_sticks_witness :
  snd (Pipeline.processTweetData "alice" (Pipeline.initialStats 0)
         (Some Sample.rawFarFuture)) = None
  /\ Pipeline.oldestTweetDate
       (fst (Pipeline.processTweetData "alice" (Pipeline.initialStats 0)
               (Some Sample.rawFarFuture))) = Some NaN
  /\ Pipeline.newestTweetDate
       (fst (Pipeline.processTweetData "alice" (Pipeline.initialStats 0)
               (Some Sample.rawFarFuture))) = Some NaN.
Proof.
  apply (proj1 (X13_invalid_date_sticks "alice" (Pipeline.initialStats 0))
           Sample.rawFarFuture "1" 9000000000000000);
    try reflexivity.
  discriminate.
Defined.

(* ================================================================== *)
(** ** Cleanup of the pipeline *)

(** X14.  On a disk that takes the write, [cleanup] never fails and
    leaves a progress record marked completed, dated now, with the
    number of posts collected so far.  A failed logout skips the closing
    of the cluster and is reported in the record; a failed closing is
    reported too; otherwise the record carries no error. *)
Theorem X14_cleanup_records_the_end (now : Z) (p : Pipeline.Pipeline)
  (w : Pipeline.World) :
  Pipeline.diskWritable w = true ->
  snd (Pipeline.cleanup now p w) = Ok tt
  /\ exists r,
       Pipeline.progressFile (fst (Pipeline.cleanup now p w)) = Some r
       /\ Pipeline.completed (Pipeline.progress r) = true
       /\ Pipeline.endTime (Pipeline.progress r) = isoString now
       /\ Pipeline.totalTweets r = Pipeline.uniqueTweets (Pipeline.stats p)
       /\ match Pipeline.logout (Pipeline.scraper p) with
          | Throw e =>
              Pipeline.error (Pipeline.progress r)
              = Some (Pipeline.errorMessage e)
              /\ Pipeline.sessionReleased (fst (Pipeline.cleanup now p w))
                 = Pipeline.sessionReleased w
              /\ Pipeline.clusterClosed (fst (Pipeline.cleanup now p w))
                 = Pipeline.clusterClosed w
          | Ok _ =>
              Pipeline.sessionReleased (fst (Pipeline.cleanup now p w)) = true
              /\ match Pipeline.cluster p with
                 | None =>
                     Pipeline.error (Pipeline.progress r) = None
                     /\ Pipeline.clusterClosed (fst (Pipeline.cleanup now p w))
                        = Pipeline.clusterClosed w
                 | Some c =>
                     match Pipeline.close c with
                     | Ok _ =>
                         Pipeline.error (Pipeline.progress r) = None
                         /\ Pipeline.clusterClosed
                              (fst (Pipeline.cleanup now p w)) = true
                     | Throw e =>
                         Pipeline.error (Pipeline.progress r)
                         = Some (Pipeline.errorMessage e)
                         /\ Pipeline.clusterClosed
                              (fst (Pipeline.cleanup now p w))
                            = Pipeline.clusterClosed w
                     end
                 end
          end.
Proof.
  intros Hw. unfold Pipeline.cleanup, Pipeline.cleanupBody.
  destruct (Pipeline.logout (Pipeline.scraper p)) as [u|e].
  - destruct (Pipeline.cluster p) as [c|]; [destruct (Pipeline.close c)|];
      unfold Pipeline.saveProgress; cbn -[isoString]; rewrite Hw; cbn -[isoString];
      (split; [reflexivity|]); eexists; repeat split.
  - unfold Pipeline.saveProgress. rewrite Hw. cbn -[isoString]. try rewrite Hw.
    split; [reflexivity|]. eexists; repeat split.
Qed.

Lemma X14_cleanup_records_the_end_witness :
  snd (Pipeline.cleanup 1700000100000 Sample.limitedPipeline Sample.midRun)
  = Ok tt
  /\ exists r,
       Pipeline.progressFile
         (fst (Pipeline.cleanup 1700000100000 Sample.limitedPipeline
                 Sample.midRun)) = Some r
       /\ Pipeline.completed (Pipeline.progress r) = true
       /\ Pipeline.endTime (Pipeline.progress r) = isoString 1700000100000
       /\ Pipeline.totalTweets r
          = Pipeline.uniqueTweets (Pipeline.stats Sample.limitedPipeline)
       /\ (Pipeline.sessionReleased
             (fst (Pipeline.cleanup 1700000100000 Sample.limitedPipeline
                     Sample.midRun)) = true
           /\ Pipeline.error (Pipeline.progress r) = None
           /\ Pipeline.clusterClosed
                (fst (Pipeline.cleanup 1700000100000 Sample.limitedPipeline
                        Sample.midRun))
              = Pipeline.clusterClosed Sample.midRun).
Proof.
  apply (@X14_cleanup_records_the_end 1700000100000 Sample.limitedPipeline
           Sample.midRun).
  reflexivity.
Defined.

(** X15.  When the progress file cannot be written, [cleanup] throws
    the error of the write, from its [try] block as from its [catch], and
    the progress file is the one of before. *)
Theorem X15_cleanup_fails_with_the_disk (now : Z) (p : Pipeline.Pipeline)
  (w : Pipeline.World) :
  Pipeline.diskWritable w = false ->
  snd (Pipeline.cleanup now p w) = Throw (FsError "EACCES")
  /\ Pipeline.progressFile (fst (Pipeline.cleanup now p w))
     = Pipeline.progressFile w.
Proof.
  intros Hw. unfold Pipeline.cleanup, Pipeline.cleanupBody.
  destruct (Pipeline.logout (Pipeline.scraper p)) as [u|e].
  - destruct (Pipeline.cluster p) as [c|]; [destruct (Pipeline.close c)|];
      unfold Pipeline.saveProgress; cbn -[isoString]; rewrite ?Hw;
      cbn -[isoString]; rewrite ?Hw; split; reflexivity.
  - unfold Pipeline.saveProgress. rewrite Hw. cbn -[isoString]. try rewrite Hw. split; reflexivity.
Qed.

Lemma X15_cleanup_fails_with_the_disk_witness :
  snd (Pipeline.cleanup 0 Sample.limitedPipeline (Fixture.freshWorld false))
  = Throw (FsError "EACCES")
  /\ Pipeline.progressFile
       (fst (Pipeline.cleanup 0 Sample.limitedPipeline
               (Fixture.freshWorld false)))
     = Pipeline.progressFile (Fixture.freshWorld false).
Proof.
  apply X15_cleanup_fails_with_the_disk. reflexivity.
Defined.

(* ================================================================== *)
(** ** The search query *)

(** X16.  The query is [from:<user>], followed by [since:] and [until:]
    with the days of the two dates when they are given.  A date that is
    not valid makes [collectTweets] fail with the range error of the
    formatter before anything is asked of the scraper: the pipeline,
    its counters included, is the one of before. *)
Theorem X16_query_and_invalid_dates (h : JsHost) (p : Pipeline.Pipeline) :
  (forall since upto,
      Pipeline.searchQuery h p (Some (Num since)) (Some (Num upto))
      = Ok (("from:" +++ Pipeline.thisUsername p
             +++ " since:" +++ formatDay h since)
            +++ " until:" +++ formatDay h upto))
  /\ Pipeline.searchQuery h p None None
     = Ok ("from:" +++ Pipeline.thisUsername p)
  /\ (forall fromDateObj toDateObj,
        fromDateObj = Some NaN \/ toDateObj = Some NaN ->
        Pipeline.collectTweets h p fromDateObj toDateObj
        = (p, Throw (RangeError "Invalid time value"))).
Proof.
  split; [|split].
  - reflexivity.
  - reflexivity.
  - intros f t H. unfold Pipeline.collectTweets, Pipeline.searchQuery.
    destruct H as [-> | ->]; [reflexivity|].
    destruct f as [[d|]|]; reflexivity.
Qed.

Lemma X16_query_and_invalid_dates_witness :
  Pipeline.collectTweets utcHost Sample.limitedPipeline (Some NaN) None
  = (Sample.limitedPipeline, Throw (RangeError "Invalid time value")).
Proof.
  apply (proj2 (proj2 (X16_query_and_invalid_dates utcHost
                         Sample.limitedPipeline))).
  now left.
Defined.

(* ================================================================== *)
(** ** Cleaning only removes *)

Section KeptFacts.
Import Finetuning.

Lemma Kept_refl (s : JsText) : Kept s s.
Proof. induction s; constructor; assumption. Qed.

Lemma Kept_nil (s : JsText) : Kept [] s.
Proof. induction s; constructor; assumption. Qed.

Lemma Kept_trans (a b c : JsText) : Kept c b -> Kept b a -> Kept c a.
Proof.
  intros Hcb Hba. revert c Hcb.
  induction Hba as [|x b a Hba IH|x b a Hba IH|x b a Hx Hba IH];
    intros c Hcb.
  - exact Hcb.
  - apply kept_drop, IH, Hcb.
  - inversion Hcb; subst.
    + apply kept_drop, IH. assumption.
    + apply kept_same, IH. assumption.
    + apply kept_blank; [assumption|]. apply IH. assumption.
  - inversion Hcb; subst.
    + apply kept_drop, IH. assumption.
    + apply kept_blank; [assumption|]. apply IH. assumption.
    + apply kept_blank; [assumption|]. apply IH. assumption.
Qed.

Lemma Kept_length (out s : JsText) :
  Kept out s -> (List.length out <= List.length s)%nat.
Proof. induction 1; cbn [List.length]; lia. Qed.

Lemma Kept_In (out s : JsText) (c : CodeUnit) :
  Kept out s -> In c out -> c = blank \/ In c s.
Proof.
  induction 1 as [|x out s _ IH|x out s _ IH|x out s _ _ IH]; intros Hc.
  - destruct Hc.
  - destruct (IH Hc); [now left|right; now right].
  - destruct Hc as [<-|Hc]; [right; now left|].
    destruct (IH Hc); [now left|right; now right].
  - destruct Hc as [<-|Hc]; [now left|].
    destruct (IH Hc); [now left|right; now right].
Qed.

Lemma erase_Kept (start : JsText -> bool) (body : CodeUnit -> bool)
  (b : bool) (s : JsText) :
  Kept (erase start body b s) s.
Proof.
  revert b. induction s as [|c s IH]; intros b; [constructor|].
  cbn [erase]. destruct (b && body c); [apply kept_drop, IH|].
  destruct (start (c :: s)); [apply kept_drop, IH|apply kept_same, IH].
Qed.

Lemma collapse_Kept (b : bool) (s : JsText) : Kept (collapse b s) s.
Proof.
  revert b. induction s as [|c s IH]; intros b; [constructor|].
  cbn [collapse]. destruct (isSpace c) eqn:E.
  - destruct b; [apply kept_drop, IH|apply kept_blank; [exact E|apply IH]].
  - apply kept_same, IH.
Qed.

Lemma trimStart_Kept (s : JsText) : Kept (trimStart s) s.
Proof.
  induction s as [|c s IH]; [constructor|].
  cbn [trimStart]. destruct (isSpace c); [apply kept_drop, IH|apply Kept_refl].
Qed.

Lemma trimEnd_Kept (s : JsText) : Kept (trimEnd s) s.
Proof.
  induction s as [|c s IH]; [constructor|].
  rewrite trimEnd_cons. destruct (isSpace c && isEmpty (trimEnd s)).
  - apply Kept_nil.
  - apply kept_same, IH.
Qed.

Lemma cleanText_Kept (s : JsText) : Kept (cleanText s) s.
Proof.
  unfold cleanText, trim, removeHashtags, removeUrls.
  eapply Kept_trans; [apply trimEnd_Kept|].
  eapply Kept_trans; [apply trimStart_Kept|].
  eapply Kept_trans; [apply collapse_Kept|].
  eapply Kept_trans; apply erase_Kept.
Qed.

Lemma keepEntries_app (l1 l2 : list (option Entry)) :
  keepEntries (l1 ++ l2) = keepEntries l1 ++ keepEntries l2.
Proof.
  induction l1 as [|[e|] l1 IH]; cbn [app keepEntries]; trivial.
  destruct (0 <? List.length (entryText e))%nat; cbn [app]; now rewrite IH.
Qed.

Lemma keepEntries_length (l : list (option Entry)) :
  (List.length (keepEntries l) <= List.length l)%nat.
Proof.
  induction l as [|[e|] l IH]; cbn [keepEntries List.length]; try lia.
  destruct (0 <? List.length (entryText e))%nat; cbn [List.length]; lia.
Qed.
End KeptFacts.

(* ================================================================== *)
(** ** Cleaning, word by word *)

Section WordFacts.
Import Finetuning.

Lemma run_prefix (l r x y : JsText) (sp : CodeUnit) :
  Forall (fun c => notSpace c = true) l ->
  isSpace sp = true ->
  l ++ r = x ++ sp :: y ->
  exists r0, x = l ++ r0.
Proof.
  intros Hl Hsp. revert x. induction Hl as [|a l Ha _ IH]; intros x E.
  - now exists x.
  - destruct x as [|b x]; cbn [app] in E.
    + injection E as -> _. unfold notSpace in Ha. rewrite Hsp in Ha.
      discriminate.
    + injection E as -> E. destruct (IH x E) as [r0 ->]. now exists r0.
Qed.

(** Whether a match begins at the head of a text does not depend on
    what follows the next white-space character. *)
Lemma start_local (start : JsText -> bool) (sp : CodeUnit) (x y : JsText) :
  shaped notSpace start ->
  isSpace sp = true ->
  start (x ++ sp :: y) = start x.
Proof.
  intros Hsh Hsp.
  destruct (start (x ++ sp :: y)) eqn:E1, (start x) eqn:E2; trivial.
  - destruct (Hsh _ E1) as (c & w & r & E & Hc & Hw & Hany).
    destruct (@run_prefix (c :: w) r x y sp) as [r0 ->];
      [now constructor|exact Hsp|symmetry; exact E|].
    cbn [app] in E2. rewrite Hany in E2. discriminate.
  - destruct (Hsh _ E2) as (c & w & r & -> & Hc & Hw & Hany).
    cbn [app] in E1. rewrite <- app_assoc in E1. rewrite Hany in E1.
    discriminate.
Qed.

(** No match goes across white space: a text is scanned piece by
    piece. *)
Lemma erase_words (start : JsText -> bool) (body : CodeUnit -> bool)
  (sp : CodeUnit) (a b : JsText) (k : bool) :
  shaped notSpace start ->
  (forall c, isSpace c = true -> body c = false) ->
  isSpace sp = true ->
  erase start body k (a ++ sp :: b)
  = erase start body k a ++ sp :: erase start body false b.
Proof.
  intros Hsh Hbody Hsp. revert k.
  induction a as [|c a IH]; intros k.
  - cbn [app erase]. rewrite (Hbody _ Hsp), andb_false_r.
    now rewrite (@start_space _ Hsh sp b Hsp).
  - cbn [app erase]. destruct (k && body c); [apply IH|].
    change (c :: a ++ sp :: b) with ((c :: a) ++ sp :: b).
    rewrite (@start_local start sp (c :: a) b Hsh Hsp).
    destruct (start (c :: a)); [apply IH|]. now rewrite IH.
Qed.

Lemma erase_skip_all (start : JsText -> bool) (body : CodeUnit -> bool)
  (l : JsText) :
  Forall (fun c => body c = true) l -> erase start body true l = [].
Proof.
  induction 1 as [|c l Hc _ IH]; [reflexivity|].
  cbn [erase andb]. now rewrite Hc.
Qed.

Lemma trimStart_collapse (s : JsText) :
  trimStart (collapse false s) = collapse true s.
Proof.
  assert (H : forall r, trimStart (collapse true r) = collapse true r).
  { intros r. apply trimStart_fixed.
    now apply (proj2 (collapse_single true r)). }
  destruct s as [|c s]; [reflexivity|].
  cbn [collapse]. destruct (isSpace c) eqn:E.
  - cbn [trimStart]. change (isSpace blank) with true. cbn iota. apply H.
  - cbn [trimStart]. now rewrite E.
Qed.

(** White space is normalised piece by piece. *)
Lemma collapse_words (sp : CodeUnit) (a b : JsText) (k : bool) :
  isSpace sp = true ->
  trimEnd (collapse k (a ++ sp :: b))
  = if isEmpty (trimEnd (collapse true b)) then trimEnd (collapse k a)
    else if k && isEmpty (trimEnd (collapse k a))
         then trimEnd (collapse true b)
         else trimEnd (collapse k a) ++ blank :: trimEnd (collapse true b).
Proof.
  intros Hsp. revert k. induction a as [|c a IH]; intros k.
  - cbn [app collapse]. rewrite Hsp. destruct k.
    + cbn [trimEnd andb isEmpty].
      now destruct (trimEnd (collapse true b)).
    + rewrite trimEnd_cons. change (isSpace blank) with true.
      cbn [trimEnd andb app].
      now destruct (trimEnd (collapse true b)).
  - cbn [app collapse]. destruct (isSpace c) eqn:Ec.
    + destruct k.
      * apply IH.
      * rewrite !trimEnd_cons. change (isSpace blank) with true.
        rewrite (IH true). cbn [andb].
        destruct (trimEnd (collapse true b)),
                 (trimEnd (collapse true a)); reflexivity.
    + rewrite !trimEnd_cons, Ec, (IH false). cbn [andb].
      rewrite andb_false_r.
      now destruct (trimEnd (collapse true b)).
Qed.

(** Cleaning works piece by piece: the pieces of a text on either side
    of a white-space character are cleaned on their own, and a blank
    joins what is left of them. *)
Lemma cleanText_words (a b : JsText) (sp : CodeUnit) :
  isSpace sp = true ->
  cleanText (a ++ sp :: b) = joinWords (cleanText a) (cleanText b).
Proof.
  intros Hsp. unfold cleanText, removeUrls, removeHashtags, trim.
  rewrite (@erase_words urlAt notSpace sp a b false urlAt_shaped
             notSpace_false Hsp).
  rewrite (@erase_words tagAt tagChar sp _ _ false
             (shaped_notSpace tagAt_shaped)); trivial.
  - rewrite !trimStart_collapse, (@collapse_words sp _ _ true Hsp).
    unfold joinWords. cbn [andb]. reflexivity.
  - intros c Hc. unfold tagChar. now rewrite (notSpace_false _ Hc).
Qed.

(** A word at whose head the URL expression matches goes as a whole. *)
Lemma cleanText_url_word (w : JsText) :
  Forall (fun c => notSpace c = true) w ->
  urlAt w = true ->
  cleanText w = [].
Proof.
  intros Hw Hu. unfold cleanText, removeUrls.
  destruct Hw as [|c w Hc Hw]; [reflexivity|].
  cbn [erase andb]. rewrite Hu. now rewrite erase_skip_all.
Qed.

(** So does a hashtag. *)
Lemma cleanText_tag_word (w : JsText) :
  w <> [] ->
  Forall (fun c => tagChar c = true) w ->
  matchFree urlAt (hash :: w) ->
  cleanText (hash :: w) = [].
Proof.
  intros Hne Hw Hu. unfold cleanText, removeUrls, removeHashtags.
  rewrite (@erase_matchFree_fixed urlAt notSpace _ Hu).
  cbn [erase andb].
  assert (Ht : tagAt (hash :: w) = true).
  { apply tagAt_spec. destruct Hw as [|d w Hd _]; [congruence|].
    now exists d, w. }
  rewrite Ht. now rewrite erase_skip_all.
Qed.

(** A text that holds nothing to remove is left as it is. *)
Lemma cleanText_clean (s : JsText) :
  matchFree urlAt s -> matchFree tagAt s -> singleSpaced s -> trim s = s ->
  cleanText s = s.
Proof.
  intros Hu Ht Hs Htrim. unfold cleanText, removeUrls, removeHashtags.
  rewrite (@erase_matchFree_fixed urlAt notSpace _ Hu).
  rewrite (@erase_matchFree_fixed tagAt tagChar _ Ht).
  rewrite collapse_fixed; trivial. discriminate.
Qed.

Lemma word_tidy (w : JsText) :
  Forall (fun c => notSpace c = true) w -> singleSpaced w /\ trim w = w.
Proof.
  intros Hw.
  assert (Hns : forall c, notSpace c = true -> isSpace c = false)
    by (intros c; unfold notSpace; now destruct (isSpace c)).
  split.
  - induction Hw as [|c w Hc _ IH]; [exact I|].
    cbn [singleSpaced]. split; [|exact IH].
    rewrite (Hns _ Hc). discriminate.
  - unfold trim. rewrite trimStart_fixed.
    + induction Hw as [|c w Hc _ IH]; [reflexivity|].
      rewrite trimEnd_cons, (Hns _ Hc), IH. reflexivity.
    + destruct Hw as [|c w Hc _]; [exact I|]. now apply Hns.
Qed.

(** A word without a match is kept as it is. *)
Lemma cleanText_plain_word (w : JsText) :
  Forall (fun c => notSpace c = true) w ->
  matchFree urlAt w -> matchFree tagAt w ->
  cleanText w = w.
Proof.
  intros Hw Hu Ht. destruct (word_tidy Hw) as [Hs Htrim].
  now apply cleanText_clean.
Qed.
End WordFacts.

(** C7 (as stated, refuted).  A post dated 5 ms before 1970 and a post
    stored without a timestamp key have no valid timestamp, and both are
    exported: the selection only asks for a timestamp that is not
    [null]. *)
Lemma C7_invalid_timestamp_counterexample :
  Finetuning.generateFinetuningData [Fixture.ancient; Fixture.keyless]
  = [Finetuning.mkEntry (utf16 "gm"); Finetuning.mkEntry (utf16 "gm")]
  /\ timestamp Fixture.ancient = Millis (-5)
  /\ timestamp Fixture.keyless = Undefined.
Proof. repeat split. Qed.

(** C7 (amended).  [generateFinetuningData] keeps exactly the posts that
    are not retweets, have a non-empty text and a timestamp that is not
    [null]; its entries are the cleaned texts of these posts, in order,
    the empty ones left out.  A cleaned text holds no match of the URL
    expression and none of the hashtag expression at any position; its
    white space is reduced to single blanks between other characters; it
    is made from the text by deleting characters and writing blanks for
    white space.  Cleaning goes piece by piece between white-space
    characters: a word at whose head the URL expression matches and a
    hashtag are deleted, a word without a match is kept.  The texts that
    cleaning leaves unchanged are exactly those with nothing to remove,
    so cleaning a cleaned text, and any entry, changes nothing. *)
Theorem C7_finetuning_extraction (tweets : list Post) :
  (forall t,
      Finetuning.selected t = true
      <-> isRetweet t = false
          /\ (exists c s, text t = Some (c :: s))
          /\ timestamp t <> Null)
  /\ map Finetuning.entryText (Finetuning.generateFinetuningData tweets)
     = filter (fun s => negb (isEmpty s))
         (map (fun t => Finetuning.cleanText (orList (text t)))
            (filter Finetuning.selected tweets))
  /\ (forall s pre suf,
        Finetuning.cleanText s = pre ++ suf ->
        Finetuning.urlAt suf = false /\ Finetuning.tagAt suf = false)
  /\ (forall s,
        singleSpaced (Finetuning.cleanText s)
        /\ Finetuning.trim (Finetuning.cleanText s) = Finetuning.cleanText s)
  /\ (forall s, Kept (Finetuning.cleanText s) s)
  /\ (forall a b sp,
        Finetuning.isSpace sp = true ->
        Finetuning.cleanText (a ++ sp :: b)
        = joinWords (Finetuning.cleanText a) (Finetuning.cleanText b))
  /\ (forall w,
        Forall (fun c => Finetuning.notSpace c = true) w ->
        Finetuning.urlAt w = true ->
        Finetuning.cleanText w = [])
  /\ (forall w,
        w <> [] ->
        Forall (fun c => Finetuning.tagChar c = true) w ->
        matchFree Finetuning.urlAt (Finetuning.hash :: w) ->
        Finetuning.cleanText (Finetuning.hash :: w) = [])
  /\ (forall w,
        Forall (fun c => Finetuning.notSpace c = true) w ->
        matchFree Finetuning.urlAt w ->
        matchFree Finetuning.tagAt w ->
        Finetuning.cleanText w = w)
  /\ (forall s,
        Finetuning.cleanText s = s
        <-> matchFree Finetuning.urlAt s
            /\ matchFree Finetuning.tagAt s
            /\ singleSpaced s
            /\ Finetuning.trim s = s)
  /\ (forall s,
        Finetuning.cleanText (Finetuning.cleanText s) = Finetuning.cleanText s)
  /\ Forall (fun e =>
               Finetuning.entryText e <> []
               /\ Finetuning.cleanText (Finetuning.entryText e)
                  = Finetuning.entryText e)
       (Finetuning.generateFinetuningData tweets).
Proof.
  assert (Htexts := keepEntries_texts (filter Finetuning.selected tweets)).
  split; [exact selected_spec|].
  split; [exact Htexts|].
  split.
  { intros s pre suf Hs. split.
    - exact (@matchFree_suffix _ _ urlAt_shaped _ pre suf
               (cleanText_urlFree s) Hs).
    - exact (@matchFree_suffix _ _ tagAt_shaped _ pre suf
               (cleanText_tagFree s) Hs). }
  split.
  { intros s. split; [apply cleanText_single|apply cleanText_trimmed]. }
  split; [exact cleanText_Kept|].
  split; [exact cleanText_words|].
  split; [exact cleanText_url_word|].
  split; [exact cleanText_tag_word|].
  split; [exact cleanText_plain_word|].
  split.
  { intros s. split.
    - intros H. rewrite <- H. repeat split.
      + apply cleanText_urlFree.
      + apply cleanText_tagFree.
      + apply cleanText_single.
      + apply cleanText_trimmed.
    - intros (Hu & Ht & Hs & Htrim). now apply cleanText_clean. }
  split; [exact cleanText_idempotent|].
  rewrite Forall_forall. intros e He.
  assert (Hin : In (Finetuning.entryText e)
                  (map Finetuning.entryText
                     (Finetuning.generateFinetuningData tweets)))
    by now apply in_map.
  unfold Finetuning.generateFinetuningData in Hin. rewrite Htexts in Hin.
  apply filter_In in Hin. destruct Hin as [Hin Hne].
  apply in_map_iff in Hin. destruct Hin as (t & Ht & _).
  split.
  - intros E. rewrite E in Hne. discriminate.
  - rewrite <- Ht. apply cleanText_idempotent.
Qed.

(** X17.  Cleaning a text only deletes characters and writes a blank
    for a white-space character: the cleaned text is never longer than
    the text, and each of its characters is a blank or a character of
    the text. *)
Theorem X17_cleaning_only_removes (s : JsText) :
  Kept (Finetuning.cleanText s) s
  /\ (List.length (Finetuning.cleanText s) <= List.length s)%nat
  /\ forall c, In c (Finetuning.cleanText s) ->
               c = Finetuning.blank \/ In c s.
Proof.
  pose proof (cleanText_Kept s) as H. split; [exact H|]. split.
  - now apply Kept_length.
  - intros c. now apply Kept_In.
Qed.

(** X18.  The texts cleaning leaves as they are, are exactly those
    without a match of the URL expression or of the hashtag expression,
    whose white space is made of single blanks, and that neither begin
    nor end with white space. *)
Theorem X18_texts_left_unchanged (s : JsText) :
  Finetuning.cleanText s = s
  <-> matchFree Finetuning.urlAt s
      /\ matchFree Finetuning.tagAt s
      /\ singleSpaced s
      /\ Finetuning.trim s = s.
Proof.
  split.
  - intros H. rewrite <- H. repeat split.
    + apply cleanText_urlFree.
    + apply cleanText_tagFree.
    + apply cleanText_single.
    + apply cleanText_trimmed.
  - intros (Hu & Ht & Hs & Htrim). unfold Finetuning.cleanText.
    unfold Finetuning.removeUrls, Finetuning.removeHashtags.
    rewrite (@erase_matchFree_fixed Finetuning.urlAt Finetuning.notSpace _ Hu).
    rewrite (@erase_matchFree_fixed Finetuning.tagAt Finetuning.tagChar _ Ht).
    rewrite collapse_fixed; trivial. discriminate.
Qed.

(** X19.  The fine-tuning export works post by post: the export of two
    lists put end to end is the two exports put end to end, it never has
    more entries than posts selected, and a list of retweets exports
    nothing. *)
Theorem X19_export_is_per_post (l1 l2 : list Post) :
  Finetuning.generateFinetuningData (l1 ++ l2)
  = Finetuning.generateFinetuningData l1
    ++ Finetuning.generateFinetuningData l2
  /\ (List.length (Finetuning.generateFinetuningData l1)
      <= List.length (filter Finetuning.selected l1))%nat
  /\ (Forall (fun t => isRetweet t = true) l1 ->
      Finetuning.generateFinetuningData l1 = []).
Proof.
  unfold Finetuning.generateFinetuningData. split; [|split].
  - now rewrite filter_app, map_app, keepEntries_app.
  - rewrite <- (length_map Finetuning.toEntry). apply keepEntries_length.
  - intros Hrt.
    assert (Hnone : filter Finetuning.selected l1 = []).
    { induction Hrt as [|t l Ht _ IH]; [reflexivity|].
      cbn [filter]. unfold Finetuning.selected at 1. rewrite Ht. exact IH. }
    now rewrite Hnone.
Qed.

Lemma X19_export_is_per_post_witness :
  Finetuning.generateFinetuningData ([Sample.datedRetweet] ++ [Sample.liked])
  = Finetuning.generateFinetuningData [Sample.datedRetweet]
    ++ Finetuning.generateFinetuningData [Sample.liked]
  /\ (List.length (Finetuning.generateFinetuningData [Sample.datedRetweet])
      <= List.length (filter Finetuning.selected [Sample.datedRetweet]))%nat
  /\ (Forall (fun t => isRetweet t = true) [Sample.datedRetweet] ->
      Finetuning.generateFinetuningData [Sample.datedRetweet] = []).
Proof.
  exact (X19_export_is_per_post [Sample.datedRetweet] [Sample.liked]).
Defined.

(* ================================================================== *)
(** ** The error log *)

(** X20.  After [logError] on a disk that takes the write, the log ends
    with the new entry, preceded by the 99 most recent entries of the
    old log in their order (all of them when there were fewer): it never
    holds more than 100 entries, whatever the old log held.  When the
    write fails the log is left as it was. *)
Theorem X20_error_log_is_bounded (now : Z) (p : Pipeline.Pipeline)
  (e : JsError) (context : list (string * string))
  (file : option (list ErrorLog.Entry)) :
  ErrorLog.logError now p e context file true
  = Some (skipn (List.length (orList file) - 99) (orList file)
          ++ [ErrorLog.makeEntry now p e context])
  /\ List.length (skipn (List.length (orList file) - 99) (orList file)
                  ++ [ErrorLog.makeEntry now p e context])
     = Nat.min (List.length (orList file) + 1) 100
  /\ ErrorLog.logError now p e context file false = file.
Proof.
  split; [|split; [|reflexivity]].
  - unfold ErrorLog.logError, ErrorLog.sliceLast.
    set (old := orList file). set (entry := ErrorLog.makeEntry now p e context).
    rewrite length_app. cbn [List.length].
    destruct (Nat.ltb_spec 100 (List.length old + 1)) as [Hbig|Hsmall].
    + f_equal. rewrite skipn_app.
      replace (List.length old + 1 - 100)%nat
        with (List.length old - 99)%nat by lia.
      replace (List.length old - 99 - List.length old)%nat with 0%nat by lia.
      reflexivity.
    + f_equal. replace (List.length old - 99)%nat with 0%nat by lia.
      reflexivity.
  - rewrite length_app, length_skipn. cbn [List.length]. lia.
Qed.

(* ================================================================== *)
(** ** Saving a corpus *)

(** X21.  When the analytics of the list can be computed and the disk
    takes the writes, [saveTweets] returns these analytics and leaves
    the list in the raw file, the permanent links, one per line, in the
    link file, the analytics in the statistics file and the summary in
    the summary file.  The fine-tuning file receives the export when it
    has an entry and is otherwise left as it was. *)
Theorem X21_saved_corpus (h : JsHost)
  (summaryOf : list Post -> Analytics.Analytics -> string)
  (files : Storage.Partition) (tweets : list Post) (a : Analytics.Analytics) :
  Analytics.generateAnalytics h tweets = Ok a ->
  snd (Storage.saveTweets h summaryOf true files tweets) = Ok a
  /\ Storage.rawTweets (fst (Storage.saveTweets h summaryOf true files tweets))
     = Some tweets
  /\ Storage.rawUrls (fst (Storage.saveTweets h summaryOf true files tweets))
     = Some (Storage.joinLines (map permanentUrl tweets))
  /\ Storage.statsFile (fst (Storage.saveTweets h summaryOf true files tweets))
     = Some a
  /\ Storage.summaryFile (fst (Storage.saveTweets h summaryOf true files tweets))
     = Some (summaryOf tweets a)
  /\ Storage.finetuningFile
       (fst (Storage.saveTweets h summaryOf true files tweets))
     = match Finetuning.generateFinetuningData tweets with
       | [] => Storage.finetuningFile files
       | entries => Some entries
       end.
Proof.
  intros Ha. unfold Storage.saveTweets. cbn [negb]. rewrite Ha.
  destruct (Finetuning.generateFinetuningData tweets); repeat split.
Qed.

Lemma X21_saved_corpus_witness :
  exists a,
    Analytics.generateAnalytics utcHost [Sample.datedRetweet] = Ok a
    /\ snd (Storage.saveTweets utcHost Fixture.plainSummary true
              Storage.emptyPartition [Sample.datedRetweet]) = Ok a
    /\ Storage.rawTweets
         (fst (Storage.saveTweets utcHost Fixture.plainSummary true
                 Storage.emptyPartition [Sample.datedRetweet]))
       = Some [Sample.datedRetweet]
    /\ Storage.rawUrls
         (fst (Storage.saveTweets utcHost Fixture.plainSummary true
                 Storage.emptyPartition [Sample.datedRetweet]))
       = Some (Storage.joinLines (map permanentUrl [Sample.datedRetweet]))
    /\ Storage.statsFile
         (fst (Storage.saveTweets utcHost Fixture.plainSummary true
                 Storage.emptyPartition [Sample.datedRetweet]))
       = Some a
    /\ Storage.summaryFile
         (fst (Storage.saveTweets utcHost Fixture.plainSummary true
                 Storage.emptyPartition [Sample.datedRetweet]))
       = Some (Fixture.plainSummary [Sample.datedRetweet] a)
    /\ Storage.finetuningFile
         (fst (Storage.saveTweets utcHost Fixture.plainSummary true
                 Storage.emptyPartition [Sample.datedRetweet]))
       = match Finetuning.generateFinetuningData [Sample.datedRetweet] with
         | [] => Storage.finetuningFile Storage.emptyPartition
         | entries => Some entries
         end.
Proof.
  eexists. split; [vm_compute; reflexivity|].
  apply (@X21_saved_corpus utcHost Fixture.plainSummary Storage.emptyPartition
           [Sample.datedRetweet]).
  vm_compute. reflexivity.
Defined.

(** X22.  The save is not all or nothing.  On a non-empty list in
    which no post has a number for timestamp, or some timestamp is not a
    date JavaScript represents, or some post has no timestamp key,
    [saveTweets] raises the range error of the
    analytics after the raw file and the link file were replaced, the
    statistics, fine-tuning and summary files being those of before.
    When the disk refuses the first write, it raises and no file
    changes. *)
Theorem X22_save_can_stop_half_way (h : JsHost)
  (summaryOf : list Post -> Analytics.Analytics -> string)
  (files : Storage.Partition) (tweets : list Post) :
  tweets <> [] ->
  Forall (fun t => forall ms, timestamp t <> Millis ms) tweets
  \/ Exists (fun t => exists ms, timestamp t = Millis ms
                                 /\ maxTimeValue < Z.abs ms) tweets
  \/ Exists (fun t => timestamp t = Undefined) tweets ->
  snd (Storage.saveTweets h summaryOf true files tweets)
  = Throw (RangeError "Invalid time value")
  /\ Storage.rawTweets (fst (Storage.saveTweets h summaryOf true files tweets))
     = Some tweets
  /\ Storage.rawUrls (fst (Storage.saveTweets h summaryOf true files tweets))
     = Some (Storage.joinLines (map permanentUrl tweets))
  /\ Storage.statsFile (fst (Storage.saveTweets h summaryOf true files tweets))
     = Storage.statsFile files
  /\ Storage.finetuningFile
       (fst (Storage.saveTweets h summaryOf true files tweets))
     = Storage.finetuningFile files
  /\ Storage.summaryFile (fst (Storage.saveTweets h summaryOf true files tweets))
     = Storage.summaryFile files
  /\ Storage.saveTweets h summaryOf false files tweets
     = (files, Throw (FsError "EACCES")).
Proof.
  intros Hne Hbad.
  assert (Ha : Analytics.generateAnalytics h tweets
               = Throw (RangeError "Invalid time value")).
  { apply analytics_raises_iff. split; [exact Hne|tauto]. }
  unfold Storage.saveTweets. cbn [negb]. rewrite Ha. repeat split.
Qed.

Lemma X22_save_can_stop_half_way_witness :
  snd (Storage.saveTweets utcHost Fixture.plainSummary true
         Storage.emptyPartition [Sample.undated])
  = Throw (RangeError "Invalid time value")
  /\ Storage.rawTweets
       (fst (Storage.saveTweets utcHost Fixture.plainSummary true
               Storage.emptyPartition [Sample.undated]))
     = Some [Sample.undated]
  /\ Storage.rawUrls
       (fst (Storage.saveTweets utcHost Fixture.plainSummary true
               Storage.emptyPartition [Sample.undated]))
     = Some (Storage.joinLines (map permanentUrl [Sample.undated]))
  /\ Storage.statsFile
       (fst (Storage.saveTweets utcHost Fixture.plainSummary true
               Storage.emptyPartition [Sample.undated]))
     = Storage.statsFile Storage.emptyPartition
  /\ Storage.finetuningFile
       (fst (Storage.saveTweets utcHost Fixture.plainSummary true
               Storage.emptyPartition [Sample.undated]))
     = Storage.finetuningFile Storage.emptyPartition
  /\ Storage.summaryFile
       (fst (Storage.saveTweets utcHost Fixture.plainSummary true
               Storage.emptyPartition [Sample.undated]))
     = Storage.summaryFile Storage.emptyPartition
  /\ Storage.saveTweets utcHost Fixture.plainSummary false
       Storage.emptyPartition [Sample.undated]
     = (Storage.emptyPartition, Throw (FsError "EACCES")).
Proof.
  apply X22_save_can_stop_half_way.
  - discriminate.
  - left. constructor; [|constructor]. intros ms. discriminate.
Defined.

(* ================================================================== *)
(** ** The run and its exit code *)

Section RunFacts.
Import Run.

Lemma validateEnvironment_false (c : Credentials) :
  validateEnvironment c = false
  <-> truthyString (TWITTER_USERNAME c) = false
      \/ truthyString (TWITTER_PASSWORD c) = false.
Proof.
  unfold validateEnvironment. cbn [filter].
  destruct (truthyString (TWITTER_USERNAME c)),
    (truthyString (TWITTER_PASSWORD c)); cbn; intuition discriminate.
Qed.

Lemma initializeScraper_true (c : Credentials) (s : Session) :
  initializeScraper c s = true
  <-> truthyString (TWITTER_AUTH_TOKEN c) = true
      /\ truthyString (TWITTER_CT0 c) = true
      /\ (exists u, setCookies s = Ok u)
      /\ isLoggedIn s = Ok true.
Proof.
  unfold initializeScraper.
  destruct (truthyString (TWITTER_AUTH_TOKEN c)),
    (truthyString (TWITTER_CT0 c)); cbn [andb];
    try (split; [discriminate|intros (? & ? & _); discriminate]).
  destruct (setCookies s) as [u|e].
  - destruct (isLoggedIn s) as [[|]|e'].
    + split; [intros _; repeat split; eauto|reflexivity].
    + split; [discriminate|intros (_ & _ & _ & H); discriminate].
    + split; [discriminate|intros (_ & _ & _ & H); discriminate].
  - split; [discriminate|intros (_ & _ & [u H] & _); discriminate].
Qed.

Lemma cleanup_unwritable (t : Z) (p : Pipeline.Pipeline) (w : Pipeline.World) :
  Pipeline.diskWritable w = false ->
  exists w', Pipeline.cleanup t p w = (w', Throw (FsError "EACCES"))
             /\ Pipeline.progressFile w' = Pipeline.progressFile w.
Proof.
  intros Hw. unfold Pipeline.cleanup, Pipeline.cleanupBody.
  destruct (Pipeline.logout (Pipeline.scraper p)) as [u|e].
  - destruct (Pipeline.cluster p) as [c|]; [destruct (Pipeline.close c)|];
      unfold Pipeline.saveProgress; cbn -[isoString]; rewrite ?Hw;
      cbn -[isoString]; rewrite ?Hw; eexists; split; reflexivity.
  - unfold Pipeline.saveProgress. rewrite Hw. cbn -[isoString].
    rewrite ?Hw. eexists; split; reflexivity.
Qed.

Lemma cleanup_writable (t : Z) (p : Pipeline.Pipeline) (w : Pipeline.World) :
  Pipeline.diskWritable w = true ->
  exists w' r,
    Pipeline.cleanup t p w = (w', Ok tt)
    /\ Pipeline.progressFile w' = Some r
    /\ Pipeline.completed (Pipeline.progress r) = true
    /\ Pipeline.totalTweets r = Pipeline.uniqueTweets (Pipeline.stats p)
    /\ Pipeline.exitCode w' = Pipeline.exitCode w.
Proof.
  intros Hw. unfold Pipeline.cleanup, Pipeline.cleanupBody.
  destruct (Pipeline.logout (Pipeline.scraper p)) as [u|e].
  - destruct (Pipeline.cluster p) as [c|]; [destruct (Pipeline.close c)|];
      unfold Pipeline.saveProgress; cbn -[isoString]; rewrite ?Hw;
      cbn -[isoString]; rewrite ?Hw; eexists; eexists; repeat split.
  - unfold Pipeline.saveProgress. rewrite Hw. cbn -[isoString].
    rewrite ?Hw. eexists; eexists; repeat split.
Qed.

Lemma topTweetsOf_In (tweets : list Post) (e : Analytics.TopTweet) :
  In e (Analytics.topTweetsOf tweets) ->
  exists t, In t tweets /\ e = Analytics.summary t.
Proof.
  unfold Analytics.topTweetsOf. intros He.
  apply in_map_iff in He. destruct He as (t & <- & Ht).
  destruct (sliceFromZero_prefix
              (jsSort Analytics.likesCompare
                 (filter Analytics.notRetweet tweets)) 5) as [m Hm].
  rewrite Hm in Ht. apply firstn_incl in Ht. apply jsSort_In in Ht.
  apply filter_In in Ht. exists t. split; [apply Ht|reflexivity].
Qed.

Lemma displayTopTweets_valid (h : JsHost) (l : list Analytics.TopTweet) :
  Forall (fun e => forall ms, Analytics.topTimestamp e = Millis ms ->
                              Z.abs ms <= maxTimeValue) l ->
  displayTopTweets h l = Ok tt.
Proof.
  induction 1 as [|e l He _ IH]; [reflexivity|].
  cbn [displayTopTweets]. destruct (Analytics.topTimestamp e) as [ms| |];
    [|exact IH|exact IH].
  destruct (ms =? 0); [exact IH|].
  specialize (He ms eq_refl). unfold newDate.
  destruct (Z.leb_spec (Z.abs ms) maxTimeValue); [|lia].
  cbn [format bind]. exact IH.
Qed.

(** The summary of the analytics of well-formed posts can be printed. *)
Lemma displaySummary_wellFormed (h : JsHost) (posts : list Post)
  (a : Analytics.Analytics) :
  Forall wellFormed posts ->
  Analytics.generateAnalytics h posts = Ok a ->
  displaySummary h a = Ok tt.
Proof.
  intros Hwf Ha. unfold displaySummary.
  rewrite (generateAnalytics_topTweets _ _ Ha).
  apply displayTopTweets_valid. rewrite Forall_forall. intros e He ms Hms.
  apply topTweetsOf_In in He. destruct He as (t & Ht & ->).
  rewrite Forall_forall in Hwf.
  destruct (Hwf t Ht) as (_ & (m & Hm & Hr & _) & _).
  cbn in Hms. assert (m = ms) by congruence. subst m. lia.
Qed.

Lemma saveTweets_ok (h : JsHost)
  (summaryOf : list Post -> Analytics.Analytics -> string)
  (fs : Storage.Partition) (tweets : list Post) (a : Analytics.Analytics) :
  Analytics.generateAnalytics h tweets = Ok a ->
  exists fs',
    Storage.saveTweets h summaryOf true fs tweets = (fs', Ok a)
    /\ Storage.rawTweets fs' = Some tweets
    /\ Storage.statsFile fs' = Some a.
Proof.
  intros Ha. unfold Storage.saveTweets. cbn [negb]. rewrite Ha.
  destruct (Finetuning.generateFinetuningData tweets); eexists; repeat split.
Qed.
End RunFacts.

(** X23.  Without a user name or a password in the environment the
    process ends with exit code 1 and nothing else happens: the pipeline,
    its counters, the files and the progress record are those of before,
    and the session is not touched. *)
Theorem X23_missing_credentials_exit_1 (o : Run.Outside) (m : Run.Machine) :
  truthyString (Run.TWITTER_USERNAME (Run.credentials o)) = false
  \/ truthyString (Run.TWITTER_PASSWORD (Run.credentials o)) = false ->
  Run.main o m
  = Run.mkMachine (Run.pipe m) (Pipeline.exit (Run.world m) 1) (Run.files m).
Proof.
  intros H. apply validateEnvironment_false in H.
  unfold Run.main, Run.run. now rewrite H.
Qed.

Lemma X23_missing_credentials_exit_1_witness :
  Run.main (Fixture.outside Fixture.noPassword)
    (Fixture.machine Fixture.calmPipeline true)
  = Run.mkMachine (Run.pipe (Fixture.machine Fixture.calmPipeline true))
      (Pipeline.exit (Run.world (Fixture.machine Fixture.calmPipeline true)) 1)
      (Run.files (Fixture.machine Fixture.calmPipeline true)).
Proof.
  apply X23_missing_credentials_exit_1. now right.
Defined.

(** X24.  Authentication succeeds exactly when the token and the ct0
    cookie are set, the cookies are accepted and the scraper reports a
    logged-in session.  When it does not, or when the profile cannot be
    fetched, the run ends quietly: the exit code is 0, nothing was asked
    of the feed, no file and no progress record was written and there
    was no logout. *)
Theorem X24_failed_login_exits_0 (o : Run.Outside) (m : Run.Machine)
  (setup : Run.FilterSetup) :
  Run.validateEnvironment (Run.credentials o) = true ->
  Run.filterStep o = Ok (Some setup) ->
  Run.initializeScraper (Run.credentials o) (Run.session o) = false
  \/ (exists e, Run.fetchProfile (Run.session o) = Throw e) ->
  (Run.initializeScraper (Run.credentials o) (Run.session o) = true
   <-> truthyString (Run.TWITTER_AUTH_TOKEN (Run.credentials o)) = true
       /\ truthyString (Run.TWITTER_CT0 (Run.credentials o)) = true
       /\ (exists u, Run.setCookies (Run.session o) = Ok u)
       /\ Run.isLoggedIn (Run.session o) = Ok true)
  /\ Run.main o m
     = Run.mkMachine (Run.withFilter (Run.pipe m) (Run.include setup))
         (Pipeline.exit (Run.world m) 0) (Run.files m).
Proof.
  intros Hv Hf Hfail. split; [apply initializeScraper_true|].
  unfold Run.main, Run.run, Run.attempt. rewrite Hv, Hf. cbn [negb].
  destruct (Run.initializeScraper (Run.credentials o) (Run.session o)) eqn:Ei.
  - destruct Hfail as [Hfail|[e He]]; [discriminate|].
    unfold Run.getProfile. now rewrite He.
  - reflexivity.
Qed.

Lemma X24_failed_login_exits_0_witness :
  (Run.initializeScraper
     (Run.credentials (Fixture.outside Fixture.noToken))
     (Run.session (Fixture.outside Fixture.noToken)) = true
   <-> truthyString (Run.TWITTER_AUTH_TOKEN
                       (Run.credentials (Fixture.outside Fixture.noToken)))
       = true
       /\ truthyString (Run.TWITTER_CT0
                          (Run.credentials (Fixture.outside Fixture.noToken)))
          = true
       /\ (exists u,
              Run.setCookies (Run.session (Fixture.outside Fixture.noToken))
              = Ok u)
       /\ Run.isLoggedIn (Run.session (Fixture.outside Fixture.noToken))
          = Ok true)
  /\ Run.main (Fixture.outside Fixture.noToken)
       (Fixture.machine Fixture.calmPipeline true)
     = Run.mkMachine
         (Run.withFilter (Run.pipe (Fixture.machine Fixture.calmPipeline true))
            (Run.include Fixture.everything))
         (Pipeline.exit
            (Run.world (Fixture.machine Fixture.calmPipeline true)) 0)
         (Run.files (Fixture.machine Fixture.calmPipeline true)).
Proof.
  apply (@X24_failed_login_exits_0 (Fixture.outside Fixture.noToken)
           (Fixture.machine Fixture.calmPipeline true) Fixture.everything).
  - reflexivity.
  - reflexivity.
  - now left.
Defined.

Lemma collectTweets_wellFormed (h : JsHost) (p p' : Pipeline.Pipeline)
  (fromDateObj toDateObj : option JsNumber) (posts : list Post) :
  Pipeline.collectTweets h p fromDateObj toDateObj = (p', Ok posts) ->
  Forall wellFormed posts.
Proof.
  unfold Pipeline.collectTweets.
  destruct (Pipeline.searchQuery h p fromDateObj toDateObj) as [query|];
    [|discriminate].
  intros Hloop. eapply collectLoop_wellFormed; [exact Hloop|constructor].
Qed.

(** X25.  When the feed fails during a run that passed validation,
    login and the profile request, the run cleans up: on a writable disk
    the progress record is marked completed and counts the posts
    collected before the failure, no file of the corpus is written, and
    the process exits with code 0. *)
Theorem X25_failed_collection_is_cleaned_up (o : Run.Outside)
  (m : Run.Machine) (setup : Run.FilterSetup) (profile : Run.Profile)
  (p1 : Pipeline.Pipeline) (e : JsError) :
  Run.validateEnvironment (Run.credentials o) = true ->
  Run.filterStep o = Ok (Some setup) ->
  Run.initializeScraper (Run.credentials o) (Run.session o) = true ->
  Run.fetchProfile (Run.session o) = Ok profile ->
  Pipeline.collectTweets (Run.host o)
    (Run.withFilter (Run.pipe m) (Run.include setup))
    (Run.fromDateObj setup) (Run.toDateObj setup) = (p1, Throw e) ->
  Pipeline.diskWritable (Run.world m) = true ->
  exists r,
    Run.pipe (Run.main o m) = p1
    /\ Run.files (Run.main o m) = Run.files m
    /\ Pipeline.progressFile (Run.world (Run.main o m)) = Some r
    /\ Pipeline.completed (Pipeline.progress r) = true
    /\ Pipeline.totalTweets r = Pipeline.uniqueTweets (Pipeline.stats p1)
    /\ Pipeline.exitCode (Run.world (Run.main o m)) = Some 0.
Proof.
  intros Hv Hf Hi Hp Hc Hw.
  unfold Run.main, Run.run, Run.attempt, Run.getProfile.
  rewrite Hv, Hf, Hi, Hp, Hc. cbn [negb].
  destruct (@cleanup_writable (Run.now o) p1 _ Hw)
    as (w' & r & Hclean & Hfile & Hdone & Htotal & _).
  rewrite Hclean. exists r. cbn. repeat split; assumption.
Qed.

Lemma X25_failed_collection_is_cleaned_up_witness :
  exists r,
    Run.pipe (Run.main (Fixture.outside Fixture.goodCredentials)
                (Fixture.machine Sample.limitedPipeline true))
    = fst (Pipeline.collectTweets utcHost Sample.limitedPipeline None None)
    /\ Run.files (Run.main (Fixture.outside Fixture.goodCredentials)
                    (Fixture.machine Sample.limitedPipeline true))
       = Run.files (Fixture.machine Sample.limitedPipeline true)
    /\ Pipeline.progressFile
         (Run.world (Run.main (Fixture.outside Fixture.goodCredentials)
                       (Fixture.machine Sample.limitedPipeline true)))
       = Some r
    /\ Pipeline.completed (Pipeline.progress r) = true
    /\ Pipeline.totalTweets r
       = Pipeline.uniqueTweets
           (Pipeline.stats
              (fst (Pipeline.collectTweets utcHost Sample.limitedPipeline
                      None None)))
    /\ Pipeline.exitCode
         (Run.world (Run.main (Fixture.outside Fixture.goodCredentials)
                       (Fixture.machine Sample.limitedPipeline true)))
       = Some 0.
Proof.
  apply (@X25_failed_collection_is_cleaned_up
           (Fixture.outside Fixture.goodCredentials)
           (Fixture.machine Sample.limitedPipeline true)
           Fixture.everything (Run.mkProfile (Some 10) (Some 20))
           (fst (Pipeline.collectTweets utcHost Sample.limitedPipeline None None))
           Sample.rateLimited);
    reflexivity.
Defined.

(** X26.  A run that collects at least one post on a writable disk
    saves the collected list and its analytics and exits with code 0.
    It writes no progress record and does not log out: both belong to
    the cleanup, which a successful run never reaches. *)
Theorem X26_successful_run (o : Run.Outside) (m : Run.Machine)
  (setup : Run.FilterSetup) (profile : Run.Profile)
  (p1 : Pipeline.Pipeline) (posts : list Post) :
  Run.validateEnvironment (Run.credentials o) = true ->
  Run.filterStep o = Ok (Some setup) ->
  Run.initializeScraper (Run.credentials o) (Run.session o) = true ->
  Run.fetchProfile (Run.session o) = Ok profile ->
  Pipeline.collectTweets (Run.host o)
    (Run.withFilter (Run.pipe m) (Run.include setup))
    (Run.fromDateObj setup) (Run.toDateObj setup) = (p1, Ok posts) ->
  posts <> [] ->
  Pipeline.diskWritable (Run.world m) = true ->
  exists a,
    Analytics.generateAnalytics (Run.host o) posts = Ok a
    /\ Run.pipe (Run.main o m) = p1
    /\ Storage.rawTweets (Run.files (Run.main o m)) = Some posts
    /\ Storage.statsFile (Run.files (Run.main o m)) = Some a
    /\ Pipeline.progressFile (Run.world (Run.main o m))
       = Pipeline.progressFile (Run.world m)
    /\ Pipeline.sessionReleased (Run.world (Run.main o m))
       = Pipeline.sessionReleased (Run.world m)
    /\ Pipeline.exitCode (Run.world (Run.main o m)) = Some 0.
Proof.
  intros Hv Hf Hi Hp Hc Hne Hw.
  pose proof (@collectTweets_wellFormed _ _ _ _ _ _ Hc) as Hwf.
  destruct (@wellFormed_analytics (Run.host o) _ Hwf) as [a Ha].
  destruct (@saveTweets_ok (Run.host o) (Run.summaryOf o) (Run.files m)
              posts a Ha) as (fs' & Hsave & Hraw & Hstats).
  exists a. split; [exact Ha|].
  unfold Run.main, Run.run, Run.attempt, Run.getProfile.
  rewrite Hv, Hf, Hi, Hp, Hc, Hw, Hsave. cbn [negb].
  assert (Hlen : (0 <? List.length posts)%nat = true).
  { destruct posts; [congruence|reflexivity]. }
  rewrite Hlen, (@displaySummary_wellFormed _ _ _ Hwf Ha). cbn.
  repeat split; assumption.
Qed.

Lemma X26_successful_run_witness :
  exists posts a,
    snd (Pipeline.collectTweets utcHost Fixture.calmPipeline None None)
    = Ok posts
    /\ Analytics.generateAnalytics utcHost posts = Ok a
    /\ Run.pipe (Run.main (Fixture.outside Fixture.goodCredentials)
                   (Fixture.machine Fixture.calmPipeline true))
       = fst (Pipeline.collectTweets utcHost Fixture.calmPipeline None None)
    /\ Storage.rawTweets
         (Run.files (Run.main (Fixture.outside Fixture.goodCredentials)
                       (Fixture.machine Fixture.calmPipeline true)))
       = Some posts
    /\ Storage.statsFile
         (Run.files (Run.main (Fixture.outside Fixture.goodCredentials)
                       (Fixture.machine Fixture.calmPipeline true)))
       = Some a
    /\ Pipeline.progressFile
         (Run.world (Run.main (Fixture.outside Fixture.goodCredentials)
                       (Fixture.machine Fixture.calmPipeline true)))
       = Pipeline.progressFile
           (Run.world (Fixture.machine Fixture.calmPipeline true))
    /\ Pipeline.sessionReleased
         (Run.world (Run.main (Fixture.outside Fixture.goodCredentials)
                       (Fixture.machine Fixture.calmPipeline true)))
       = Pipeline.sessionReleased
           (Run.world (Fixture.machine Fixture.calmPipeline true))
    /\ Pipeline.exitCode
         (Run.world (Run.main (Fixture.outside Fixture.goodCredentials)
                       (Fixture.machine Fixture.calmPipeline true)))
       = Some 0.
Proof.
  exists (contribution "alice" (fun _ => true)
            [Sample.rawSeconds; Fixture.rawLater]).
  destruct (@X26_successful_run
              (Fixture.outside Fixture.goodCredentials)
              (Fixture.machine Fixture.calmPipeline true)
              Fixture.everything (Run.mkProfile (Some 10) (Some 20))
              (fst (Pipeline.collectTweets utcHost Fixture.calmPipeline
                      None None))
              (contribution "alice" (fun _ => true)
                 [Sample.rawSeconds; Fixture.rawLater]))
    as [a H]; try reflexivity.
  - discriminate.
  - exists a. split; [reflexivity|exact H].
Defined.

(** X27.  The exit code of the process is 1 or 0.  It is 1 exactly when
    a credential is missing, or when the run failed and the progress
    record of the cleanup could not be written; a run that fails on a
    writable disk exits with 0 like a run that succeeds. *)
Theorem X27_exit_code (o : Run.Outside) (m : Run.Machine) :
  (Pipeline.exitCode (Run.world (Run.main o m)) = Some 1
   <-> Run.validateEnvironment (Run.credentials o) = false
       \/ (Pipeline.diskWritable (Run.world m) = false
           /\ exists p' fs' e, Run.attempt o m = (p', fs', Throw e)))
  /\ (Pipeline.exitCode (Run.world (Run.main o m)) = Some 0
      \/ Pipeline.exitCode (Run.world (Run.main o m)) = Some 1).
Proof.
  unfold Run.main, Run.run.
  destruct (Run.validateEnvironment (Run.credentials o)); cbn [negb].
  - destruct (Run.attempt o m) as [[p' fs'] [u|e]].
    + cbn. split; [|now left]. split; [discriminate|].
      intros [H|[_ (? & ? & ? & H)]]; discriminate.
    + destruct (Pipeline.diskWritable (Run.world m)) eqn:Hw.
      * destruct (@cleanup_writable (Run.now o) p' _ Hw)
          as (w' & r & Hclean & _).
        rewrite Hclean. cbn. split; [|now left].
        split; [discriminate|]. intros [H|[H _]]; discriminate.
      * destruct (@cleanup_unwritable (Run.now o) p' _ Hw)
          as (w' & Hclean & _).
        rewrite Hclean. cbn. split; [|now right].
        split; [|reflexivity]. intros _. right. split; [reflexivity|].
        now exists p', fs', e.
  - cbn. split; [|now right]. split; [now left|reflexivity].
Qed.

(* ================================================================== *)
(** ** The merge script *)


(** X28.  The merge script ends with exit code 1 and writes nothing
    when no name is given, when fewer than two source accounts are
    given, or when a source account has no directory; in the last case
    the count displayed for that account before the prompt was 0. *)
Theorem X28_merge_script_refusals (h : JsHost)
  (summaryOf : list Post -> Analytics.Analytics -> string)
  (prompt : list (string * Z) -> result Merge.MergeOptions)
  (fs : Merge.Store) (writable : bool) (files : Storage.Partition)
  (args : list string) :
  truthyString (hd_error args) = false
  \/ (List.length (tl args) < 2)%nat
  \/ (exists a, In a (tl args) /\ fs a = None) ->
  MergeScript.main h summaryOf prompt fs writable files args = (files, 1)
  /\ forall a, fs a = None -> MergeScript.availableCount fs a = 0.
Proof.
  intros Hbad. split.
  - unfold MergeScript.main.
    destruct (truthyString (hd_error args)) eqn:Hname; cbn [negb orb];
      [|reflexivity].
    destruct (Nat.ltb_spec (List.length (tl args)) 2) as [|Hlen];
      [reflexivity|].
    destruct Hbad as [Hbad|[Hbad|(a & Ha & Hnone)]]; [discriminate|lia|].
    destruct (prompt _) as [options|]; [|reflexivity].
    unfold MergeScript.createMergedCharacter, Merge.topTweets.
    pose proof (loadAccounts_outcome fs (tl args) []) as Hload.
    destruct (Merge.loadAccounts fs (tl args) []); [|reflexivity].
    exfalso. exact (Hload a Ha Hnone).
  - intros a Ha. unfold MergeScript.availableCount, Merge.getTweetsForAccount.
    now rewrite Ha.
Qed.

Lemma X28_merge_script_refusals_witness :
  MergeScript.main utcHost Fixture.plainSummary
    (fun _ => Ok (Merge.mkOptions (Some 10) true Merge.TotalEngagement))
    Sample.specAccounts true Storage.emptyPartition ["merged"; "a"; "zed"]
  = (Storage.emptyPartition, 1)
  /\ forall a, Sample.specAccounts a = None ->
               MergeScript.availableCount Sample.specAccounts a = 0.
Proof.
  apply X28_merge_script_refusals.
  right. right. exists "zed". split; [cbn; auto|reflexivity].
Defined.

(** X29.  With a name, at least two accounts that all have a directory,
    an answered prompt and a writable disk, the merge script leaves the
    merged list in the raw file of the new character.  It ends with exit
    code 0 when the analytics of that list can be computed and with 1
    otherwise, the raw file being written in both cases. *)
Theorem X29_merge_script_saves_the_merge (h : JsHost)
  (summaryOf : list Post -> Analytics.Analytics -> string)
  (prompt : list (string * Z) -> result Merge.MergeOptions)
  (fs : Merge.Store) (files : Storage.Partition)
  (name : string) (accounts : list string)
  (options : Merge.MergeOptions) (top : list Post) :
  name <> "" ->
  (2 <= List.length accounts)%nat ->
  prompt (map (fun a => (a, MergeScript.availableCount fs a)) accounts)
  = Ok options ->
  Merge.topTweets fs accounts options = Ok top ->
  Storage.rawTweets
    (fst (MergeScript.main h summaryOf prompt fs true files (name :: accounts)))
  = Some top
  /\ (snd (MergeScript.main h summaryOf prompt fs true files (name :: accounts))
      = 0
      <-> exists a, Analytics.generateAnalytics h top = Ok a)
  /\ (snd (MergeScript.main h summaryOf prompt fs true files (name :: accounts))
      = 0
      \/ snd (MergeScript.main h summaryOf prompt fs true files
                (name :: accounts)) = 1).
Proof.
  intros Hname Hlen Hprompt Hmerge. unfold MergeScript.main.
  cbn [hd_error tl truthyString].
  destruct (String.eqb_spec name "") as [|_]; [congruence|].
  destruct (Nat.ltb_spec (List.length accounts) 2) as [|_]; [lia|].
  cbn [negb orb]. rewrite Hprompt.
  assert (Heta : Merge.mkOptions (Merge.tweetsPerAccount options)
                   (Merge.excludeRetweets options)
                   (Merge.rankingMethod options) = options)
    by (destruct options; reflexivity).
  rewrite Heta. unfold MergeScript.createMergedCharacter. rewrite Hmerge.
  unfold Storage.saveTweets. cbn [negb].
  destruct (Analytics.generateAnalytics h top) as [a|e].
  - destruct (Finetuning.generateFinetuningData top); cbn;
      (split; [reflexivity|]); (split; [|now left]);
      (split; [intros _; now exists a|reflexivity]).
  - cbn. split; [reflexivity|]. split; [|now right].
    split; [discriminate|intros [a Ha]; discriminate].
Qed.

Lemma X29_merge_script_saves_the_merge_witness :
  Storage.rawTweets
    (fst (MergeScript.main utcHost Fixture.plainSummary
            (fun _ => Ok (Merge.mkOptions (Some 10) true Merge.TotalEngagement))
            Sample.specAccounts true Storage.emptyPartition
            ("merged" :: ["a"; "b"])))
  = Some [Sample.b110; Sample.a100; Sample.a5]
  /\ (snd (MergeScript.main utcHost Fixture.plainSummary
             (fun _ => Ok (Merge.mkOptions (Some 10) true
                             Merge.TotalEngagement))
             Sample.specAccounts true Storage.emptyPartition
             ("merged" :: ["a"; "b"])) = 0
      <-> exists a,
            Analytics.generateAnalytics utcHost
              [Sample.b110; Sample.a100; Sample.a5] = Ok a)
  /\ (snd (MergeScript.main utcHost Fixture.plainSummary
             (fun _ => Ok (Merge.mkOptions (Some 10) true
                             Merge.TotalEngagement))
             Sample.specAccounts true Storage.emptyPartition
             ("merged" :: ["a"; "b"])) = 0
      \/ snd (MergeScript.main utcHost Fixture.plainSummary
                (fun _ => Ok (Merge.mkOptions (Some 10) true
                                Merge.TotalEngagement))
                Sample.specAccounts true Storage.emptyPartition
                ("merged" :: ["a"; "b"])) = 1).
Proof.
  apply (@X29_merge_script_saves_the_merge utcHost Fixture.plainSummary
           (fun _ => Ok (Merge.mkOptions (Some 10) true Merge.TotalEngagement))
           Sample.specAccounts Storage.emptyPartition "merged" ["a"; "b"]
           (Merge.mkOptions (Some 10) true Merge.TotalEngagement)
           [Sample.b110; Sample.a100; Sample.a5]).
  - discriminate.
  - cbn. lia.
  - reflexivity.
  - reflexivity.
Defined.
